(** * Mask propagation of [MaskedArray.py], over a model of the dense storage engine

    The development embeds the masked-array layer of [src/MaskedArray.py]:
    the (data, mask) pair, its scalar variant, the elementwise dispatcher
    classes and the whole-function implementations registered in
    [setup_ducktype].  The dense arrays themselves (numpy) are the storage
    collaborator: they are modelled in [Module np] as a shape together with
    an indexing function, and the numeric kernels on single elements are the
    fields of the class [Kernels].

    Calls are modelled with their default keyword arguments: [where],
    [order], [initial], [casting], [kind] and [sorter] are not part of the
    fragment, and [out] is modelled for the binary operations only (the
    in-place product of [var] passes it). *)

From Stdlib Require Import List ZArith QArith Bool Lia Arith PeanoNat String.
From Stdlib Require Import Permutation Sorted.
Import ListNotations.

Local Open Scope nat_scope.

(** ** Exceptions and fallible results *)

Inductive exn : Type :=
| TypeError | ValueError | NameError | AttributeError | IndexError
| AxisError | UnboundLocalError | MemoryError | Exception
| OverflowError | UFuncTypeError.

Inductive result (A : Type) : Type :=
| Ok (a : A)
| Raise (e : exn).

Arguments Ok {A} a.
Arguments Raise {A} e.

Definition bind {A B : Type} (c : result A) (k : A -> result B) : result B :=
  match c with
  | Ok a => k a
  | Raise e => Raise e
  end.

Notation "x <- c ;; k" := (bind c (fun x => k))
  (at level 61, c at next level, right associativity).
Notation "' p <- c ;; k" := (bind c (fun x => let p := x in k))
  (at level 61, p pattern, c at next level, right associativity).

(** ** Data types of the storage engine *)

Inductive dtype : Type :=
| bool_ | int8 | int16 | int32 | int64
| uint8 | uint16 | uint32 | uint64
| float16 | float32 | float64
| complex64 | complex128.

Definition dtype_eqb (a b : dtype) : bool :=
  match a, b with
  | bool_, bool_ | int8, int8 | int16, int16 | int32, int32 | int64, int64
  | uint8, uint8 | uint16, uint16 | uint32, uint32 | uint64, uint64
  | float16, float16 | float32, float32 | float64, float64
  | complex64, complex64 | complex128, complex128 => true
  | _, _ => false
  end.

(** [issubclass(dt.type, (np.integer, np.bool_))] *)
Definition is_integer_or_bool (dt : dtype) : bool :=
  match dt with
  | bool_ | int8 | int16 | int32 | int64
  | uint8 | uint16 | uint32 | uint64 => true
  | _ => false
  end.

(** [issubclass(dt.type, np.float16)] *)
Definition is_float16 (dt : dtype) : bool :=
  match dt with float16 => true | _ => false end.

(** [issubclass(dt.type, np.complexfloating)] *)
Definition is_complexfloating (dt : dtype) : bool :=
  match dt with complex64 | complex128 => true | _ => false end.

(** [np.intp], the type of counts and of index arrays. *)
Definition intp : dtype := int64.

(** The element kernels of the storage engine.  [T] is the type of the
    element values; the fields are the operations the masked layer calls on
    them. *)
Class Kernels (T : Type) : Type := {
  (** [dtype.type(n)], also the conversion of the Python integers 0 and 1
      stored into an array of that dtype *)
  of_int : dtype -> Z -> T;
  (** conversion of a value to a dtype ([astype], [dtype.type(x)]) *)
  astype : dtype -> T -> T;
  (** [bool(x)] *)
  truth : T -> bool;
  (** the order used by the sorting kernels *)
  sort_le : T -> T -> bool;
  (** [x == y] *)
  equal : T -> T -> bool;
  (** [np.add], [np.multiply], [np.subtract], [np.conjugate], [.real] *)
  add : T -> T -> T;
  multiply : T -> T -> T;
  subtract : T -> T -> T;
  conjugate : T -> T;
  real_part : T -> T;
  (** [np.result_type] of two operand dtypes *)
  result_type : dtype -> dtype -> dtype;
  (** [x / n] for a count [n], under [np.errstate(divide='ignore',
      invalid='ignore')]: total, a zero count gives a non-finite value *)
  true_divide : T -> Z -> T;
  (** [ntypes._minvals] and [ntypes._maxvals] after the updates of lines
      745-751: no entry ([None]) for the dtypes without extremum *)
  _max_filler : dtype -> option T;
  _min_filler : dtype -> option T;
  (** the element stored by [a[...] = None]: NaN in the inexact dtypes;
      the integer dtypes refuse it *)
  of_none : dtype -> option T;
  (** the element of the dtype made from a number of the caller, by
      [a[...] = x] and by [dtype.type(x)]: the number converted, or the
      error of the conversion (a NaN has no integer) *)
  convert : dtype -> T -> result T;
  (** [np.can_cast(from, to, casting='same_kind')], the rule under which a
      ufunc stores its result into [out] *)
  can_cast : dtype -> dtype -> bool
}.

(** ** The storage engine *)

(** An n-dimensional array: its dtype, its shape, the element at each
    multi-index, and [flags['WRITEABLE']]. *)
Record ndarray (T : Type) : Type := mk_ndarray {
  dtype_of : dtype;
  shape : list nat;
  item : list nat -> T;
  writeable : bool
}.

Arguments mk_ndarray {T} _ _ _ _.
Arguments dtype_of {T} _.
Arguments shape {T} _.
Arguments item {T} _ _.
Arguments writeable {T} _.

(** A value of the engine: a scalar ([np.generic]) or an array. *)
Inductive npvalue (T : Type) : Type :=
| Generic (dt : dtype) (x : T)
| NDArray (a : ndarray T).

Arguments Generic {T} dt x.
Arguments NDArray {T} a.

Definition in_bounds (shp idx : list nat) : Prop := Forall2 lt idx shp.

(** [s1 == s2] on shapes *)
Fixpoint shape_eqb (s1 s2 : list nat) : bool :=
  match s1, s2 with
  | [], [] => true
  | a :: s1', b :: s2' => (a =? b) && shape_eqb s1' s2'
  | _, _ => false
  end.

Arguments shape_eqb : simpl never.

Definition ndim {T} (a : ndarray T) : nat := List.length (shape a).

(** All the multi-indices of a shape, in C order. *)
Fixpoint indices (shp : list nat) : list (list nat) :=
  match shp with
  | [] => [[]]
  | n :: s => flat_map (fun i => map (cons i) (indices s)) (seq 0 n)
  end.

Definition as_array {T} (v : npvalue T) : ndarray T :=
  match v with
  | Generic dt x => mk_ndarray dt [] (fun _ => x) false
  | NDArray a => a
  end.

Definition value_shape {T} (v : npvalue T) : list nat := shape (as_array v).
Definition value_dtype {T} (v : npvalue T) : dtype := dtype_of (as_array v).

(** The engine hands back a scalar, not a 0-d array, when the result of a
    kernel has no dimension. *)
Definition decay {T} (r : ndarray T) : npvalue T :=
  match shape r with
  | [] => Generic (dtype_of r) (item r [])
  | _ :: _ => NDArray r
  end.

(** *** Broadcasting: shapes are aligned on their last dimension *)

Fixpoint bshape_rev (r1 r2 : list nat) : option (list nat) :=
  match r1, r2 with
  | [], r => Some r
  | r, [] => Some r
  | a :: r1', b :: r2' =>
      match bshape_rev r1' r2' with
      | None => None
      | Some r =>
          if a =? b then Some (a :: r)
          else if a =? 1 then Some (b :: r)
          else if b =? 1 then Some (a :: r)
          else None
      end
  end.

Definition broadcast_shapes (s1 s2 : list nat) : option (list nat) :=
  option_map (@rev nat) (bshape_rev (rev s1) (rev s2)).

Fixpoint bindex_rev (rs ri : list nat) : list nat :=
  match rs, ri with
  | [], _ => []
  | _ :: _, [] => []
  | n :: rs', i :: ri' => (if n =? 1 then 0 else i) :: bindex_rev rs' ri'
  end.

(** The index of the element of an array of shape [shp] that is seen at
    [idx] once the array is broadcast to a larger shape. *)
Definition bindex (shp idx : list nat) : list nat :=
  rev (bindex_rev (rev shp) (rev idx)).

(** A binary elementwise kernel with result dtype [dt]. *)
Definition elementwise2 {A B C} (f : A -> B -> C) (dt : dtype)
    (a : npvalue A) (b : npvalue B) : result (npvalue C) :=
  match broadcast_shapes (value_shape a) (value_shape b) with
  | None => Raise ValueError
  | Some s =>
      Ok (decay (mk_ndarray dt s
            (fun idx => f (item (as_array a) (bindex (value_shape a) idx))
                          (item (as_array b) (bindex (value_shape b) idx)))
            true))
  end.

(** A unary elementwise kernel. *)
Definition elementwise1 {A B} (f : A -> B) (dt : dtype) (a : ndarray A)
  : ndarray B :=
  mk_ndarray dt (shape a) (fun idx => f (item a idx)) true.

Definition set_writeable {T} (a : ndarray T) (w : bool) : ndarray T :=
  mk_ndarray (dtype_of a) (shape a) (item a) w.

(** [d[m] = v] for a boolean array [m] of the shape of [d], or a boolean
    scalar ([d[False] = v] stores nothing, [d[True] = v] stores everywhere),
    and an element [v] of the dtype of [d] (a value of another kind is
    converted first, see [stored]).  A read-only destination is refused. *)
Definition setitem_mask {T} (d : ndarray T) (m : npvalue bool) (v : T)
  : result (ndarray T) :=
  if negb (writeable d) then Raise ValueError else
  match m with
  | Generic _ b =>
      Ok (mk_ndarray (dtype_of d) (shape d)
            (fun idx => if b then v else item d idx) true)
  | NDArray mk =>
      if shape_eqb (shape mk) (shape d)
      then Ok (mk_ndarray (dtype_of d) (shape d)
                 (fun idx => if item mk idx then v else item d idx) true)
      else Raise IndexError
  end.

(** A one-dimensional array from a list. *)
Definition array1 {T} (dt : dtype) (dflt : T) (l : list T) : ndarray T :=
  mk_ndarray dt [List.length l]
    (fun idx => match idx with
                | [i] => nth i l dflt
                | _ => dflt
                end) true.

(** A two-dimensional array from a list of rows of length [n]. *)
Definition array2 {T} (dt : dtype) (dflt : T) (n : nat) (l : list (list T))
  : ndarray T :=
  mk_ndarray dt [List.length l; n]
    (fun idx => match idx with
                | [i; j] => nth j (nth i l []) dflt
                | _ => dflt
                end) true.

(** The elements of an array, in C order. *)
Definition ravel {T} (a : ndarray T) : list T :=
  map (item a) (indices (shape a)).

(** *** Reductions along an axis *)

(** [normalize_axis_index(axis, nd)] *)
Definition normalize_axis_index (axis : Z) (nd : nat) : result nat :=
  if ((- Z.of_nat nd <=? axis) && (axis <? Z.of_nat nd))%Z
  then Ok (Z.to_nat (if (axis <? 0)%Z then axis + Z.of_nat nd else axis))
  else Raise AxisError.

Definition insert_at (axis k : nat) (idx : list nat) : list nat :=
  firstn axis idx ++ k :: skipn axis idx.

Definition remove_at (axis : nat) (idx : list nat) : list nat :=
  firstn axis idx ++ skipn (S axis) idx.

Definition keep_at (axis : nat) (shp : list nat) : list nat :=
  firstn axis shp ++ 1 :: skipn (S axis) shp.

(** The elements of [a] that a reduction along [axis] combines into the
    result element [idx] (an index of the shape without that axis). *)
Definition lane {T} (a : ndarray T) (axis : nat) (idx : list nat) : list T :=
  map (fun k => item a (insert_at axis k idx))
      (seq 0 (nth axis (shape a) 0)).

(** The reduction of one lane by a binary kernel: the kernel is folded from
    the first element on; an empty lane gives the identity. *)
Definition fold_lane {T} (f : T -> T -> T) (ident : T) (l : list T) : T :=
  match l with
  | [] => ident
  | x :: xs => fold_left f xs x
  end.

(** [f.reduce(a, axis, keepdims=...)] for a binary kernel [f] with optional
    identity; [conv] converts the elements first (the [dtype] argument) and
    [dflt] stands for the identity where there is none (never read: the
    reduction of an empty lane without identity raises).  [axis = None]
    reduces all the elements; on a 0-d array the axes 0 and -1 are accepted
    and reduce its only element.  A 0-d result is returned as a scalar,
    with [keepdims] as without. *)
Definition reduce_axis {A B} (conv : A -> B) (f : B -> B -> B)
    (ident : option B) (dflt : B) (dt : dtype)
    (axis : option Z) (keepdims : bool) (a : ndarray A)
  : result (npvalue B) :=
  let id0 := match ident with Some i => i | None => dflt end in
  let whole :=
    let l := map conv (ravel a) in
    match l, ident with
    | [], None => Raise ValueError
    | _, _ =>
        let v := fold_lane f id0 l in
        if keepdims
        then Ok (decay (mk_ndarray dt (map (fun _ => 1) (shape a))
                          (fun _ => v) true))
        else Ok (Generic dt v)
    end in
  match axis, shape a with
  | None, _ => whole
  | Some ax, [] =>
      if ((ax =? 0) || (ax =? -1))%Z then whole else Raise AxisError
  | Some ax, _ :: _ =>
      k <- normalize_axis_index ax (ndim a) ;;
      match nth k (shape a) 0, ident with
      | 0, None => Raise ValueError
      | _, _ =>
          if keepdims
          then Ok (NDArray (mk_ndarray dt (keep_at k (shape a))
                     (fun idx => fold_lane f id0
                                   (map conv (lane a k (remove_at k idx))))
                     true))
          else Ok (decay (mk_ndarray dt (remove_at k (shape a))
                     (fun idx => fold_lane f id0 (map conv (lane a k idx)))
                     true))
      end
  end.

(** The dtype in which [np.sum] and [np.prod] accumulate by default. *)
Definition accumulator_dtype (dt : dtype) : dtype :=
  match dt with
  | bool_ | int8 | int16 | int32 | int64 => int64
  | uint8 | uint16 | uint32 | uint64 => uint64
  | _ => dt
  end.

(** *** Sorting along an axis *)

Fixpoint insert_sorted {T} (le : T -> T -> bool) (x : T) (l : list T)
  : list T :=
  match l with
  | [] => [x]
  | y :: l' => if le x y then x :: l else y :: insert_sorted le x l'
  end.

(** The sorted rearrangement of a list.  The engine's sort kinds differ in
    their algorithm only; on values they agree with this one whenever [le]
    is a total order. *)
Fixpoint sorted_list {T} (le : T -> T -> bool) (l : list T) : list T :=
  match l with
  | [] => []
  | x :: l' => insert_sorted le x (sorted_list le l')
  end.

Fixpoint first_index {A} (p : A -> bool) (l : list A) : nat :=
  match l with
  | [] => 0
  | x :: l' => if p x then 0 else S (first_index p l')
  end.

(** ** The functions of the storage engine that the sources call *)

Module np.

(** [np.broadcast_to(a, shp)]: a read-only view. *)
Definition broadcast_to {T} (v : npvalue T) (shp : list nat)
  : result (ndarray T) :=
  match broadcast_shapes (value_shape v) shp with
  | None => Raise ValueError
  | Some s =>
      if shape_eqb s shp
      then Ok (mk_ndarray (value_dtype v) shp
                 (fun idx => item (as_array v) (bindex (value_shape v) idx))
                 false)
      else Raise ValueError
  end.

Definition logical_or (a b : npvalue bool) : result (npvalue bool) :=
  elementwise2 orb bool_ a b.

Definition logical_not (a : ndarray bool) : ndarray bool :=
  elementwise1 negb bool_ a.

(** [a.copy()] and [a.view()] *)
Definition copy {T} (a : ndarray T) : ndarray T :=
  mk_ndarray (dtype_of a) (shape a) (item a) true.

Definition view {T} (a : ndarray T) : ndarray T := a.

(** [np.all(a, axis, keepdims=...)] and [np.logical_and.reduce] *)
Definition all (a : ndarray bool) (axis : option Z) (keepdims : bool)
  : result (npvalue bool) :=
  reduce_axis (fun b => b) andb (Some true) true bool_ axis keepdims a.

(** [a.sum(axis, dtype=np.intp, keepdims=...)] of a boolean array *)
Definition sum_intp (a : ndarray bool) (axis : option Z) (keepdims : bool)
  : result (npvalue Z) :=
  reduce_axis (fun b : bool => if b then 1%Z else 0%Z) Z.add (Some 0%Z) 0%Z
    intp axis keepdims a.

(** [np.sort(a, axis)]: a sorted copy *)
Definition sort {T} (le : T -> T -> bool) (a : ndarray T) (axis : Z)
  : result (ndarray T) :=
  k <- normalize_axis_index axis (ndim a) ;;
  Ok (mk_ndarray (dtype_of a) (shape a)
        (fun idx => nth (nth k idx 0)
                      (sorted_list le (lane a k (remove_at k idx)))
                      (item a idx))
        true).

(** [a.sort(axis)]: in place, refused on a read-only array *)
Definition sort_inplace {T} (le : T -> T -> bool) (a : ndarray T) (axis : Z)
  : result (ndarray T) :=
  if negb (writeable a) then Raise ValueError else sort le a axis.

(** *** Sums and products *)

(** [np.sum(a, axis, dtype=..., keepdims=...)] *)
Definition sum {T} `{Kernels T} (a : ndarray T) (axis : option Z)
    (dtype : option dtype) (keepdims : bool) : result (npvalue T) :=
  match dtype with
  | Some dt =>
      reduce_axis (astype dt) add (Some (of_int dt 0)) (of_int dt 0) dt
        axis keepdims a
  | None =>
      let dt := accumulator_dtype (dtype_of a) in
      reduce_axis (fun x => x) add (Some (of_int dt 0)) (of_int dt 0) dt
        axis keepdims a
  end.

(** [np.prod(a, axis, dtype=..., keepdims=...)] *)
Definition prod {T} `{Kernels T} (a : ndarray T) (axis : option Z)
    (dtype : option dtype) (keepdims : bool) : result (npvalue T) :=
  match dtype with
  | Some dt =>
      reduce_axis (astype dt) multiply (Some (of_int dt 1)) (of_int dt 1) dt
        axis keepdims a
  | None =>
      let dt := accumulator_dtype (dtype_of a) in
      reduce_axis (fun x => x) multiply (Some (of_int dt 1)) (of_int dt 1) dt
        axis keepdims a
  end.

(** *** Linear algebra, over the sum [plus] (from [zero]) and the product
    [times] of the element type: [add] and [multiply] on data, [orb] and
    [andb] on boolean arrays *)

Section LinAlg.
Context {A : Type} (zero : A) (plus times : A -> A -> A).

(** [np.dot(a, b)]: the product when an operand has no dimension; else the
    sum of products over the last axis of [a] and the last-but-one of [b]
    (the only axis of a one-dimensional [b]). *)
Definition dot (dt : dtype) (a b : ndarray A) : result (npvalue A) :=
  match shape a, shape b with
  | [], _ | _, [] => elementwise2 times dt (NDArray a) (NDArray b)
  | _ :: _, _ :: _ =>
      let n := last (shape a) 0 in
      let na := ndim a - 1 in
      let kb := ndim b - 2 in
      if n =? nth kb (shape b) 0 then
        Ok (decay (mk_ndarray dt (removelast (shape a) ++ remove_at kb (shape b))
              (fun idx =>
                 fold_lane plus zero
                   (map (fun k => times (item a (firstn na idx ++ [k]))
                                        (item b (insert_at kb k (skipn na idx))))
                        (seq 0 n)))
              true))
      else Raise ValueError
  end.

(** [np.vdot(a, b)] on arrays whose elements are their own conjugates *)
Definition vdot (dt : dtype) (a b : ndarray A) : result (npvalue A) :=
  if List.length (ravel a) =? List.length (ravel b) then
    Ok (Generic dt
          (fold_lane plus zero
             (map (fun p => times (fst p) (snd p))
                  (combine (ravel a) (ravel b)))))
  else Raise ValueError.

(** [np.inner(a, b)]: the sum of products over the last axes *)
Definition inner (dt : dtype) (a b : ndarray A) : result (npvalue A) :=
  match shape a, shape b with
  | [], _ | _, [] => elementwise2 times dt (NDArray a) (NDArray b)
  | _ :: _, _ :: _ =>
      let n := last (shape a) 0 in
      let na := ndim a - 1 in
      if n =? last (shape b) 0 then
        Ok (decay (mk_ndarray dt (removelast (shape a) ++ removelast (shape b))
              (fun idx =>
                 fold_lane plus zero
                   (map (fun k => times (item a (firstn na idx ++ [k]))
                                        (item b (skipn na idx ++ [k])))
                        (seq 0 n)))
              true))
      else Raise ValueError
  end.

(** [np.outer(a, b)]: both operands are flattened *)
Definition outer (dt : dtype) (dflt : A) (a b : ndarray A) : ndarray A :=
  mk_ndarray dt [List.length (ravel a); List.length (ravel b)]
    (fun idx => times (nth (nth 0 idx 0) (ravel a) dflt)
                      (nth (nth 1 idx 0) (ravel b) dflt))
    true.

End LinAlg.

(** *** Searching and indirect sorting *)

(** [np.searchsorted(a, v, side)] for a one-dimensional [a] sorted in
    ascending order: the first place where [v] can be inserted (['left']),
    or the place after the last one (['right']); another [side] is
    refused. *)
Definition searchsorted {T} (le : T -> T -> bool) (a : ndarray T)
    (v : npvalue T) (side : string) : result (npvalue Z) :=
  if negb (String.eqb side "left" || String.eqb side "right")
  then Raise ValueError else
  match shape a with
  | [_] =>
      Ok (decay (mk_ndarray intp (value_shape v)
            (fun idx =>
               let x := item (as_array v) idx in
               Z.of_nat
                 (if String.eqb side "left"
                  then first_index (fun y => le x y) (ravel a)
                  else first_index (fun y => negb (le y x)) (ravel a)))
            true))
  | _ => Raise ValueError
  end.

(** The stable sort of the positions [0 .. n-1] by each key in turn, so
    that the last key is the primary one; a key is given by its order on
    the positions. *)
Definition lexsort_lane (n : nat) (keys : list (nat -> nat -> bool))
  : list nat :=
  fold_left (fun inds le => sorted_list le inds) keys (seq 0 n).

(** [np.lexsort(keys)] along the last axis, for keys of shape [shp], each
    given by its order on the multi-indices. *)
Definition lexsort (shp : list nat)
    (keys : list (list nat -> list nat -> bool)) : ndarray Z :=
  mk_ndarray intp shp
    (fun idx =>
       let p := removelast idx in
       Z.of_nat
         (nth (last idx 0)
            (lexsort_lane (last shp 0)
               (map (fun le i j => le (p ++ [i]) (p ++ [j])) keys))
            0))
    true.

(** [np.all(a, axis, keepdims=...)] and [np.any(a, axis, keepdims=...)] of an
    array of any dtype: the truth values of the elements are combined *)
Definition all_values {T} (truth : T -> bool) (a : ndarray T)
    (axis : option Z) (keepdims : bool) : result (npvalue bool) :=
  reduce_axis truth andb (Some true) true bool_ axis keepdims a.

Definition any_values {T} (truth : T -> bool) (a : ndarray T)
    (axis : option Z) (keepdims : bool) : result (npvalue bool) :=
  reduce_axis truth orb (Some false) false bool_ axis keepdims a.

(** [np.max(a, axis, keepdims=...)] and [np.min(a, axis, keepdims=...)] for
    the kernel [extremum] of [np.maximum] or [np.minimum], which has no
    identity: an empty reduction raises.  [dflt] is never read. *)
Definition extremum_reduce {T} (extremum : T -> T -> T) (dflt : T)
    (a : ndarray T) (axis : option Z) (keepdims : bool)
  : result (npvalue T) :=
  reduce_axis (fun x => x) extremum None dflt (dtype_of a) axis keepdims a.

(** [np.count_nonzero(a, axis)]: the number of elements that are true *)
Definition count_nonzero {T} (truth : T -> bool) (a : ndarray T)
    (axis : option Z) : result (npvalue Z) :=
  reduce_axis (fun x => if truth x then 1%Z else 0%Z) Z.add (Some 0%Z) 0%Z
    intp axis false a.

(** The element at [idx] of an accumulation along the axis [k]: the kernel
    folded over the lane up to the position of [idx]. *)
Definition accumulated {A B} (conv : A -> B) (f : B -> B -> B) (dflt : B)
    (a : ndarray A) (k : nat) (idx : list nat) : B :=
  fold_lane f dflt
    (map conv (firstn (S (nth k idx 0)) (lane a k (remove_at k idx)))).

(** [f.accumulate(a, axis)] for a binary kernel [f]: a 0-d operand is
    refused once its axis is accepted (0 or -1). *)
Definition accumulate {A B} (conv : A -> B) (f : B -> B -> B) (dflt : B)
    (dt : dtype) (axis : Z) (a : ndarray A) : result (ndarray B) :=
  match shape a with
  | [] =>
      if ((axis =? 0) || (axis =? -1))%Z then Raise TypeError
      else Raise AxisError
  | _ :: _ =>
      k <- normalize_axis_index axis (ndim a) ;;
      Ok (mk_ndarray dt (shape a) (accumulated conv f dflt a k) true)
  end.

(** [np.cumsum(a, axis, dtype=...)] and [np.cumprod(a, axis, dtype=...)], for
    the kernel [f] with identity [e], with an axis given: a 0-d operand is
    taken as an array of one element. *)
Definition cumulate {T} `{Kernels T} (f : T -> T -> T) (e : Z)
    (a : ndarray T) (axis : Z) (dtype : option dtype)
  : result (ndarray T) :=
  let dt := match dtype with
            | Some dt => dt
            | None => accumulator_dtype (dtype_of a)
            end in
  let conv := match dtype with
              | Some dt => astype dt
              | None => fun x => x
              end in
  match shape a with
  | [] =>
      if ((axis =? 0) || (axis =? -1))%Z
      then Ok (mk_ndarray dt [1] (fun _ => conv (item a [])) true)
      else Raise AxisError
  | _ :: _ => accumulate conv f (of_int dt e) dt axis a
  end.

Definition cumsum {T} `{Kernels T} (a : ndarray T) (axis : Z)
    (dtype : option dtype) : result (ndarray T) :=
  cumulate add 0 a axis dtype.

Definition cumprod {T} `{Kernels T} (a : ndarray T) (axis : Z)
    (dtype : option dtype) : result (ndarray T) :=
  cumulate multiply 1 a axis dtype.

End np.


(** ** [MaskedOperatorMixin._get_fill_value] (lines 106-124)

    [fill_value = None] stands for [np._NoValue]. *)

Section FillValue.
Context {T : Type} `{Kernels T}.

(** A fill value as the sources hand it to the storage engine: a Python
    integer written in the sources ([0], [1], [True], [False]), an entry of
    the filler tables (an element of the dtype already), or a number given
    by the caller. *)
Inductive fill : Type :=
| PyInt (n : Z)
| TableEntry (v : T)
| Given (x : T).

Definition _get_fill_value (self_dtype : dtype) (fill_value : option fill)
    (minmax : option string) : result fill :=
  match minmax with
  | Some mm =>
      match fill_value with
      | Some _ => Raise Exception
      | None =>
          fv <- (if String.eqb mm "max" then Ok (_max_filler self_dtype)
                 else if String.eqb mm "min" then Ok (_min_filler self_dtype)
                 else Raise ValueError) ;;
          match fv with
          | None => Raise ValueError
          | Some v => Ok (TableEntry v)
          end
      end
  | None =>
      match fill_value with
      | None => Ok (PyInt 0)
      | Some v => Ok v
      end
  end.

(** The element that [d[...] = fill_value] stores into an array of the
    dtype, and that [dtype.type(fill_value)] builds: the conversion of the
    fill value, which fails for a number the dtype cannot hold. *)
Definition stored (dt : dtype) (fv : fill) : result T :=
  match fv with
  | PyInt n => Ok (of_int dt n)
  | TableEntry v => Ok v
  | Given x => convert dt x
  end.

End FillValue.
Arguments fill T : clear implicits.

(** ** [class MaskedScalar] (lines 495-634) *)

Module MaskedScalar.
Section Defs.
Context {T : Type} `{Kernels T}.

Record t : Type := mk { _data : T; _mask : bool; _dtype : dtype }.

(** What the constructor is given as [data]: a masked scalar, the sentinel
    [X], a value of the engine, or a Python integer. *)
Inductive init_data : Type :=
| FromMaskedScalar (s : t)
| FromX
| FromValue (v : npvalue T)
| FromInt (z : Z).

(** [np.bool_(mask)]: a scalar for [None], a scalar or a 0-d array; an array
    of more dimensions stays an array, which the constructor refuses. *)
Definition np_bool_ (mask : option (npvalue bool)) : result bool :=
  match mask with
  | None => Ok false
  | Some (Generic _ b) => Ok b
  | Some (NDArray m) =>
      match shape m with
      | [] => Ok (item m [])
      | _ :: _ => Raise ValueError
      end
  end.

Definition __init__ (data : init_data) (mask : option (npvalue bool))
    (dtype : option dtype) : result t :=
  match data with
  | FromMaskedScalar s =>
      match mask with
      | Some _ => Raise ValueError
      | None => Ok (mk (_data s) (_mask s) (_dtype s))
      end
  | FromX =>
      match dtype, mask with
      | None, _ => Raise ValueError
      | Some _, Some _ => Raise ValueError
      | Some dt, None => Ok (mk (of_int dt 0) true dt)
      end
  | FromValue (Generic dt0 x) =>
      m <- np_bool_ mask ;;
      match dtype with
      | Some dt =>
          if dtype_eqb dt0 dt then Ok (mk x m dt0)
          else Ok (mk (astype dt x) m dt)
      | None => Ok (mk x m dt0)
      end
  | FromValue (NDArray a) =>
      match dtype, shape a with
      | Some dt, [] =>
          if dtype_eqb (dtype_of a) dt then Raise ValueError
          else m <- np_bool_ mask ;; Ok (mk (astype dt (item a [])) m dt)
      | _, _ => Raise ValueError
      end
  | FromInt z =>
      m <- np_bool_ mask ;;
      let dt := match dtype with Some dt => dt | None => int64 end in
      Ok (mk (of_int dt z) m dt)
  end.

Definition shape (self : t) : list nat := [].
Definition dtype (self : t) : dtype := _dtype self.
Definition mask (self : t) : bool := _mask self.

(** lines 601-604 *)
Definition __bool__ (self : t) : bool :=
  if _mask self then false else truth (_data self).

(** lines 624-634; [view] is ignored *)
Definition filled (self : t) (fill_value : option (fill T))
    (minmax : option string) : result T :=
  fv <- _get_fill_value (_dtype self) fill_value minmax ;;
  if _mask self then stored (_dtype self) fv else Ok (_data self).

End Defs.
Arguments t T : clear implicits.
Arguments init_data T : clear implicits.
End MaskedScalar.

(** ** The sentinel [X] (lines 639-656): [X(dtype)] *)

Definition MaskedX__call__ {T} `{Kernels T} (dt : dtype)
  : result (MaskedScalar.t T) :=
  MaskedScalar.__init__ (MaskedScalar.FromInt 0)
    (Some (Generic bool_ true)) (Some dt).

(** ** [class MaskedArray] (lines 165-492) *)

Module MaskedArray.
Section Defs.
Context {T : Type} `{Kernels T}.

Record t : Type := mk { _data : ndarray T; _mask : ndarray bool }.

(** What the constructor is given as [data]: a masked array, the sentinel
    [X], or a plain array.  (Nested literals and masked scalars are not part
    of the fragment.) *)
Inductive init_data : Type :=
| FromMaskedArray (a : t)
| FromX
| FromArray (d : ndarray T).

(** [m0 |= np.array(mask, copy=False)]: the OR is stored into [m0]. *)
Definition ior_mask (m0 : ndarray bool) (mask : npvalue bool)
  : result (ndarray bool) :=
  if negb (writeable m0) then Raise ValueError else
  bm <- np.broadcast_to mask (shape m0) ;;
  Ok (mk_ndarray bool_ (shape m0)
        (fun idx => item m0 idx || item bm idx) true).

(** lines 168-276, with [copy=False], [order=None], [ndmin=0].  For a
    masked array given with a mask, [duck_require(copy=True)] (lines
    130-163) copies the data by [astype(None)], which is a conversion to
    [float64], and [|=] updates the mask that the new array shares with
    its argument: [__init___argument] is the argument as the call leaves
    it. *)
Definition __init__ (data : init_data) (mask : option (npvalue bool))
    (dtype : option dtype) : result t :=
  match data with
  | FromMaskedArray a =>
      match mask with
      | Some m =>
          m' <- ior_mask (_mask a) m ;;
          Ok (mk (elementwise1 (astype float64) float64 (_data a)) m')
      | None => Ok (mk (_data a) (_mask a))
      end
  | FromX =>
      match mask with
      | None =>
          match dtype with
          | None => Raise ValueError
          | Some dt =>
              Ok (mk (mk_ndarray dt [] (fun _ => of_int dt 0) true)
                     (mk_ndarray bool_ [] (fun _ => true) true))
          end
      | Some _ => Raise MemoryError
      end
  | FromArray d =>
      match mask with
      | None =>
          (* [replace_X] gives [np.broadcast_to(False, data.shape)], copied
             because it is read-only, then viewed *)
          Ok (mk d (mk_ndarray bool_ (shape d) (fun _ => false) true))
      | Some (NDArray m) =>
          if shape_eqb (shape m) (shape d)
          then Ok (mk d m)
          else
            bm <- np.broadcast_to (NDArray m) (shape d) ;;
            Ok (mk d (mk_ndarray bool_ (shape d) (item bm) true))
      | Some (Generic dt b) =>
          bm <- np.broadcast_to (Generic dt b) (shape d) ;;
          Ok (mk d (mk_ndarray bool_ (shape d) (item bm) true))
      end
  end.

(** The masked array [a] after [MaskedArray(a, mask)] has run. *)
Definition __init___argument (a : t) (mask : option (npvalue bool))
  : result t :=
  match mask with
  | Some m => m' <- ior_mask (_mask a) m ;; Ok (mk (_data a) m')
  | None => Ok a
  end.

Definition shape (self : t) : list nat := shape (_data self).
Definition dtype (self : t) : dtype := dtype_of (_data self).

(** lines 377-382: a read-only view of the mask *)
Definition mask (self : t) : ndarray bool :=
  set_writeable (np.view (_mask self)) false.

(** lines 413-422.  With [view] and writeable data the result aliases
    [self._data]: the filler is stored into the array itself, so the call
    also returns the array as it is left. *)
Definition filled (self : t) (fill_value : option (fill T))
    (minmax : option string) (view : bool) : result (ndarray T * t) :=
  if view && writeable (_data self) then
    fv <- _get_fill_value (dtype self) fill_value minmax ;;
    x <- stored (dtype self) fv ;;
    d <- setitem_mask (np.view (_data self)) (NDArray (_mask self)) x ;;
    Ok (set_writeable d false, mk d (_mask self))
  else
    fv <- _get_fill_value (dtype self) fill_value minmax ;;
    x <- stored (dtype self) fv ;;
    d <- setitem_mask (np.copy (_data self)) (NDArray (_mask self)) x ;;
    Ok (d, self).

(** line 479 *)
Definition count (self : t) (axis : option Z) (keepdims : bool)
  : result (npvalue Z) :=
  np.sum_intp (np.logical_not (_mask self)) axis keepdims.

(** lines 482-487: in place; the call returns the array as it is left.  A
    dtype without min-filler stores the [None] of the table. *)
Definition sort (self : t) (axis : Z) : result t :=
  fv <- match _min_filler (dtype self) with
        | Some fv => Ok fv
        | None =>
            match of_none (dtype self) with
            | Some nan => Ok nan
            | None => Raise TypeError
            end
        end ;;
  d0 <- setitem_mask (_data self) (NDArray (_mask self)) fv ;;
  d <- np.sort_inplace sort_le d0 axis ;;
  m <- np.sort_inplace implb (_mask self) axis ;;
  Ok (mk d m).

End Defs.
Arguments t T : clear implicits.
Arguments init_data T : clear implicits.
End MaskedArray.

(** ** Operands, [getdata], [getmask], [get_mask_cls] *)

Section Dispatch.
Context {T : Type} `{Kernels T}.

(** What an operation can be handed: a masked array, a masked scalar, a
    plain array, a plain scalar, or the sentinel [X]. *)
Inductive operand : Type :=
| AMaskedArray (a : MaskedArray.t T)
| AMaskedScalar (s : MaskedScalar.t T)
| Andarray (d : ndarray T)
| Ascalar (dt : dtype) (x : T)
| AX.

(** The result of an operation: [MaskedArray] or [MaskedScalar]. *)
Inductive masked : Type :=
| RArray (a : MaskedArray.t T)
| RScalar (s : MaskedScalar.t T).

(** What [getdata] returns: the data of a masked operand, else the operand
    itself, which may be [X]. *)
Inductive pydata : Type :=
| DataX
| Data (v : npvalue T).

(** lines 837-840 *)
Definition getdata (a : operand) : pydata :=
  match a with
  | AMaskedArray m => Data (NDArray (MaskedArray._data m))
  | AMaskedScalar s =>
      Data (Generic (MaskedScalar._dtype s) (MaskedScalar._data s))
  | Andarray d => Data (NDArray d)
  | Ascalar dt x => Data (Generic dt x)
  | AX => DataX
  end.

(** lines 842-845 *)
Definition getmask (a : operand) : npvalue bool :=
  match a with
  | AMaskedArray m => NDArray (MaskedArray._mask m)
  | AMaskedScalar s => Generic bool_ (MaskedScalar._mask s)
  | Andarray _ | Ascalar _ _ | AX => Generic bool_ false
  end.

(** Modelled from the spec: [is_duckscalar] is imported from [duckprint],
    which is not among the sources; it tells the scalars of the storage
    engine from its arrays ("mirroring how the storage collaborator
    distinguishes arrays from scalars"). *)
Definition is_duckscalar {A} (v : npvalue A) : bool :=
  match v with
  | Generic _ _ => true
  | NDArray _ => false
  end.

(** The masked classes.  The sources define the two base classes only. *)
Inductive mask_cls : Type := cls_MaskedArray | cls_MaskedScalar.

Definition issubclass (a b : mask_cls) : bool :=
  match a, b with
  | cls_MaskedArray, cls_MaskedArray
  | cls_MaskedScalar, cls_MaskedScalar => true
  | _, _ => false
  end.

(** lines 658-659 *)
Definition ArrayType (c : mask_cls) : mask_cls := cls_MaskedArray.
Definition ScalarType (c : mask_cls) : mask_cls := cls_MaskedScalar.

Definition type_of (a : operand) : option mask_cls :=
  match a with
  | AMaskedArray _ => Some cls_MaskedArray
  | AMaskedScalar _ => Some cls_MaskedScalar
  | Andarray _ | Ascalar _ _ | AX => None
  end.

(** lines 1168-1200, the loop over the arguments (nested lists of operands
    are not part of the fragment) *)
Fixpoint get_mask_cls_loop (cls : option mask_cls) (args : list operand)
  : result (option mask_cls) :=
  match args with
  | [] => Ok cls
  | arg :: rest =>
      match type_of arg with
      | None => get_mask_cls_loop cls rest
      | Some acl =>
          match cls with
          | None => get_mask_cls_loop (Some acl) rest
          | Some c =>
              if issubclass acl c then get_mask_cls_loop (Some acl) rest
              else
                let '(c, acl) :=
                  if issubclass c cls_MaskedScalar
                     && issubclass acl cls_MaskedArray
                  then (ArrayType c, acl)
                  else if issubclass acl cls_MaskedScalar
                          && issubclass c cls_MaskedArray
                  then (c, ArrayType acl)
                  else (c, acl) in
                if issubclass acl c then get_mask_cls_loop (Some acl) rest
                else if negb (issubclass c acl) then Raise TypeError
                else get_mask_cls_loop (Some c) rest
          end
      end
  end.

Definition get_mask_cls (args : list operand) : result (option mask_cls) :=
  cls <- get_mask_cls_loop None args ;;
  Ok (option_map ArrayType cls).

(** [cls(data, mask)] for a class and the data and mask of a result *)
Definition construct (c : mask_cls) (data : npvalue T) (mask : npvalue bool)
  : result masked :=
  match c with
  | cls_MaskedScalar =>
      s <- MaskedScalar.__init__ (MaskedScalar.FromValue data) (Some mask)
             None ;;
      Ok (RScalar s)
  | cls_MaskedArray =>
      a <- MaskedArray.__init__ (MaskedArray.FromArray (as_array data))
             (Some mask) None ;;
      Ok (RArray a)
  end.

(** lines 1202-1207, without [out]; [cls = None] has no attribute *)
Definition maskedarray_or_scalar (data : npvalue T) (mask : npvalue bool)
    (cls : option mask_cls) : result masked :=
  match cls with
  | None => Raise AttributeError
  | Some c =>
      if is_duckscalar data then construct (ScalarType c) data mask
      else construct (ArrayType c) data mask
  end.

(** ** [MaskedOperatorMixin._cmp_op] (lines 34-44)

    [op] is the comparison kernel; its boolean results are stored as
    elements of a [bool_] array. *)
Definition self_data (self : masked) : npvalue T :=
  match self with
  | RArray a => NDArray (MaskedArray._data a)
  | RScalar s => Generic (MaskedScalar._dtype s) (MaskedScalar._data s)
  end.

Definition self_mask (self : masked) : npvalue bool :=
  match self with
  | RArray a => NDArray (MaskedArray._mask a)
  | RScalar s => Generic bool_ (MaskedScalar._mask s)
  end.

Definition as_operand (self : masked) : operand :=
  match self with
  | RArray a => AMaskedArray a
  | RScalar s => AMaskedScalar s
  end.

Definition _cmp_op (self : masked) (other : operand) (op : T -> T -> T)
  : result masked :=
  let '(db, mb) :=
    match getdata other with
    | DataX => (Generic (value_dtype (self_data self))
                  (of_int (value_dtype (self_data self)) 0),
                Generic bool_ true)
    | Data v => (v, getmask other)
    end in
  cls <- get_mask_cls [as_operand self; other] ;;
  data <- elementwise2 op bool_ (self_data self) db ;;
  mask <- np.logical_or (self_mask self) mb ;;
  maskedarray_or_scalar data mask cls.

(** ** [class _Masked_BinOp] (lines 882-1100) *)

(** A binary ufunc of the engine: its kernel and its [identity]. *)
Record ufunc : Type := mk_ufunc {
  uf_call : T -> T -> T;
  identity : option Z
}.

Record _Masked_BinOp : Type := mk_Masked_BinOp {
  f : ufunc;
  reduce_fill : option (dtype -> option (fill T))
}.

(** The [reduce_fill] argument of the constructor: a scalar or a function
    of the dtype. *)
Inductive fill_arg : Type :=
| FillScalar (v : fill T)
| FillFun (g : dtype -> option (fill T)).

(** lines 897-907 *)
Definition _Masked_BinOp__init__ (uf : ufunc) (reduce_fill : option fill_arg)
  : _Masked_BinOp :=
  match reduce_fill with
  | None =>
      match identity uf with
      | None => mk_Masked_BinOp uf None
      | Some z => mk_Masked_BinOp uf (Some (fun _ => Some (PyInt z)))
      end
  | Some (FillScalar v) => mk_Masked_BinOp uf (Some (fun _ => Some v))
  | Some (FillFun g) => mk_Masked_BinOp uf (Some g)
  end.

(** The result of a kernel stored into an [out] array, each element
    through the cast [cast] into the dtype of [out]. *)
Definition store_out {A} (cast : A -> A) (r : npvalue A) (o : ndarray A)
  : result (ndarray A) :=
  if negb (writeable o) then Raise ValueError else
  b <- np.broadcast_to r (shape o) ;;
  Ok (mk_ndarray (dtype_of o) (shape o) (fun idx => cast (item b idx)) true).

(** lines 909-941; [out] is the optional output operand.  A ufunc called
    with [out] checks, before it computes, that [out] is writeable and then
    that its result dtype casts to the dtype of [out] under the rule
    'same_kind'; the mask kernel yields [bool_] for a [bool_] array. *)
Definition __call__ (self : _Masked_BinOp) (a b : operand)
    (out : option masked) : result masked :=
  let ma := getmask a in
  let mb := getmask b in
  (* treat X as a masked value of the other array's dtype *)
  '(da, ma) <-
     match getdata a, getdata b with
     | DataX, DataX => Raise AttributeError
     | DataX, Data vb =>
         Ok (Generic (value_dtype vb) (of_int (value_dtype vb) 0),
             Generic bool_ true)
     | Data va, _ => Ok (va, ma)
     end ;;
  '(db, mb) <-
     match getdata b with
     | DataX =>
         Ok (Generic (value_dtype da) (of_int (value_dtype da) 0),
             Generic bool_ true)
     | Data vb => Ok (vb, mb)
     end ;;
  match out with
  | Some (RScalar _) => Raise ValueError
  | Some (RArray o) =>
      m <- np.logical_or ma mb ;;
      om <- store_out (fun b : bool => b) m (MaskedArray._mask o) ;;
      let dt := result_type (value_dtype da) (value_dtype db) in
      if negb (writeable (MaskedArray._data o)) then Raise ValueError
      else if negb (can_cast dt (MaskedArray.dtype o))
      then Raise UFuncTypeError
      else
      result <- elementwise2 (uf_call (f self)) dt da db ;;
      od <- store_out (astype (MaskedArray.dtype o)) result
              (MaskedArray._data o) ;;
      Ok (RArray (MaskedArray.mk od om))
  | None =>
      m <- np.logical_or ma mb ;;
      result <- elementwise2 (uf_call (f self))
                  (result_type (value_dtype da) (value_dtype db)) da db ;;
      cls <- get_mask_cls [a; b] ;;
      match cls with
      | None => Raise AttributeError
      | Some c =>
          if is_duckscalar result then construct (ScalarType c) result m
          else construct c result m
      end
  end.

(** [class _Masked_UniOp], lines 860-880, without [out] *)
Definition _Masked_UniOp__call__ (uf : T -> T) (a : operand)
  : result masked :=
  match getdata a with
  | DataX => Raise MemoryError
  | Data d =>
      let m := getmask a in
      let result :=
        decay (elementwise1 uf (value_dtype d) (as_array d)) in
      if is_duckscalar result then construct cls_MaskedScalar result m
      else
        match type_of a with
        | None => Raise TypeError
        | Some c => construct c result m
        end
  end.

(** lines 943-989, the branch that runs ([else] of [if 0]).  The filler is
    stored into the data of [a] itself.  [axis] and [keepdims] are the
    keyword arguments handed to both reductions; [axis] defaults to 0. *)
Definition reduce (self : _Masked_BinOp) (a : operand) (axis : option Z)
    (keepdims : bool) : result masked :=
  match reduce_fill self with
  | None => Raise TypeError
  | Some fill =>
      let ma := getmask a in
      match getdata a with
      | DataX => Raise AttributeError
      | Data da =>
          da <- (if negb (is_duckscalar da) then
                   v <- match fill (value_dtype da) with
                        | Some fv => stored (value_dtype da) fv
                        | None =>
                            match of_none (value_dtype da) with
                            | Some nan => Ok nan
                            | None => Raise TypeError
                            end
                        end ;;
                   d <- setitem_mask (as_array da) ma v ;; Ok (NDArray d)
                 else Ok da) ;;
          result <- reduce_axis (fun x => x) (uf_call (f self))
                      (option_map (of_int (value_dtype da))
                         (identity (f self)))
                      (of_int (value_dtype da) 0) (value_dtype da)
                      axis keepdims (as_array da) ;;
          m <- np.all (as_array ma) axis keepdims ;;
          cls <- get_mask_cls [a] ;;
          match cls with
          | None => Raise AttributeError
          | Some c =>
              if is_duckscalar result then construct (ScalarType c) result m
              else construct c result m
          end
      end
  end.

(** lines 1115-1128: the registered binary operations used below *)
Definition np_add : ufunc := mk_ufunc add (Some 0%Z).
Definition np_multiply : ufunc := mk_ufunc multiply (Some 1%Z).
Definition np_subtract : ufunc := mk_ufunc subtract None.
Definition np_maximum : ufunc :=
  mk_ufunc (fun x y => if sort_le x y then y else x) None.
Definition np_minimum : ufunc :=
  mk_ufunc (fun x y => if sort_le x y then x else y) None.

Definition masked_add : _Masked_BinOp := _Masked_BinOp__init__ np_add None.
Definition masked_multiply : _Masked_BinOp :=
  _Masked_BinOp__init__ np_multiply None.
Definition masked_subtract : _Masked_BinOp :=
  _Masked_BinOp__init__ np_subtract None.
Definition masked_maximum : _Masked_BinOp :=
  _Masked_BinOp__init__ np_maximum
    (Some (FillFun (fun dt => option_map TableEntry (_max_filler dt)))).
Definition masked_minimum : _Masked_BinOp :=
  _Masked_BinOp__init__ np_minimum
    (Some (FillFun (fun dt => option_map TableEntry (_min_filler dt)))).

End Dispatch.

Arguments operand T : clear implicits.
Arguments masked T : clear implicits.
Arguments pydata T : clear implicits.
Arguments ufunc T : clear implicits.
Arguments _Masked_BinOp T : clear implicits.

(** ** The implementations registered in [setup_ducktype] (lines 1229-3131) *)

Module setup_ducktype.
Section Defs.
Context {T : Type} `{Kernels T}.

Definition value_map {A B} (g : A -> B) (dt : dtype) (v : npvalue A)
  : npvalue B :=
  match v with
  | Generic _ x => Generic dt (g x)
  | NDArray a => NDArray (elementwise1 g dt a)
  end.

Definition operand_of_value (v : npvalue T) : operand T :=
  match v with
  | Generic dt x => Ascalar dt x
  | NDArray a => Andarray a
  end.

(** lines 1224-1227 *)
Definition _inplace_not (v : npvalue bool) : npvalue bool :=
  value_map negb bool_ v.

(** [len(a)] *)
Definition len {A} (a : ndarray A) : result Z :=
  match shape a with
  | [] => Raise TypeError
  | n :: _ => Ok (Z.of_nat n)
  end.

(** lines 1886-1892 *)
Definition sum (a : MaskedArray.t T) (axis : option Z)
    (dtype : option dtype) (keepdims : bool) : result (masked T) :=
  '(filled, a) <- MaskedArray.filled a
                    (Some (PyInt 0)) None true ;;
  result_data <- np.sum filled axis dtype keepdims ;;
  result_mask <- np.all (MaskedArray._mask a) axis keepdims ;;
  maskedarray_or_scalar result_data result_mask (Some cls_MaskedArray).

(** lines 1861-1867 *)
Definition prod (a : MaskedArray.t T) (axis : option Z)
    (dtype : option dtype) (keepdims : bool) : result (masked T) :=
  '(filled, a) <- MaskedArray.filled a
                    (Some (PyInt 1)) None true ;;
  result_data <- np.prod filled axis dtype keepdims ;;
  result_mask <- np.all (MaskedArray._mask a) axis keepdims ;;
  maskedarray_or_scalar result_data result_mask (Some cls_MaskedArray).

(** lines 1382-1444; [keepdims = None] stands for [np._NoValue].  The name
    [arr] of lines 1435 and 1438 is bound nowhere.  [is_ndducktype] (line 20
    of [common.py]: the value has [__array_function__]) holds of the arrays
    of the engine and not of its scalars. *)
Definition mean (a : MaskedArray.t T) (axis : option Z)
    (dtype : option dtype) (keepdims : option bool) : result (masked T) :=
  let kw := match keepdims with None => false | Some k => k end in
  rcount <- MaskedArray.count a axis kw ;;
  (* Cast bool, unsigned int, and int to float64 by default *)
  let '(dtype, is_float16_result) :=
    match dtype with
    | None =>
        if is_integer_or_bool (MaskedArray.dtype a) then (Some float64, false)
        else if is_float16 (MaskedArray.dtype a) then (Some float32, true)
        else (None, false)
    | Some dt => (Some dt, false)
    end in
  '(filled, a) <- MaskedArray.filled a
                    (Some (PyInt 0)) None true ;;
  ret <- np.sum filled axis dtype kw ;;
  retmask <- np.all (MaskedArray._mask a) axis kw ;;
  ret <-
    match ret with
    | NDArray r =>
        (* [out=ret, casting='unsafe'] *)
        q <- elementwise2 true_divide (dtype_of r) ret rcount ;;
        let q := value_map (astype (dtype_of r)) (dtype_of r) q in
        if is_float16_result then Raise NameError else Ok q
    | Generic dt _ =>
        if is_float16_result then Raise NameError
        else
          q <- elementwise2 true_divide dt ret rcount ;;
          Ok (value_map (astype dt) dt q)
    end ;;
  maskedarray_or_scalar ret retmask (Some cls_MaskedArray).

(** lines 2114-2118 *)
Definition real (a : masked T) : result (masked T) :=
  maskedarray_or_scalar
    (value_map real_part (value_dtype (self_data a)) (self_data a))
    (self_mask a)
    (type_of (as_operand a)).

(** lines 1446-1510.  [.real] of line 1488 comes from [NDArrayAPIMixin],
    which is not among the sources; it is taken to be the registered
    implementation of [np.real].  On line 1479 [is_ndducktype] fails of a
    scalar [arrmean] only, for which line 1480 evaluates [out-arrmean] with
    [out = None]. *)
Definition var (a : MaskedArray.t T) (axis : option Z)
    (dtype : option dtype) (ddof : Z) (keepdims : option bool)
  : result (masked T) :=
  let kw := match keepdims with None => false | Some k => k end in
  _ <- MaskedArray.count a axis kw ;;
  (* Cast bool, unsigned int, and int to float64 by default *)
  let dtype :=
    match dtype with
    | None =>
        if is_integer_or_bool (MaskedArray.dtype a) then Some float64
        else None
    | Some dt => Some dt
    end in
  (* Compute the mean, keeping same dims *)
  rcount <- MaskedArray.count a axis true ;;
  '(filled0, _) <- MaskedArray.filled a
                     (Some (PyInt 0)) None false ;;
  arrmean <- np.sum filled0 axis dtype true ;;
  arrmean <-
    match arrmean with
    | Generic _ _ => Raise TypeError
    | NDArray m =>
        q <- elementwise2 true_divide (dtype_of m) arrmean rcount ;;
        Ok (value_map (astype (dtype_of m)) (dtype_of m) q)
    end ;;
  (* Compute sum of squared deviations from mean *)
  x <- __call__ masked_subtract (AMaskedArray a) (operand_of_value arrmean)
         None ;;
  x <- (if is_complexfloating (MaskedArray.dtype a) then
          cx <- _Masked_UniOp__call__ conjugate (as_operand x) ;;
          p <- __call__ masked_multiply (as_operand x) (as_operand cx)
                 (Some x) ;;
          real p
        else
          __call__ masked_multiply (as_operand x) (as_operand x) (Some x)) ;;
  ret <-
    match x with
    | RArray xa =>
        '(xf, _) <- MaskedArray.filled xa
                      (Some (PyInt 0)) None true ;;
        np.sum xf axis dtype kw
    | RScalar xs =>
        xf <- MaskedScalar.filled xs
                (Some (PyInt 0)) None ;;
        np.sum (as_array (Generic (MaskedScalar._dtype xs) xf)) axis dtype kw
    end ;;
  (* Compute degrees of freedom and make sure it is not negative *)
  rcount <- MaskedArray.count a axis kw ;;
  let rcount := value_map (fun c => Z.max (c - ddof) 0) intp rcount in
  (* divide by degrees of freedom *)
  ret <-
    match ret with
    | NDArray r =>
        (* [out=ret, casting='unsafe'] *)
        q <- elementwise2 true_divide (dtype_of r) ret rcount ;;
        Ok (value_map (astype (dtype_of r)) (dtype_of r) q)
    | Generic dt _ =>
        q <- elementwise2 true_divide dt ret rcount ;;
        Ok (value_map (astype dt) dt q)
    end ;;
  maskedarray_or_scalar ret (value_map (fun c => (c =? 0)%Z) bool_ rcount)
    (Some cls_MaskedArray).

(** lines 1282-1293 *)
Definition sort (a : MaskedArray.t T) (axis : Z) : result (masked T) :=
  '(filled, a) <- MaskedArray.filled a None (Some "min"%string) true ;;
  result_data <- np.sort sort_le filled axis ;;
  result_mask <- np.sort implb (MaskedArray._mask a) axis ;;
  maskedarray_or_scalar (NDArray result_data) (NDArray result_mask)
    (Some cls_MaskedArray).

(** lines 1322-1346 *)
Definition searchsorted (a v : operand T) (side : string)
  : result (npvalue Z) :=
  '(maskleft, aval) <-
     match a with
     | AMaskedArray m =>
         n <- len (MaskedArray._data m) ;;
         s <- np.sum_intp (MaskedArray._mask m) None false ;;
         '(aval, _) <- MaskedArray.filled m None (Some "min"%string) true ;;
         Ok ((n - item (as_array s) [])%Z, aval)
     | Andarray d =>
         n <- len d ;; Ok (n, d)
     | AMaskedScalar _ | Ascalar _ _ | AX => Raise TypeError
     end ;;
  match v with
  | AMaskedArray vm =>
      '(vf, vm) <- MaskedArray.filled vm None (Some "min"%string) true ;;
      inds <- np.searchsorted sort_le aval (NDArray vf) side ;;
      match inds with
      | Generic _ _ => Raise TypeError
      | NDArray inds =>
          if String.eqb side "left" then
            (* masked vals in v need to be moved right to the left end of
               the masked vals in a *)
            r <- setitem_mask inds (NDArray (MaskedArray._mask vm))
                   maskleft ;;
            Ok (NDArray r)
          else
            (* minvals in v need to be moved left to the left end of the
               masked vals in a *)
            let minval := _min_filler (MaskedArray.dtype vm) in
            let sel :=
              mk_ndarray bool_ (MaskedArray.shape vm)
                (fun idx =>
                   match minval with
                   | None => false
                   | Some mv => equal (item (MaskedArray._data vm) idx) mv
                   end && negb (item (MaskedArray._mask vm) idx))
                true in
            r <- setitem_mask inds (NDArray sel) maskleft ;;
            Ok (NDArray r)
      end
  | AMaskedScalar _ => Raise TypeError
  | Andarray _ | Ascalar _ _ | AX => Raise AttributeError
  end.

(** lines 1372-1380, along the last axis *)
Definition lexsort (keys : list (MaskedArray.t T)) : result (ndarray Z) :=
  match keys with
  | [] => Raise TypeError
  | k0 :: _ =>
      let shp := MaskedArray.shape k0 in
      if forallb (fun k =>
                    shape_eqb (MaskedArray.shape k) shp) keys
      then
        Ok (np.lexsort shp
              (flat_map
                 (fun k =>
                    [ (fun i j => sort_le (item (MaskedArray._data k) i)
                                          (item (MaskedArray._data k) j));
                      (fun i j => implb (item (MaskedArray._mask k) i)
                                        (item (MaskedArray._mask k) j)) ])
                 keys))
      else Raise ValueError
  end.

(** [cls(a)] of lines 1956, 1966, 1975, 1985 and 1995: the operand as an
    array of the class.  A plain scalar becomes a 0-d array.  A masked
    scalar gives an array whose data is a scalar of the engine, in which
    [filled] cannot store (no item assignment). *)
Definition as_cls (cls : option mask_cls) (a : operand T)
  : result (MaskedArray.t T) :=
  match cls with
  | None => Raise TypeError
  | Some _ =>
      match a with
      | AMaskedArray m =>
          MaskedArray.__init__ (MaskedArray.FromMaskedArray m) None None
      | Andarray d => MaskedArray.__init__ (MaskedArray.FromArray d) None None
      | Ascalar dt x =>
          MaskedArray.__init__
            (MaskedArray.FromArray (mk_ndarray dt [] (fun _ => x) true))
            None None
      | AX => MaskedArray.__init__ MaskedArray.FromX None None
      | AMaskedScalar _ => Raise TypeError
      end
  end.

Definition zero_filled (a : MaskedArray.t T)
  : result (ndarray T * MaskedArray.t T) :=
  MaskedArray.filled a (Some (PyInt 0)) None true.

(** lines 1952-1961 *)
Definition dot (a b : operand T) : result (masked T) :=
  cls <- get_mask_cls [a; b] ;;
  a <- as_cls cls a ;;
  b <- as_cls cls b ;;
  '(fa, a) <- zero_filled a ;;
  '(fb, b) <- zero_filled b ;;
  let dt := result_type (dtype_of fa) (dtype_of fb) in
  result_data <- np.dot (of_int dt 0) add multiply dt fa fb ;;
  result_mask <- np.dot false orb andb bool_
                   (np.logical_not (MaskedArray._mask a))
                   (np.logical_not (MaskedArray._mask b)) ;;
  let result_mask := _inplace_not result_mask in
  maskedarray_or_scalar result_data result_mask cls.

(** lines 1963-1970 *)
Definition vdot (a b : operand T) : result (masked T) :=
  cls <- get_mask_cls [a; b] ;;
  a <- as_cls cls a ;;
  b <- as_cls cls b ;;
  '(fa, a) <- zero_filled a ;;
  '(fb, b) <- zero_filled b ;;
  let dt := result_type (dtype_of fa) (dtype_of fb) in
  result_data <- np.vdot (of_int dt 0) add
                   (fun x y => multiply (conjugate x) y) dt fa fb ;;
  result_mask <- np.vdot false orb andb bool_
                   (np.logical_not (MaskedArray._mask a))
                   (np.logical_not (MaskedArray._mask b)) ;;
  let result_mask := _inplace_not result_mask in
  maskedarray_or_scalar result_data result_mask cls.

(** lines 1982-1989 *)
Definition inner (a b : operand T) : result (masked T) :=
  cls <- get_mask_cls [a; b] ;;
  a <- as_cls cls a ;;
  b <- as_cls cls b ;;
  '(fa, a) <- zero_filled a ;;
  '(fb, b) <- zero_filled b ;;
  let dt := result_type (dtype_of fa) (dtype_of fb) in
  result_data <- np.inner (of_int dt 0) add multiply dt fa fb ;;
  result_mask <- np.inner false orb andb bool_
                   (np.logical_not (MaskedArray._mask a))
                   (np.logical_not (MaskedArray._mask b)) ;;
  let result_mask := _inplace_not result_mask in
  maskedarray_or_scalar result_data result_mask cls.

(** lines 1991-2000 *)
Definition outer (a b : operand T) : result (masked T) :=
  cls <- get_mask_cls [a; b] ;;
  a <- as_cls cls a ;;
  b <- as_cls cls b ;;
  '(fa, a) <- zero_filled a ;;
  '(fb, b) <- zero_filled b ;;
  let dt := result_type (dtype_of fa) (dtype_of fb) in
  let result_data := np.outer multiply dt (of_int dt 0) fa fb in
  let result_mask :=
    np.outer andb bool_ false
      (np.logical_not (MaskedArray._mask a))
      (np.logical_not (MaskedArray._mask b)) in
  let result_mask := _inplace_not (NDArray result_mask) in
  maskedarray_or_scalar (NDArray result_data) result_mask cls.

(** The [axes] argument of [tensordot]: an integer, or two lists of axes. *)
Inductive tensordot_axes : Type :=
| AxesInt (n : nat)
| AxesLists (axes_a axes_b : list Z).

(** [l[i]] of a Python sequence *)
Definition py_index (l : list nat) (i : Z) : result nat :=
  let n := Z.of_nat (List.length l) in
  if ((- n <=? i) && (i <? n))%Z
  then Ok (nth (Z.to_nat (if (i <? 0)%Z then i + n else i)) l 0)
  else Raise IndexError.

(** lines 2048-2055: the loop that compares the summed dimensions *)
Fixpoint tensordot_equal (ashape bshape : list nat) (axes_a axes_b : list Z)
  : result bool :=
  match axes_a, axes_b with
  | xa :: ra, xb :: rb =>
      sa <- py_index ashape xa ;;
      sb <- py_index bshape xb ;;
      if sa =? sb then tensordot_equal ashape bshape ra rb else Ok false
  | _, _ => Ok true
  end.

(** lines 2023-2080.  The name [multiply] of line 2066 is bound nowhere
    ([np.multiply] is meant, as on line 2074), so the call ends there. *)
Definition tensordot (a b : MaskedArray.t T) (axes : tensordot_axes)
  : result (masked T) :=
  let '(axes_a, axes_b) :=
    match axes with
    | AxesInt n =>
        (map (fun k => (Z.of_nat k - Z.of_nat n)%Z) (seq 0 n),
         map Z.of_nat (seq 0 n))
    | AxesLists la lb => (la, lb)
    end in
  let ashape := MaskedArray.shape a in
  let bshape := MaskedArray.shape b in
  equal <- (if List.length axes_a =? List.length axes_b
            then tensordot_equal ashape bshape axes_a axes_b
            else Ok false) ;;
  if negb equal then Raise ValueError
  else
    (* newshape_a = (int(multiply.reduce(...)), N2) *)
    Raise NameError.

(** An argument of [einsum]: the subscripts, a list of axes, or an array. *)
Inductive einsum_arg : Type :=
| ESubscripts (s : string)
| ESublist (l : list Z)
| EOperand (a : MaskedArray.t T).

Fixpoint einsum_unzip (operands : list einsum_arg)
  : result (list (ndarray T * ndarray bool)) :=
  match operands with
  | [] => Ok []
  | EOperand x :: rest =>
      r <- einsum_unzip rest ;;
      Ok ((MaskedArray._data x, np.logical_not (MaskedArray._mask x)) :: r)
  | _ :: _ => Raise AttributeError
  end.

(** lines 2082-2095, called without [out]: the names [outdata] and
    [outmask] are then bound nowhere, and an argument that is not an array
    has no [_data]. *)
Definition einsum (operands : list einsum_arg) : result (masked T) :=
  pairs <- einsum_unzip operands ;;
  match pairs with
  | [] => Raise ValueError
  | _ :: _ =>
      (* result_data = np.einsum(data, out=outdata, **kwargs) *)
      Raise UnboundLocalError
  end.

(** lines 1230-1238, without [out]: a plain boolean result *)
Definition all (a : MaskedArray.t T) (axis : option Z)
    (keepdims : option bool) : result (npvalue bool) :=
  let kw := match keepdims with None => false | Some k => k end in
  '(filled, _) <- MaskedArray.filled a
                    (Some (PyInt 1)) None true ;;
  np.all_values truth filled axis kw.

(** lines 1240-1248, without [out] *)
Definition any (a : MaskedArray.t T) (axis : option Z)
    (keepdims : option bool) : result (npvalue bool) :=
  let kw := match keepdims with None => false | Some k => k end in
  '(filled, _) <- MaskedArray.filled a
                    (Some (PyInt 0)) None true ;;
  np.any_values truth filled axis kw.

(** lines 1250-1256, without [out] and [initial]; [maximum] is the kernel
    of [np.maximum] *)
Definition max (maximum : T -> T -> T) (a : MaskedArray.t T)
    (axis : option Z) (keepdims : option bool) : result (masked T) :=
  let kw := match keepdims with None => false | Some k => k end in
  '(filled, a) <- MaskedArray.filled a None (Some "max"%string) true ;;
  result_data <- np.extremum_reduce maximum
                   (of_int (MaskedArray.dtype a) 0) filled axis kw ;;
  result_mask <- np.all (MaskedArray._mask a) axis kw ;;
  maskedarray_or_scalar result_data result_mask (Some cls_MaskedArray).

(** lines 1266-1272, without [out] and [initial]; [minimum] is the kernel
    of [np.minimum] *)
Definition min (minimum : T -> T -> T) (a : MaskedArray.t T)
    (axis : option Z) (keepdims : option bool) : result (masked T) :=
  let kw := match keepdims with None => false | Some k => k end in
  '(filled, a) <- MaskedArray.filled a None (Some "min"%string) true ;;
  result_data <- np.extremum_reduce minimum
                   (of_int (MaskedArray.dtype a) 0) filled axis kw ;;
  result_mask <- np.all (MaskedArray._mask a) axis kw ;;
  maskedarray_or_scalar result_data result_mask (Some cls_MaskedArray).

(** lines 2726-2728 *)
Definition count_nonzero (a : MaskedArray.t T) (axis : option Z)
  : result (npvalue Z) :=
  '(filled, _) <- MaskedArray.filled a
                    (Some (PyInt 0)) None true ;;
  np.count_nonzero truth filled axis.

(** lines 1894-1901, with an axis given and without [out] *)
Definition cumsum (a : MaskedArray.t T) (axis : Z) (dtype : option dtype)
  : result (masked T) :=
  '(filled, a) <- MaskedArray.filled a
                    (Some (PyInt 0)) None true ;;
  result_data <- np.cumsum filled axis dtype ;;
  result_mask <- np.accumulate (fun b : bool => b) orb false bool_ axis
                   (np.logical_not (MaskedArray._mask a)) ;;
  let result_mask := _inplace_not (NDArray result_mask) in
  maskedarray_or_scalar (NDArray result_data) result_mask
    (Some cls_MaskedArray).

(** lines 1873-1880, with an axis given and without [out] *)
Definition cumprod (a : MaskedArray.t T) (axis : Z) (dtype : option dtype)
  : result (masked T) :=
  '(filled, a) <- MaskedArray.filled a
                    (Some (PyInt 1)) None true ;;
  result_data <- np.cumprod filled axis dtype ;;
  result_mask <- np.accumulate (fun b : bool => b) orb false bool_ axis
                   (np.logical_not (MaskedArray._mask a)) ;;
  let result_mask := _inplace_not (NDArray result_mask) in
  maskedarray_or_scalar (NDArray result_data) result_mask
    (Some cls_MaskedArray).

End Defs.
End setup_ducktype.

(** ** A concrete storage engine: exact numbers with infinities and NaN

    The elements are rationals, the infinities (real, and the two complex
    ones that fill the complex dtypes) and NaN; arithmetic is exact.
    Division by a zero count gives an infinity or NaN, as the engine does
    when its error state ignores it. *)

Module Exact.

(** The numbers of the engine: the rationals, the two infinities, the two
    complex infinities [complex(inf, inf)] and [complex(-inf, -inf)] (the
    fillers of the complex dtypes), and NaN, which also stands for a
    complex number with a NaN part. *)
Inductive xnum : Type :=
| Fin (q : Q)
| PosInf
| NegInf
| CPosInf
| CNegInf
| NaN.

Definition of_Z (z : Z) : xnum := Fin (z # 1).

(** A sum with a complex infinity keeps it unless a part becomes
    [inf - inf]. *)
Definition xadd (x y : xnum) : xnum :=
  match x, y with
  | NaN, _ | _, NaN => NaN
  | CPosInf, (NegInf | CNegInf) | (NegInf | CNegInf), CPosInf => NaN
  | CNegInf, PosInf | PosInf, CNegInf => NaN
  | CPosInf, _ | _, CPosInf => CPosInf
  | CNegInf, _ | _, CNegInf => CNegInf
  | PosInf, NegInf | NegInf, PosInf => NaN
  | PosInf, _ | _, PosInf => PosInf
  | NegInf, _ | _, NegInf => NegInf
  | Fin a, Fin b => Fin (Qred (a + b))
  end.

Definition xneg (x : xnum) : xnum :=
  match x with
  | Fin a => Fin (Qred (- a))
  | PosInf => NegInf
  | NegInf => PosInf
  | CPosInf => CNegInf
  | CNegInf => CPosInf
  | NaN => NaN
  end.

Definition sign (x : xnum) : comparison :=
  match x with
  | Fin a => (a ?= 0)%Q
  | PosInf | CPosInf => Gt
  | NegInf | CNegInf => Lt
  | NaN => Eq
  end.

(** A product with a complex infinity has a part [inf * 0] or [inf - inf]. *)
Definition xmul (x y : xnum) : xnum :=
  match x, y with
  | NaN, _ | _, NaN => NaN
  | (CPosInf | CNegInf), _ | _, (CPosInf | CNegInf) => NaN
  | Fin a, Fin b => Fin (Qred (a * b))
  | _, _ =>
      match sign x, sign y with
      | Eq, _ | _, Eq => NaN
      | Gt, Gt | Lt, Lt => PosInf
      | Gt, Lt | Lt, Gt => NegInf
      end
  end.

Definition xdiv (x : xnum) (n : Z) : xnum :=
  match x with
  | NaN => NaN
  | Fin a =>
      if (n =? 0)%Z then
        match sign x with Eq => NaN | Gt => PosInf | Lt => NegInf end
      else Fin (Qred (a / (n # 1)))
  | CPosInf | CNegInf => if (n =? 0)%Z then x else NaN
  | _ =>
      if (n <? 0)%Z then xneg x else x
  end.

(** The place of a number in the order of the sorting kernels (complex
    numbers are ordered by real part, then by imaginary part): NaN comes
    last. *)
Definition xrank (x : xnum) : nat :=
  match x with
  | CNegInf => 0 | NegInf => 1 | Fin _ => 2 | PosInf => 3 | CPosInf => 4
  | NaN => 5
  end.

Definition xle (x y : xnum) : bool :=
  match x, y with
  | Fin a, Fin b => Qle_bool a b
  | _, _ => xrank x <=? xrank y
  end.

Definition xeq (x y : xnum) : bool :=
  match x, y with
  | Fin a, Fin b => Qeq_bool a b
  | PosInf, PosInf | NegInf, NegInf
  | CPosInf, CPosInf | CNegInf, CNegInf => true
  | _, _ => false
  end.

Definition xtruth (x : xnum) : bool :=
  match x with
  | Fin a => negb (Qeq_bool a 0)
  | _ => true
  end.

Definition xastype (dt : dtype) (x : xnum) : xnum :=
  match dt, x with
  | bool_, _ => if xtruth x then of_Z 1 else of_Z 0
  | (int8 | int16 | int32 | int64 | uint8 | uint16 | uint32 | uint64), Fin a =>
      of_Z (Z.quot (Qnum a) (Z.pos (Qden a)))
  | (float16 | float32 | float64), CPosInf => PosInf
  | (float16 | float32 | float64), CNegInf => NegInf
  | _, _ => x
  end.

Definition rank (dt : dtype) : nat :=
  match dt with
  | bool_ => 0 | int8 => 1 | uint8 => 2 | int16 => 3 | uint16 => 4
  | int32 => 5 | uint32 => 6 | int64 => 7 | uint64 => 8
  | float16 => 9 | float32 => 10 | float64 => 11
  | complex64 => 12 | complex128 => 13
  end.

Definition xresult_type (a b : dtype) : dtype :=
  if rank a <=? rank b then b else a.

Definition minval (dt : dtype) : option xnum :=
  match dt with
  | bool_ | uint8 | uint16 | uint32 | uint64 => Some (of_Z 0)
  | int8 => Some (of_Z (-128))
  | int16 => Some (of_Z (-32768))
  | int32 => Some (of_Z (-2147483648))
  | int64 => Some (of_Z (-9223372036854775808))
  | float16 | float32 | float64 => Some NegInf
  | complex64 | complex128 => Some CNegInf
  end.

Definition maxval (dt : dtype) : option xnum :=
  match dt with
  | bool_ => Some (of_Z 1)
  | int8 => Some (of_Z 127)
  | int16 => Some (of_Z 32767)
  | int32 => Some (of_Z 2147483647)
  | int64 => Some (of_Z 9223372036854775807)
  | uint8 => Some (of_Z 255)
  | uint16 => Some (of_Z 65535)
  | uint32 => Some (of_Z 4294967295)
  | uint64 => Some (of_Z 18446744073709551615)
  | float16 | float32 | float64 => Some PosInf
  | complex64 | complex128 => Some CPosInf
  end.

(** A Python number stored into an array of the dtype, or handed to the
    scalar type of the dtype: an integer dtype truncates, and refuses a
    number it cannot hold. *)
Definition xconvert (dt : dtype) (x : xnum) : result xnum :=
  match dt with
  | bool_ => Ok (if xtruth x then of_Z 1 else of_Z 0)
  | int8 | int16 | int32 | int64 | uint8 | uint16 | uint32 | uint64 =>
      match x with
      | Fin a =>
          let z := Z.quot (Qnum a) (Z.pos (Qden a)) in
          match minval dt, maxval dt with
          | Some (Fin lo), Some (Fin hi) =>
              if Qle_bool lo (z # 1) && Qle_bool (z # 1) hi then Ok (of_Z z)
              else Raise OverflowError
          | _, _ => Raise OverflowError
          end
      | NaN => Raise ValueError
      | PosInf | NegInf => Raise OverflowError
      | CPosInf | CNegInf => Raise TypeError
      end
  | float16 | float32 | float64 =>
      match x with
      | CPosInf | CNegInf => Raise TypeError
      | _ => Ok x
      end
  | complex64 | complex128 => Ok x
  end.

(** The kinds of the dtypes in the order of the casting rule: a cast is of
    the same kind when it does not go down in it. *)
Definition kind_order (dt : dtype) : nat :=
  match dt with
  | bool_ => 0
  | uint8 | uint16 | uint32 | uint64 => 1
  | int8 | int16 | int32 | int64 => 2
  | float16 | float32 | float64 => 4
  | complex64 | complex128 => 5
  end.

Definition xcan_cast (from to : dtype) : bool :=
  kind_order from <=? kind_order to.

#[global] Instance kernels : Kernels xnum := {
  of_int := fun _ z => of_Z z;
  astype := xastype;
  truth := xtruth;
  sort_le := xle;
  equal := xeq;
  add := xadd;
  multiply := xmul;
  subtract := fun x y => xadd x (xneg y);
  conjugate := fun x => x;
  real_part := fun x => x;
  result_type := xresult_type;
  true_divide := xdiv;
  _max_filler := minval;
  _min_filler := maxval;
  of_none := fun dt =>
    match dt with
    | float16 | float32 | float64 | complex64 | complex128 => Some NaN
    | _ => None
    end;
  convert := xconvert;
  can_cast := xcan_cast
}.

(** [MaskedArray(data, mask=mask)] for two one-dimensional literals *)
Definition marray (dt : dtype) (data : list Z) (mask : list bool)
  : MaskedArray.t xnum :=
  MaskedArray.mk (array1 dt NaN (map of_Z data)) (array1 bool_ false mask).

(** [MaskedArray(data, mask=mask)] for two literals of rows of length [n] *)
Definition marray2 (dt : dtype) (n : nat) (data : list (list Z))
    (mask : list (list bool)) : MaskedArray.t xnum :=
  MaskedArray.mk (array2 dt NaN n (map (map of_Z) data))
    (array2 bool_ false n mask).

(** The elements of a one-dimensional array of length [n]. *)
Definition tolist {A} (n : nat) (a : ndarray A) : list A :=
  map (fun i => item a [i]) (seq 0 n).

(** The kernels of [np.maximum] and [np.minimum]: NaN wins. *)
Definition xmaximum (x y : xnum) : xnum :=
  match x, y with
  | NaN, _ | _, NaN => NaN
  | _, _ => if xle x y then y else x
  end.

Definition xminimum (x y : xnum) : xnum :=
  match x, y with
  | NaN, _ | _, NaN => NaN
  | _, _ => if xle x y then x else y
  end.

End Exact.

(** ** A second concrete engine: unbounded integers

    It serves the operations of the integer dtypes that neither divide nor
    overflow: a quotient is rounded down.  Addition and multiplication have
    their neutral elements for the equality of Rocq.  It holds no infinity:
    the inexact dtypes are outside it. *)

Module Integral.

Definition bound (lo : bool) (dt : dtype) : option Z :=
  match dt with
  | bool_ => Some (if lo then 0 else 1)
  | int8 => Some (if lo then -128 else 127)
  | int16 => Some (if lo then -32768 else 32767)
  | int32 => Some (if lo then -2147483648 else 2147483647)
  | int64 => Some (if lo then -9223372036854775808 else 9223372036854775807)
  | uint8 => Some (if lo then 0 else 255)
  | uint16 => Some (if lo then 0 else 65535)
  | uint32 => Some (if lo then 0 else 4294967295)
  | uint64 => Some (if lo then 0 else 18446744073709551615)
  | _ => None
  end%Z.

#[global] Instance kernels : Kernels Z := {
  of_int := fun _ z => z;
  astype := fun _ x => x;
  truth := fun x => negb (x =? 0)%Z;
  sort_le := Z.leb;
  equal := Z.eqb;
  add := Z.add;
  multiply := Z.mul;
  subtract := Z.sub;
  conjugate := fun x => x;
  real_part := fun x => x;
  result_type := Exact.xresult_type;
  true_divide := Z.div;
  _max_filler := bound true;
  _min_filler := bound false;
  of_none := fun _ => None;
  convert := fun dt x =>
    match dt, bound true dt, bound false dt with
    | bool_, _, _ => Ok (if (x =? 0)%Z then 0 else 1)%Z
    | _, Some lo, Some hi =>
        if ((lo <=? x) && (x <=? hi))%Z then Ok x else Raise OverflowError
    | _, _, _ => Ok x
    end;
  can_cast := Exact.xcan_cast
}.

(** [MaskedArray(data, mask=mask)] for two one-dimensional literals *)
Definition marray (dt : dtype) (data : list Z) (mask : list bool)
  : MaskedArray.t Z :=
  MaskedArray.mk (array1 dt 0%Z data) (array1 bool_ false mask).

(** [MaskedArray(data, mask=mask)] for two literals of rows of length [n] *)
Definition marray2 (dt : dtype) (n : nat) (data : list (list Z))
    (mask : list (list bool)) : MaskedArray.t Z :=
  MaskedArray.mk (array2 dt 0%Z n data) (array2 bool_ false n mask).

End Integral.

(** ** What the properties observe of operands and results *)

Section Observations.
Context {T : Type} `{Kernels T}.

(** The data model invariant: mask and data have one shape. *)
Definition wf_array (a : MaskedArray.t T) : Prop :=
  shape (MaskedArray._mask a) = shape (MaskedArray._data a).

Definition wf_operand (a : operand T) : Prop :=
  match a with
  | AMaskedArray m => wf_array m
  | _ => True
  end.

(** An operand owned by the masked layer (a dispatched call has one). *)
Definition is_masked (a : operand T) : bool :=
  match type_of a with
  | Some _ => true
  | None => false
  end.

(** The shape of an operand: that of the data of a masked array, that of
    a plain array, none for the scalars and for [X]. *)
Definition operand_shape (a : operand T) : list nat :=
  match a with
  | AMaskedArray m => shape (MaskedArray._data m)
  | Andarray d => shape d
  | AMaskedScalar _ | Ascalar _ _ | AX => []
  end.

(** The mask of an operand as the specification reads it: the [_mask] of
    a masked array or scalar, [False] for a plain operand, [True] for the
    sentinel. *)
Definition operand_mask (a : operand T) : ndarray bool :=
  match a with
  | AMaskedArray m => MaskedArray._mask m
  | AMaskedScalar s => as_array (Generic bool_ (MaskedScalar._mask s))
  | Andarray _ | Ascalar _ _ => as_array (Generic bool_ false)
  | AX => as_array (Generic bool_ true)
  end.

(** The data of an operand: the [_data] of a masked array or scalar, a
    plain operand itself (a placeholder for [X], which has none). *)
Definition operand_data (a : operand T) : ndarray T :=
  match a with
  | AMaskedArray m => MaskedArray._data m
  | AMaskedScalar s =>
      as_array (Generic (MaskedScalar._dtype s) (MaskedScalar._data s))
  | Andarray d => d
  | Ascalar dt x => as_array (Generic dt x)
  | AX => as_array (Generic bool_ (of_int bool_ 0))
  end.

Definition result_shape (r : masked T) : list nat :=
  value_shape (self_data r).

Definition result_mask (r : masked T) : ndarray bool :=
  as_array (self_mask r).

Definition result_data (r : masked T) : ndarray T :=
  as_array (self_data r).

(** The part of [__call__] that follows the treatment of [X]. *)
Definition call_tail (self : _Masked_BinOp T) (da : npvalue T)
    (ma : npvalue bool) (db : npvalue T) (mb : npvalue bool)
    (cls : result (option mask_cls)) : result (masked T) :=
  m <- np.logical_or ma mb ;;
  result <- elementwise2 (uf_call (f self))
              (result_type (value_dtype da) (value_dtype db)) da db ;;
  cls <- cls ;;
  match cls with
  | None => Raise AttributeError
  | Some c =>
      if is_duckscalar result then construct (ScalarType c) result m
      else construct c result m
  end.

(** A mask has the shape of its data, or is a scalar. *)
Definition mask_fits (m : npvalue bool) (d : npvalue T) : Prop :=
  value_shape m = value_shape d \/ value_shape m = [].

(** The dtype of an operand; [X] has none of its own. *)
Definition operand_dtype (a : operand T) : dtype :=
  match a with
  | AMaskedArray m => MaskedArray.dtype m
  | AMaskedScalar s => MaskedScalar._dtype s
  | Andarray d => dtype_of d
  | Ascalar dt _ => dt
  | AX => bool_
  end.

(** The data and the mask that [__call__] computes with, once [X] is
    replaced by a masked zero of the dtype of the other operand. *)
Definition resolved_data (a other : operand T) : npvalue T :=
  match getdata a with
  | Data v => v
  | DataX => Generic (operand_dtype other) (of_int (operand_dtype other) 0)
  end.

Definition resolved_mask (a : operand T) : npvalue bool :=
  match a with
  | AX => Generic bool_ true
  | _ => getmask a
  end.

(** The axis a reduction runs along, once normalized: [None] when all the
    elements are reduced ([axis=None], or the axes 0 and -1 of a 0-d
    array). *)
Definition resolve_axis (axis : option Z) (nd : nat) : result (option nat) :=
  match axis, nd with
  | None, _ => Ok None
  | Some ax, 0 =>
      if ((ax =? 0) || (ax =? -1))%Z then Ok None else Raise AxisError
  | Some ax, S _ => k <- normalize_axis_index ax nd ;; Ok (Some k)
  end.

(** The elements of [a] that a reduction combines into the result element
    [idx]. *)
Definition reduced {A} (a : ndarray A) (k : option nat) (keepdims : bool)
    (idx : list nat) : list A :=
  match k with
  | None => ravel a
  | Some k => lane a k (if keepdims then remove_at k idx else idx)
  end.

Definition reduced_shape (shp : list nat) (k : option nat) (keepdims : bool)
  : list nat :=
  match k with
  | None => if keepdims then map (fun _ => 1) shp else []
  | Some k => if keepdims then keep_at k shp else remove_at k shp
  end.

(** The value a reduction returns when its element at [idx] is [F idx]. *)
Definition reduce_result {B} (dt : dtype) (shp : list nat) (k : option nat)
    (keepdims : bool) (F : list nat -> B) : npvalue B :=
  match k with
  | None =>
      if keepdims
      then decay (mk_ndarray dt (map (fun _ => 1) shp) F true)
      else Generic dt (F [])
  | Some k =>
      if keepdims then NDArray (mk_ndarray dt (keep_at k shp) F true)
      else decay (mk_ndarray dt (remove_at k shp) F true)
  end.

(** The data of [a] with the masked entries replaced by [fv]. *)
Definition identity_filled (a : MaskedArray.t T) (fv : T) (w : bool)
  : ndarray T :=
  mk_ndarray (MaskedArray.dtype a) (MaskedArray.shape a)
    (fun idx => if item (MaskedArray._mask a) idx then fv
                else item (MaskedArray._data a) idx) w.

(** What a sum-like reduction returns: [fv] fills the masked entries,
    [conv] converts the elements, and the kernel [g] with identity [e]
    reduces them. *)
Definition reduction_of (a : MaskedArray.t T) (fv : T) (conv : T -> T)
    (g : T -> T -> T) (e : T) (k : option nat) (keepdims : bool)
    (r : masked T) : Prop :=
  result_shape r = reduced_shape (MaskedArray.shape a) k keepdims /\
  shape (result_mask r) = reduced_shape (MaskedArray.shape a) k keepdims /\
  forall idx,
    in_bounds (reduced_shape (MaskedArray.shape a) k keepdims) idx ->
    (item (result_mask r) idx = true <->
     forall m, In m (reduced (MaskedArray._mask a) k keepdims idx) ->
               m = true) /\
    item (result_data r) idx =
    fold_lane g e
      (map conv (reduced (identity_filled a fv true) k keepdims idx)).

(** The mask and the data of the elements of one lane of [a]. *)
Definition lane_pairs (a : MaskedArray.t T) (k : nat) (p : list nat)
  : list (bool * T) :=
  combine (lane (MaskedArray._mask a) k p) (lane (MaskedArray._data a) k p).

End Observations.

(** The sum of a list of counts *)
Definition Zsum (l : list Z) : Z := fold_right Z.add 0%Z l.

(** The values of the unmasked elements of a lane, in their order; the
    lane with its masked elements replaced by [v]; the number of masked
    elements. *)
Definition unmasked_values {A} (l : list (bool * A)) : list A :=
  map snd (filter (fun p : bool * A => negb (fst p)) l).

Definition fill_lane {A} (v : A) (l : list (bool * A)) : list A :=
  map (fun p : bool * A => if fst p then v else snd p) l.

Definition count_masked {A} (l : list (bool * A)) : nat :=
  List.length (filter (fun p : bool * A => fst p) l).

(** What sorting computes: in every lane the data of the result [r] is the
    sorted rearrangement [S] of the lane of [a] filled with [v], and the
    mask of [r] is unset on as many leading positions as the lane of [a]
    has unmasked elements, and set after them. *)
Definition sorted_filled {T} `{Kernels T} (a : MaskedArray.t T) (v : T)
    (k : nat) (r : MaskedArray.t T) : Prop :=
  shape (MaskedArray._data r) = MaskedArray.shape a /\
  shape (MaskedArray._mask r) = MaskedArray.shape a /\
  forall idx,
    in_bounds (MaskedArray.shape a) idx ->
    let l := lane_pairs a k (remove_at k idx) in
    let S := sorted_list sort_le (fill_lane v l) in
    let j := nth k idx 0 in
    Permutation S (fill_lane v l) /\
    StronglySorted (fun x y => sort_le x y = true) S /\
    (forall i i', i < List.length S -> i' < List.length S ->
                  sort_le (nth i' S v) (nth i S v) = false -> i < i') /\
    item (MaskedArray._data r) idx = nth j S v /\
    item (MaskedArray._mask r) idx
    = negb (j <? List.length (unmasked_values l)).

(** A sorted result [r] of [a] along the axis [k], with filler [v]: in
    every lane the sorted values [U] of the unmasked elements of [a] come
    first, unmasked, and the rest of the lane is masked and holds [v]. *)
Definition sorted_masked_last {T} `{Kernels T} (a : MaskedArray.t T) (v : T)
    (k : nat) (r : MaskedArray.t T) : Prop :=
  shape (MaskedArray._data r) = MaskedArray.shape a /\
  shape (MaskedArray._mask r) = MaskedArray.shape a /\
  forall idx,
    in_bounds (MaskedArray.shape a) idx ->
    let U := sorted_list sort_le
               (unmasked_values (lane_pairs a k (remove_at k idx))) in
    let j := nth k idx 0 in
    Permutation U (unmasked_values (lane_pairs a k (remove_at k idx))) /\
    StronglySorted (fun x y => sort_le x y = true) U /\
    (forall i i', i < List.length U -> i' < List.length U ->
                  sort_le (nth i' U v) (nth i U v) = false -> i < i') /\
    item (MaskedArray._mask r) idx = negb (j <? List.length U) /\
    (j < List.length U -> item (MaskedArray._data r) idx = nth j U v) /\
    (List.length U <= j -> item (MaskedArray._data r) idx = v).

(** The elements of [a] reduced into the result element [idx], each with
    its mask. *)
Definition reduced_pairs {T} (a : MaskedArray.t T) (k : option nat)
    (keepdims : bool) (idx : list nat) : list (bool * T) :=
  combine (reduced (MaskedArray._mask a) k keepdims idx)
          (reduced (MaskedArray._data a) k keepdims idx).

(** The number of unmasked elements reduced into the result element
    [idx]. *)
Definition slice_count {T} (a : MaskedArray.t T) (k : option nat)
    (keepdims : bool) (idx : list nat) : Z :=
  Zsum (map (fun b : bool => if b then 1%Z else 0%Z)
          (map negb (reduced (MaskedArray._mask a) k keepdims idx))).

(** The conversion applied to the quotient of a mean or variance: a 0-d
    result is a scalar, rebuilt by [dtype.type]; an array is divided in
    place, the quotients cast into its dtype. *)
Definition quotient_cast {T} `{Kernels T} (dt : dtype) (shp : list nat)
  : T -> T :=
  astype dt.

(** What [mean] returns: the sum of the 0-filled data, accumulated in [dt]
    after the conversion [conv], divided by the number of unmasked elements;
    an element is masked exactly when that number is zero. *)
Definition mean_of {T} `{Kernels T} (a : MaskedArray.t T) (conv : T -> T)
    (dt : dtype) (k : option nat) (keepdims : bool) (r : masked T) : Prop :=
  let shp := reduced_shape (MaskedArray.shape a) k keepdims in
  result_shape r = shp /\
  shape (result_mask r) = shp /\
  forall idx,
    in_bounds shp idx ->
    (item (result_mask r) idx = true <-> slice_count a k keepdims idx = 0%Z) /\
    item (result_data r) idx =
    quotient_cast dt shp
      (true_divide
         (fold_lane add (of_int dt 0)
            (map conv
               (reduced (identity_filled a (of_int (MaskedArray.dtype a) 0)
                           true) k keepdims idx)))
         (slice_count a k keepdims idx)).

(** The index, in a reduction result kept with [keepdims], of the slice
    that the element [j] of the array belongs to. *)
Definition slice_index (shp : list nat) (k : option nat) (j : list nat)
  : list nat :=
  bindex (reduced_shape shp k true) j.

(** The squared deviations that [var] sums: the mean of each slice is the
    0-filled sum, accumulated in [dt] after the conversion [conv], divided
    by the count of the slice; an unmasked element contributes its
    deviation from the mean of its slice times itself (times its conjugate,
    real part, in a complex dtype), stored in the dtype of the deviations;
    a masked element contributes 0. *)
Definition squared_deviations {T} `{Kernels T} (a : MaskedArray.t T)
    (conv : T -> T) (dt : dtype) (k : option nat) : ndarray T :=
  let dx := result_type (MaskedArray.dtype a) dt in
  mk_ndarray dx (MaskedArray.shape a)
    (fun j =>
       if item (MaskedArray._mask a) j then of_int dx 0
       else
         let s := slice_index (MaskedArray.shape a) k j in
         let mean :=
           astype dt
             (true_divide
                (fold_lane add (of_int dt 0)
                   (map conv
                      (reduced
                         (identity_filled a (of_int (MaskedArray.dtype a) 0)
                            true) k true s)))
                (slice_count a k true s)) in
         let d := subtract (item (MaskedArray._data a) j) mean in
         if is_complexfloating (MaskedArray.dtype a)
         then real_part (astype dx (multiply d (conjugate d)))
         else astype dx (multiply d d))
    true.

(** What [var] returns: the sum of the squared deviations, accumulated in
    [dtr], divided by [max(count - ddof, 0)]; an element is masked exactly
    when the count of its slice is at most [ddof]. *)
Definition var_of {T} `{Kernels T} (a : MaskedArray.t T) (conv : T -> T)
    (dt dtr : dtype) (ddof : Z) (k : option nat) (keepdims : bool)
    (r : masked T) : Prop :=
  let shp := reduced_shape (MaskedArray.shape a) k keepdims in
  result_shape r = shp /\
  shape (result_mask r) = shp /\
  forall idx,
    in_bounds shp idx ->
    (item (result_mask r) idx = true <->
     (slice_count a k keepdims idx <= ddof)%Z) /\
    item (result_data r) idx =
    quotient_cast dtr shp
      (true_divide
         (fold_lane add (of_int dtr 0)
            (map conv
               (reduced (squared_deviations a conv dt k) k keepdims idx)))
         (Z.max (slice_count a k keepdims idx - ddof) 0)).

(** * Properties *)

Lemma shape_eqb_refl (s : list nat) : shape_eqb s s = true.
Proof.
  induction s as [|a s IH]; [reflexivity|].
  unfold shape_eqb; fold shape_eqb. rewrite Nat.eqb_refl. exact IH.
Qed.

Lemma shape_eqb_eq (s1 s2 : list nat) : shape_eqb s1 s2 = true -> s1 = s2.
Proof.
  revert s2. induction s1 as [|a s1 IH]; intros [|b s2];
    unfold shape_eqb; fold shape_eqb; intros Hs;
    try discriminate; [reflexivity|].
  apply andb_true_iff in Hs. destruct Hs as [Hab Hs].
  apply Nat.eqb_eq in Hab. f_equal; [exact Hab|apply IH; exact Hs].
Qed.

(** ** Truth value of a masked scalar *)

Section ScalarTruth.
Context {T : Type} `{Kernels T}.

Lemma cmp_op_scalar_scalar (s t : MaskedScalar.t T) (op : T -> T -> T) :
  _cmp_op (RScalar s) (AMaskedScalar t) op =
  Ok (RScalar (MaskedScalar.mk
                 (op (MaskedScalar._data s) (MaskedScalar._data t))
                 (MaskedScalar._mask s || MaskedScalar._mask t) bool_)).
Proof. reflexivity. Qed.

Lemma cmp_op_scalar_plain (s : MaskedScalar.t T) (dt : dtype) (x : T)
    (op : T -> T -> T) :
  _cmp_op (RScalar s) (Ascalar dt x) op =
  Ok (RScalar (MaskedScalar.mk (op (MaskedScalar._data s) x)
                 (MaskedScalar._mask s || false) bool_)).
Proof. reflexivity. Qed.

Lemma cmp_op_scalar_X (s : MaskedScalar.t T) (op : T -> T -> T) :
  _cmp_op (RScalar s) AX op =
  Ok (RScalar (MaskedScalar.mk
                 (op (MaskedScalar._data s) (of_int (MaskedScalar._dtype s) 0))
                 (MaskedScalar._mask s || true) bool_)).
Proof. reflexivity. Qed.

(** C10.  Truth-testing a masked scalar gives [False] when its mask is set,
    whatever its data and dtype, and the truth value of its data otherwise.
    Hence the comparison of a masked scalar with a masked scalar, a plain
    scalar or [X] is falsy as soon as one side is masked: it returns a
    masked scalar whose truth value is [False] unless both sides are
    unmasked, and then the truth value of the comparison kernel. *)
Theorem masked_scalar_truth :
  (forall (d : T) (dt : dtype),
      MaskedScalar.__bool__ (MaskedScalar.mk d true dt) = false) /\
  (forall (d : T) (dt : dtype),
      MaskedScalar.__bool__ (MaskedScalar.mk d false dt) = truth d) /\
  (forall (s t : MaskedScalar.t T) (op : T -> T -> T),
      exists r,
        _cmp_op (RScalar s) (AMaskedScalar t) op = Ok (RScalar r) /\
        MaskedScalar._mask r = MaskedScalar._mask s || MaskedScalar._mask t /\
        MaskedScalar.__bool__ r =
          negb (MaskedScalar._mask s || MaskedScalar._mask t)
          && truth (op (MaskedScalar._data s) (MaskedScalar._data t))) /\
  (forall (s : MaskedScalar.t T) (dt : dtype) (x : T) (op : T -> T -> T),
      exists r,
        _cmp_op (RScalar s) (Ascalar dt x) op = Ok (RScalar r) /\
        MaskedScalar._mask r = MaskedScalar._mask s /\
        MaskedScalar.__bool__ r =
          negb (MaskedScalar._mask s) && truth (op (MaskedScalar._data s) x)) /\
  (forall (s : MaskedScalar.t T) (op : T -> T -> T),
      exists r,
        _cmp_op (RScalar s) AX op = Ok (RScalar r) /\
        MaskedScalar._mask r = true /\
        MaskedScalar.__bool__ r = false).
Proof.
  repeat split.
  - intros s t op. eexists. split; [apply cmp_op_scalar_scalar|].
    split; [reflexivity|].
    unfold MaskedScalar.__bool__; simpl.
    destruct (MaskedScalar._mask s || MaskedScalar._mask t); reflexivity.
  - intros s dt x op. eexists. split; [apply cmp_op_scalar_plain|].
    split; [simpl; apply orb_false_r|].
    unfold MaskedScalar.__bool__; simpl. rewrite orb_false_r.
    destruct (MaskedScalar._mask s); reflexivity.
  - intros s op. eexists. split; [apply cmp_op_scalar_X|].
    split; [simpl; apply orb_true_r|].
    unfold MaskedScalar.__bool__; simpl. rewrite orb_true_r. reflexivity.
Qed.

End ScalarTruth.

(** ** Filling and rebuilding *)

Section RoundTrip.
Context {T : Type} `{Kernels T}.

Lemma filled_copy (a : MaskedArray.t T) (fv : fill T) (x : T) :
  shape (MaskedArray._mask a) = shape (MaskedArray._data a) ->
  stored (MaskedArray.dtype a) fv = Ok x ->
  MaskedArray.filled a (Some fv) None false =
  Ok (mk_ndarray (MaskedArray.dtype a) (MaskedArray.shape a)
        (fun idx => if item (MaskedArray._mask a) idx then x
                    else item (MaskedArray._data a) idx) true,
      a).
Proof.
  intros Hs Hx. unfold MaskedArray.filled, setitem_mask.
  cbn [andb _get_fill_value bind]. rewrite Hx. simpl.
  rewrite Hs, shape_eqb_refl. reflexivity.
Qed.

Lemma filled_unstorable (a : MaskedArray.t T) (fv : fill T) (e : exn)
    (view : bool) :
  stored (MaskedArray.dtype a) fv = Raise e ->
  MaskedArray.filled a (Some fv) None view = Raise e.
Proof.
  intros He. unfold MaskedArray.filled. cbn [_get_fill_value bind].
  rewrite He. destruct (view && writeable (MaskedArray._data a)); reflexivity.
Qed.

(** C7, as amended.  For a masked array [a] (mask and data of one shape)
    and a fill value [fv] of the caller: when the dtype of [a] can store
    [fv], as the element [c], [MaskedArray(a.filled(fv), a.mask)] is built
    without error and reproduces [a]: same shape and dtype, the same mask
    at every position and the same data at every unmasked position (the
    masked positions hold [c]), and [a] itself is left as it was; when the
    dtype cannot store [fv], [filled] raises the error of the conversion. *)
Theorem filled_mask_roundtrip (a : MaskedArray.t T) (fv : T) :
  shape (MaskedArray._mask a) = shape (MaskedArray._data a) ->
  match convert (MaskedArray.dtype a) fv with
  | Ok c =>
      exists d b,
        MaskedArray.filled a (Some (Given fv)) None false = Ok (d, a) /\
        MaskedArray.__init__ (MaskedArray.FromArray d)
          (Some (NDArray (MaskedArray.mask a))) None = Ok b /\
        MaskedArray.shape b = MaskedArray.shape a /\
        MaskedArray.dtype b = MaskedArray.dtype a /\
        shape (MaskedArray._mask b) = shape (MaskedArray._mask a) /\
        (forall idx,
            item (MaskedArray._mask b) idx
            = item (MaskedArray._mask a) idx) /\
        (forall idx,
            item (MaskedArray._mask a) idx = false ->
            item (MaskedArray._data b) idx
            = item (MaskedArray._data a) idx) /\
        (forall idx,
            item (MaskedArray._mask a) idx = true ->
            item (MaskedArray._data b) idx = c)
  | Raise e =>
      forall view,
        MaskedArray.filled a (Some (Given fv)) None view = Raise e
  end.
Proof.
  intros Hs. destruct (convert (MaskedArray.dtype a) fv) as [c|e] eqn:Hc.
  - rewrite (filled_copy a (Given fv) c Hs Hc).
    eexists. eexists. split; [reflexivity|].
    unfold MaskedArray.__init__, MaskedArray.mask, np.view, set_writeable.
    cbn [shape]. unfold MaskedArray.shape. rewrite Hs, shape_eqb_refl.
    split; [reflexivity|].
    repeat split; cbn; intros idx Hm; rewrite Hm; reflexivity.
  - intros view. apply filled_unstorable. exact Hc.
Qed.

End RoundTrip.

Lemma filled_mask_roundtrip_witness :
  let a := Exact.marray int64 [1; 2; 3]%Z [false; true; false] in
  let fv := Exact.Fin (3 # 2) in
  shape (MaskedArray._mask a) = shape (MaskedArray._data a) /\
  exists d b,
    MaskedArray.filled a (Some (Given fv)) None false = Ok (d, a) /\
    MaskedArray.__init__ (MaskedArray.FromArray d)
      (Some (NDArray (MaskedArray.mask a))) None = Ok b /\
    MaskedArray.shape b = MaskedArray.shape a /\
    MaskedArray.dtype b = MaskedArray.dtype a /\
    shape (MaskedArray._mask b) = shape (MaskedArray._mask a) /\
    (forall idx,
        item (MaskedArray._mask b) idx = item (MaskedArray._mask a) idx) /\
    (forall idx,
        item (MaskedArray._mask a) idx = false ->
        item (MaskedArray._data b) idx = item (MaskedArray._data a) idx) /\
    (forall idx,
        item (MaskedArray._mask a) idx = true ->
        item (MaskedArray._data b) idx = Exact.of_Z 1).
Proof.
  intros a fv. split; [reflexivity|].
  exact (filled_mask_roundtrip a fv eq_refl).
Defined.

(** The claim C7 as it is stated fails for a fill value that the dtype
    cannot store: [filled(nan)] of an [int64] array raises [ValueError], so
    no array is rebuilt from it. *)
Lemma filled_roundtrip_counterexample :
  let a := Exact.marray int64 [1; 2; 3]%Z [false; true; false] in
  shape (MaskedArray._mask a) = shape (MaskedArray._data a) /\
  MaskedArray.filled a (Some (Given Exact.NaN)) None false
    = Raise ValueError /\
  ~ (exists d b,
        MaskedArray.filled a (Some (Given Exact.NaN)) None false
          = Ok (d, a) /\
        MaskedArray.__init__ (MaskedArray.FromArray d)
          (Some (NDArray (MaskedArray.mask a))) None = Ok b).
Proof.
  intros a. split; [reflexivity|]. split; [reflexivity|].
  intros (d & b & Hd & _). discriminate Hd.
Qed.

(** ** Broadcasting *)

Lemma bshape_rev_nil_r (r : list nat) : bshape_rev r [] = Some r.
Proof. destruct r; reflexivity. Qed.

Lemma bshape_rev_refl (r : list nat) : bshape_rev r r = Some r.
Proof.
  induction r as [|a r IH]; [reflexivity|].
  simpl. rewrite IH, Nat.eqb_refl. reflexivity.
Qed.

Lemma bshape_rev_absorb_l (r1 : list nat) :
  forall r2 r, bshape_rev r1 r2 = Some r -> bshape_rev r1 r = Some r.
Proof.
  induction r1 as [|a r1 IH]; intros r2 r Hb.
  - reflexivity.
  - destruct r2 as [|b r2].
    + simpl in Hb. injection Hb as <-. apply bshape_rev_refl.
    + simpl in Hb.
      destruct (bshape_rev r1 r2) as [r'|] eqn:Hr; [|discriminate].
      specialize (IH _ _ Hr).
      destruct (a =? b) eqn:Hab.
      * injection Hb as <-. simpl. rewrite IH, Nat.eqb_refl. reflexivity.
      * destruct (a =? 1) eqn:Ha1.
        -- injection Hb as <-. simpl. rewrite IH, Hab, Ha1. reflexivity.
        -- destruct (b =? 1); [|discriminate].
           injection Hb as <-. simpl. rewrite IH, Nat.eqb_refl. reflexivity.
Qed.

Lemma bshape_rev_comm (r1 : list nat) :
  forall r2, bshape_rev r1 r2 = bshape_rev r2 r1.
Proof.
  induction r1 as [|a r1 IH]; intros [|b r2]; try reflexivity.
  simpl. rewrite IH. destruct (bshape_rev r2 r1); [|reflexivity].
  rewrite (Nat.eqb_sym b a).
  destruct (a =? b) eqn:Hab.
  - apply Nat.eqb_eq in Hab. subst. reflexivity.
  - destruct (a =? 1) eqn:Ha; destruct (b =? 1) eqn:Hb; try reflexivity.
    apply Nat.eqb_eq in Ha, Hb. subst. discriminate.
Qed.

Lemma bshape_rev_nil_inv (r1 r2 : list nat) :
  bshape_rev r1 r2 = Some [] -> r1 = [] /\ r2 = [].
Proof.
  destruct r1 as [|a r1]; destruct r2 as [|b r2]; simpl; intros Hb;
    try (injection Hb as Hb); try discriminate; auto.
  destruct (bshape_rev r1 r2); [|discriminate].
  destruct (a =? b); [discriminate|].
  destruct (a =? 1); [discriminate|].
  destruct (b =? 1); discriminate.
Qed.

Lemma bindex_rev_idem (r ri : list nat) :
  bindex_rev r (bindex_rev r ri) = bindex_rev r ri.
Proof.
  revert ri. induction r as [|a r IH]; intros [|i ri]; try reflexivity.
  simpl. rewrite IH. destruct (a =? 1); reflexivity.
Qed.

Lemma bindex_rev_compose_l (r1 : list nat) :
  forall r2 r ri,
    bshape_rev r1 r2 = Some r ->
    bindex_rev r1 (bindex_rev r ri) = bindex_rev r1 ri.
Proof.
  induction r1 as [|a r1 IH]; intros r2 r ri Hb; [reflexivity|].
  destruct r2 as [|b r2].
  - simpl in Hb. injection Hb as <-. apply bindex_rev_idem.
  - simpl in Hb.
    destruct (bshape_rev r1 r2) as [r'|] eqn:Hr; [|discriminate].
    assert (Hc : exists c, r = c :: r' /\ ((a =? 1) = false -> c = a)).
    { destruct (a =? b) eqn:Hab; [injection Hb as <-; eauto|].
      destruct (a =? 1) eqn:Ha1;
        [injection Hb as <-; eexists; split; [reflexivity|discriminate]|].
      destruct (b =? 1); [injection Hb as <-; eauto|discriminate]. }
    destruct Hc as (c & -> & Hc).
    destruct ri as [|i ri]; [reflexivity|].
    simpl. rewrite (IH _ _ ri Hr).
    destruct (a =? 1) eqn:Ha1; [reflexivity|].
    rewrite (Hc eq_refl), Ha1. reflexivity.
Qed.

Lemma broadcast_shapes_nil_r (s : list nat) : broadcast_shapes s [] = Some s.
Proof.
  unfold broadcast_shapes. simpl. rewrite bshape_rev_nil_r. simpl.
  rewrite rev_involutive. reflexivity.
Qed.

Lemma broadcast_shapes_nil_l (s : list nat) : broadcast_shapes [] s = Some s.
Proof.
  unfold broadcast_shapes. simpl. rewrite rev_involutive. reflexivity.
Qed.

Lemma broadcast_shapes_refl (s : list nat) : broadcast_shapes s s = Some s.
Proof.
  unfold broadcast_shapes. rewrite bshape_rev_refl. simpl.
  rewrite rev_involutive. reflexivity.
Qed.

Lemma broadcast_shapes_comm (s1 s2 : list nat) :
  broadcast_shapes s1 s2 = broadcast_shapes s2 s1.
Proof. unfold broadcast_shapes. rewrite bshape_rev_comm. reflexivity. Qed.

Lemma broadcast_shapes_rev (s1 s2 s : list nat) :
  broadcast_shapes s1 s2 = Some s ->
  bshape_rev (rev s1) (rev s2) = Some (rev s).
Proof.
  unfold broadcast_shapes. intros Hb.
  destruct (bshape_rev (rev s1) (rev s2)) as [r|]; [|discriminate].
  injection Hb as <-. rewrite rev_involutive. reflexivity.
Qed.

Lemma broadcast_shapes_absorb_l (s1 s2 s : list nat) :
  broadcast_shapes s1 s2 = Some s -> broadcast_shapes s1 s = Some s.
Proof.
  intros Hb. apply broadcast_shapes_rev in Hb.
  unfold broadcast_shapes. rewrite (bshape_rev_absorb_l _ _ _ Hb). simpl.
  rewrite rev_involutive. reflexivity.
Qed.

Lemma broadcast_shapes_absorb_r (s1 s2 s : list nat) :
  broadcast_shapes s1 s2 = Some s -> broadcast_shapes s2 s = Some s.
Proof.
  rewrite broadcast_shapes_comm. apply broadcast_shapes_absorb_l.
Qed.

Lemma broadcast_shapes_nil_inv (s1 s2 : list nat) :
  broadcast_shapes s1 s2 = Some [] -> s1 = [] /\ s2 = [].
Proof.
  intros Hb. apply broadcast_shapes_rev in Hb. simpl in Hb.
  apply bshape_rev_nil_inv in Hb. destruct Hb as [H1 H2].
  split; apply (f_equal (@rev nat)) in H1, H2;
    rewrite rev_involutive in H1, H2; assumption.
Qed.

Lemma bindex_nil (idx : list nat) : bindex [] idx = [].
Proof. reflexivity. Qed.

Lemma bindex_compose_l (s1 s2 s idx : list nat) :
  broadcast_shapes s1 s2 = Some s ->
  bindex s1 (bindex s idx) = bindex s1 idx.
Proof.
  intros Hb. apply broadcast_shapes_rev in Hb.
  unfold bindex. rewrite rev_involutive.
  rewrite (bindex_rev_compose_l _ _ _ _ Hb). reflexivity.
Qed.

Lemma bindex_compose_r (s1 s2 s idx : list nat) :
  broadcast_shapes s1 s2 = Some s ->
  bindex s2 (bindex s idx) = bindex s2 idx.
Proof.
  rewrite broadcast_shapes_comm. apply bindex_compose_l.
Qed.

(** ** Binary elementwise operations *)

Section BinaryOps.
Context {T : Type} `{Kernels T}.

Lemma mask_fits_broadcast (ma mb : npvalue bool) (da db : npvalue T)
    (s : list nat) :
  mask_fits ma da -> mask_fits mb db ->
  broadcast_shapes (value_shape da) (value_shape db) = Some s ->
  exists sm,
    broadcast_shapes (value_shape ma) (value_shape mb) = Some sm /\
    broadcast_shapes sm s = Some s.
Proof.
  intros [Ha|Ha] [Hb|Hb] Hs; rewrite Ha, Hb.
  - exists s. split; [exact Hs|apply broadcast_shapes_refl].
  - exists (value_shape da). split; [apply broadcast_shapes_nil_r|].
    exact (broadcast_shapes_absorb_l _ _ _ Hs).
  - exists (value_shape db). split; [apply broadcast_shapes_nil_l|].
    exact (broadcast_shapes_absorb_r _ _ _ Hs).
  - exists []. split; [reflexivity|apply broadcast_shapes_nil_l].
Qed.

Lemma call_tail_mask (self : _Masked_BinOp T) (da db : npvalue T)
    (ma mb : npvalue bool) (s : list nat) :
  mask_fits ma da -> mask_fits mb db ->
  broadcast_shapes (value_shape da) (value_shape db) = Some s ->
  exists r,
    call_tail self da ma db mb (Ok (Some cls_MaskedArray)) = Ok r /\
    result_shape r = s /\
    shape (result_mask r) = s /\
    forall idx,
      item (result_mask r) idx =
      item (as_array ma) (bindex (value_shape ma) idx)
      || item (as_array mb) (bindex (value_shape mb) idx).
Proof.
  intros Ha Hb Hs.
  destruct (mask_fits_broadcast ma mb da db s Ha Hb Hs) as (sm & Hm & Hms).
  unfold call_tail, np.logical_or, elementwise2. rewrite Hm, Hs. cbn [bind].
  destruct s as [|n s].
  - (* a scalar result *)
    apply broadcast_shapes_nil_inv in Hs. destruct Hs as [Hda Hdb].
    assert (Hsm : sm = []).
    { destruct Ha as [Ha|Ha], Hb as [Hb|Hb]; rewrite Ha, Hb in Hm;
        rewrite ?Hda, ?Hdb in Hm; cbn in Hm; congruence. }
    subst sm. cbn.
    eexists. split; [reflexivity|]. cbn.
    assert (Ea : value_shape ma = []).
    { destruct Ha as [Ha|Ha]; congruence. }
    assert (Eb : value_shape mb = []).
    { destruct Hb as [Hb|Hb]; congruence. }
    rewrite Ea, Eb. repeat split.
  - (* an array result *)
    cbn [decay shape is_duckscalar].
    destruct sm as [|k sm].
    + (* both masks are scalars *)
      cbn [decay shape dtype_of item construct ScalarType ArrayType as_array].
      unfold MaskedArray.__init__, np.broadcast_to. cbn [value_shape as_array shape].
      rewrite broadcast_shapes_nil_l, shape_eqb_refl.
      cbn. eexists. split; [reflexivity|]. cbn.
      destruct (broadcast_shapes_nil_inv _ _ Hm) as [Ea Eb].
      rewrite Ea, Eb. repeat split.
    + cbn [decay shape dtype_of item construct ScalarType ArrayType as_array].
      unfold MaskedArray.__init__. cbn [shape].
      destruct (shape_eqb (k :: sm) (n :: s)) eqn:E.
      * apply shape_eqb_eq in E.
        cbn. eexists. split; [reflexivity|]. cbn.
        repeat split. exact E.
      * unfold np.broadcast_to. cbn [value_shape as_array shape].
        rewrite Hms, shape_eqb_refl.
        cbn. eexists. split; [reflexivity|]. cbn.
        repeat split. intros idx.
        change (rev (bindex_rev (rev sm ++ [k]) (rev idx)))
          with (bindex (k :: sm) idx).
        rewrite (bindex_compose_l _ _ _ idx Hm).
        rewrite (bindex_compose_r _ _ _ idx Hm). reflexivity.
Qed.

End BinaryOps.

Section BinaryMask.
Context {T : Type} `{Kernels T}.

Lemma call_is_tail (self : _Masked_BinOp T) (a b : operand T) :
  is_masked a || is_masked b = true ->
  __call__ self a b None =
  call_tail self (resolved_data a b) (resolved_mask a)
    (resolved_data b a) (resolved_mask b) (Ok (Some cls_MaskedArray)).
Proof.
  destruct a, b; cbn; intros Hm; try discriminate; reflexivity.
Qed.

Lemma resolved_mask_fits (a other : operand T) :
  wf_operand a -> mask_fits (resolved_mask a) (resolved_data a other).
Proof.
  destruct a; cbn; intros Hw;
    try (right; reflexivity).
  left. exact Hw.
Qed.

Lemma resolved_data_shape (a other : operand T) :
  value_shape (resolved_data a other) = operand_shape a.
Proof. destruct a; reflexivity. Qed.

Lemma resolved_mask_item (a : operand T) (idx : list nat) :
  wf_operand a ->
  item (as_array (resolved_mask a)) (bindex (value_shape (resolved_mask a)) idx)
  = item (operand_mask a) (bindex (operand_shape a) idx).
Proof.
  destruct a; cbn; intros Hw; try reflexivity.
  unfold value_shape, operand_shape. cbn. unfold value_shape. cbn.
  rewrite Hw. reflexivity.
Qed.

Lemma MaskedX_call (dt : dtype) :
  MaskedX__call__ dt = Ok (MaskedScalar.mk (of_int dt 0) true dt).
Proof. reflexivity. Qed.

(** C2.  A binary elementwise operation on two operands of the data model
    (a masked array, a masked scalar, a plain array, a plain scalar or [X]),
    one of them masked as dispatch requires, with shapes that broadcast to
    [s]: the call returns a result of shape [s] whose mask is, at every
    index, the OR of the two operand masks broadcast to [s] (the mask of a
    masked array or scalar is its field [_mask], that of a plain operand is
    [False], that of [X] is [True]: [operand_mask]).  And [X] is treated as
    the masked scalar [X(dtype)] of the dtype of the other operand: the call
    with [X] equals the call with that scalar. *)
Theorem binop_mask_is_or (self : _Masked_BinOp T) (a b : operand T)
    (s : list nat) :
  wf_operand a -> wf_operand b ->
  is_masked a || is_masked b = true ->
  broadcast_shapes (operand_shape a) (operand_shape b) = Some s ->
  (exists r,
      __call__ self a b None = Ok r /\
      result_shape r = s /\
      shape (result_mask r) = s /\
      forall idx,
        item (result_mask r) idx =
        item (operand_mask a) (bindex (operand_shape a) idx)
        || item (operand_mask b) (bindex (operand_shape b) idx)) /\
  (exists sx,
      MaskedX__call__ (operand_dtype a) = Ok sx /\
      (b = AX ->
       __call__ self a b None = __call__ self a (AMaskedScalar sx) None)) /\
  (exists sx,
      MaskedX__call__ (operand_dtype b) = Ok sx /\
      (a = AX ->
       __call__ self a b None = __call__ self (AMaskedScalar sx) b None)).
Proof.
  intros Hwa Hwb Hm Hs. split; [|split].
  - rewrite (call_is_tail self a b Hm).
    destruct (call_tail_mask self (resolved_data a b) (resolved_data b a)
                (resolved_mask a) (resolved_mask b) s)
      as (r & Hr & Hrs & Hms & Hit).
    + apply resolved_mask_fits. exact Hwa.
    + apply resolved_mask_fits. exact Hwb.
    + rewrite !resolved_data_shape. exact Hs.
    + exists r. split; [exact Hr|]. split; [exact Hrs|]. split; [exact Hms|].
      intros idx. rewrite Hit.
      rewrite (resolved_mask_item a idx Hwa), (resolved_mask_item b idx Hwb).
      reflexivity.
  - eexists. split; [apply MaskedX_call|].
    intros ->. destruct a; cbn in Hm; try discriminate; reflexivity.
  - eexists. split; [apply MaskedX_call|].
    intros ->. destruct b; cbn in Hm; try discriminate; reflexivity.
Qed.

End BinaryMask.

Lemma binop_mask_is_or_witness :
  let a := AMaskedArray (Exact.marray int64 [1; 2; 3]%Z [false; true; false]) in
  let b := @AX Exact.xnum in
  wf_operand a /\ wf_operand b /\
  is_masked a || is_masked b = true /\
  broadcast_shapes (operand_shape a) (operand_shape b) = Some [3] /\
  exists r,
    __call__ masked_add a b None = Ok r /\
    result_shape r = [3] /\
    shape (result_mask r) = [3] /\
    forall idx,
      item (result_mask r) idx =
      item (operand_mask a) (bindex (operand_shape a) idx)
      || item (operand_mask b) (bindex (operand_shape b) idx).
Proof.
  intros a b.
  assert (Hwa : wf_operand a) by reflexivity.
  assert (Hwb : wf_operand b) by exact I.
  assert (Hm : is_masked a || is_masked b = true) by reflexivity.
  assert (Hs : broadcast_shapes (operand_shape a) (operand_shape b)
               = Some [3]) by reflexivity.
  repeat (split; [assumption|]).
  exact (proj1 (binop_mask_is_or masked_add a b [3] Hwa Hwb Hm Hs)).
Defined.

(** ** Reductions *)

Section ReduceKernel.
Context {A B : Type}.

Lemma reduce_axis_ok (conv : A -> B) (f : B -> B -> B) (ident dflt : B)
    (dt : dtype) (axis : option Z) (keepdims : bool) (a : ndarray A)
    (k : option nat) :
  resolve_axis axis (ndim a) = Ok k ->
  reduce_axis conv f (Some ident) dflt dt axis keepdims a =
  Ok (reduce_result dt (shape a) k keepdims
        (fun idx => fold_lane f ident
                      (map conv (reduced a k keepdims idx)))).
Proof.
  unfold resolve_axis, reduce_axis, ndim.
  destruct axis as [ax|].
  - destruct (shape a) as [|n s] eqn:Hs; cbn [List.length].
    + destruct ((ax =? 0) || (ax =? -1))%Z; [|discriminate].
      intros [= <-]. unfold reduced, reduce_result.
      destruct (map conv (ravel a)); destruct keepdims; reflexivity.
    + destruct (normalize_axis_index ax (S (List.length s))) as [k'|e];
        cbn [bind]; [|discriminate].
      intros [= <-]. unfold reduce_result, reduced.
      destruct (nth k' (n :: s) 0); destruct keepdims; reflexivity.
  - intros [= <-]. unfold reduced, reduce_result.
    destruct (map conv (ravel a)); destruct keepdims; reflexivity.
Qed.

Lemma reduce_axis_raise (conv : A -> B) (f : B -> B -> B) (ident : option B)
    (dflt : B) (dt : dtype) (axis : option Z) (keepdims : bool)
    (a : ndarray A) (e : exn) :
  resolve_axis axis (ndim a) = Raise e ->
  reduce_axis conv f ident dflt dt axis keepdims a = Raise e.
Proof.
  unfold resolve_axis, reduce_axis, ndim.
  destruct axis as [ax|]; [|discriminate].
  destruct (shape a) as [|n s]; cbn [List.length].
  - destruct ((ax =? 0) || (ax =? -1))%Z; [discriminate|].
    intros [= <-]. reflexivity.
  - destruct (normalize_axis_index ax (S (List.length s))) as [k'|e'];
      cbn [bind]; [discriminate|].
    intros [= <-]. reflexivity.
Qed.

End ReduceKernel.

Lemma fold_lane_andb (l : list bool) :
  fold_lane andb true l = true <-> (forall m, In m l -> m = true).
Proof.
  assert (G : forall l b, fold_left andb l b = true <->
                          b = true /\ forall m, In m l -> m = true).
  { clear l. induction l as [|x l IH]; intros b; cbn.
    - split; [intros ->; split; [reflexivity|contradiction]|tauto].
    - rewrite IH. rewrite andb_true_iff. split.
      + intros [[-> ->] Hl]. split; [reflexivity|].
        intros m [<-|Hm]; auto.
      + intros [-> Hl]. split; [split; [reflexivity|]|]; auto. }
  destruct l as [|x l]; cbn.
  - split; [contradiction|reflexivity].
  - rewrite G. split.
    + intros [-> Hl] m [<-|Hm]; auto.
    + intros Hl. split; auto.
Qed.

Lemma in_bounds_nil (idx : list nat) : in_bounds [] idx -> idx = [].
Proof. intros Hb. inversion Hb. reflexivity. Qed.

Section ReducedResults.
Context {T : Type} `{Kernels T}.

Lemma filled_stored (a : MaskedArray.t T) (fill_value : option (fill T))
    (minmax : option string) (view : bool) (fv : fill T) (x : T) :
  wf_array a ->
  _get_fill_value (MaskedArray.dtype a) fill_value minmax = Ok fv ->
  stored (MaskedArray.dtype a) fv = Ok x ->
  MaskedArray.filled a fill_value minmax view =
  Ok (identity_filled a x (negb (view && writeable (MaskedArray._data a))),
      if view && writeable (MaskedArray._data a)
      then MaskedArray.mk (identity_filled a x true) (MaskedArray._mask a)
      else a).
Proof.
  intros Hw Hfv Hx. unfold wf_array in Hw.
  unfold MaskedArray.filled. rewrite Hfv. cbn [bind]. rewrite Hx.
  cbn [bind]. unfold setitem_mask, identity_filled.
  destruct view; cbn [andb].
  - destruct (writeable (MaskedArray._data a)) eqn:Hwr; cbn.
    + unfold np.view. rewrite Hwr. cbn.
      rewrite Hw, shape_eqb_refl. reflexivity.
    + rewrite Hw, shape_eqb_refl. reflexivity.
  - cbn. rewrite Hw, shape_eqb_refl. reflexivity.
Qed.

(** [a.filled(n)] for an integer [n] of the sources. *)
Lemma filled_value (a : MaskedArray.t T) (n : Z) (view : bool) :
  wf_array a ->
  MaskedArray.filled a (Some (PyInt n)) None view =
  Ok (identity_filled a (of_int (MaskedArray.dtype a) n)
        (negb (view && writeable (MaskedArray._data a))),
      if view && writeable (MaskedArray._data a)
      then MaskedArray.mk
             (identity_filled a (of_int (MaskedArray.dtype a) n) true)
             (MaskedArray._mask a)
      else a).
Proof.
  intros Hw. apply (filled_stored a _ _ view (PyInt n)); auto.
Qed.

Lemma filled_value_mask (a : MaskedArray.t T) (fv : T) (view : bool) :
  MaskedArray._mask
    (if view && writeable (MaskedArray._data a)
     then MaskedArray.mk (identity_filled a fv true) (MaskedArray._mask a)
     else a) = MaskedArray._mask a.
Proof. destruct (view && writeable (MaskedArray._data a)); reflexivity. Qed.

(** The masked value built from a reduced data and a reduced mask. *)
Lemma reduced_pair (dt : dtype) (shp : list nat) (k : option nat)
    (keepdims : bool) (F : list nat -> T) (G : list nat -> bool) :
  exists r,
    maskedarray_or_scalar (reduce_result dt shp k keepdims F)
      (reduce_result bool_ shp k keepdims G) (Some cls_MaskedArray) = Ok r /\
    result_shape r = reduced_shape shp k keepdims /\
    shape (result_mask r) = reduced_shape shp k keepdims /\
    (is_duckscalar (self_data r) = true ->
     reduced_shape shp k keepdims = []) /\
    forall idx,
      in_bounds (reduced_shape shp k keepdims) idx ->
      item (result_mask r) idx = G idx /\ item (result_data r) idx = F idx.
Proof.
  assert (Hdecay : forall s : list nat,
    exists r,
      maskedarray_or_scalar (decay (mk_ndarray dt s F true))
        (decay (mk_ndarray bool_ s G true)) (Some cls_MaskedArray) = Ok r /\
      result_shape r = s /\
      shape (result_mask r) = s /\
      (is_duckscalar (self_data r) = true -> s = []) /\
      forall idx,
        in_bounds s idx ->
        item (result_mask r) idx = G idx /\ item (result_data r) idx = F idx).
  { intros s. unfold decay. cbn [shape].
    destruct s as [|n s].
    - cbn. eexists. split; [reflexivity|]. cbn. repeat split;
        apply in_bounds_nil in H0; subst; reflexivity.
    - unfold maskedarray_or_scalar, construct, MaskedArray.__init__.
      cbn [is_duckscalar ArrayType as_array shape bind].
      rewrite shape_eqb_refl.
      eexists. split; [reflexivity|]. cbn. repeat split; discriminate. }
  unfold reduce_result, reduced_shape.
  destruct k as [k|]; destruct keepdims.
  - unfold maskedarray_or_scalar, construct, MaskedArray.__init__.
    cbn [is_duckscalar ArrayType as_array shape bind].
    rewrite shape_eqb_refl.
    eexists. split; [reflexivity|]. cbn. repeat split; discriminate.
  - apply Hdecay.
  - apply Hdecay.
  - cbn. eexists. split; [reflexivity|]. cbn. repeat split;
      apply in_bounds_nil in H0; subst; reflexivity.
Qed.

End ReducedResults.

Section SumProd.
Context {T : Type} `{Kernels T}.

Lemma wf_resolve_axis_mask (a : MaskedArray.t T) (axis : option Z)
    (k : option nat) :
  wf_array a ->
  resolve_axis axis (ndim (MaskedArray._data a)) = Ok k ->
  resolve_axis axis (ndim (MaskedArray._mask a)) = Ok k.
Proof. unfold wf_array, ndim. intros ->. exact (fun e => e). Qed.

Lemma reduction_pair (a : MaskedArray.t T) (fv : T) (conv : T -> T)
    (g : T -> T -> T) (e : T) (dt : dtype) (k : option nat)
    (keepdims w : bool) :
  wf_array a ->
  exists r,
    maskedarray_or_scalar
      (reduce_result dt (shape (identity_filled a fv w)) k keepdims
         (fun idx => fold_lane g e
            (map conv (reduced (identity_filled a fv w) k keepdims idx))))
      (reduce_result bool_ (shape (MaskedArray._mask a)) k keepdims
         (fun idx => fold_lane andb true
            (map (fun b : bool => b)
               (reduced (MaskedArray._mask a) k keepdims idx))))
      (Some cls_MaskedArray) = Ok r /\
    reduction_of a fv conv g e k keepdims r.
Proof.
  intros Hw. unfold wf_array in Hw. rewrite Hw.
  change (shape (identity_filled a fv w)) with (MaskedArray.shape a).
  change (shape (MaskedArray._data a)) with (MaskedArray.shape a).
  destruct (reduced_pair dt (MaskedArray.shape a) k keepdims
              (fun idx => fold_lane g e
                 (map conv (reduced (identity_filled a fv w) k keepdims idx)))
              (fun idx => fold_lane andb true
                 (map (fun b : bool => b)
                    (reduced (MaskedArray._mask a) k keepdims idx))))
    as (r & Hr & Hs & Hms & _ & Hit).
  exists r. split; [exact Hr|].
  split; [exact Hs|]. split; [exact Hms|].
  intros idx Hb. destruct (Hit idx Hb) as [Hm Hd]. split.
  - rewrite Hm, map_id. apply fold_lane_andb.
  - rewrite Hd. reflexivity.
Qed.

(** [sum]: the masked entries are filled with 0, the plain sum runs, and
    an element of the result is masked exactly when every element reduced
    into it is. *)
Lemma sum_reduction (a : MaskedArray.t T) (axis : option Z)
    (dtype : option dtype) (keepdims : bool) (k : option nat) :
  wf_array a ->
  resolve_axis axis (ndim (MaskedArray._data a)) = Ok k ->
  exists r,
    setup_ducktype.sum a axis dtype keepdims = Ok r /\
    reduction_of a (of_int (MaskedArray.dtype a) 0)
      (match dtype with Some dt => astype dt | None => fun x => x end)
      add
      (of_int (match dtype with
               | Some dt => dt
               | None => accumulator_dtype (MaskedArray.dtype a)
               end) 0)
      k keepdims r.
Proof.
  intros Hw Hk. unfold setup_ducktype.sum.
  rewrite (filled_value a _ true Hw). cbn [bind].
  rewrite filled_value_mask. unfold np.sum, np.all.
  rewrite (reduce_axis_ok _ _ _ _ _ _ _ (MaskedArray._mask a) k
             (wf_resolve_axis_mask a axis k Hw Hk)).
  destruct dtype as [dt|].
  - rewrite (reduce_axis_ok _ _ _ _ _ _ _ (identity_filled a _ _) k Hk).
    cbn [bind]. apply reduction_pair. exact Hw.
  - rewrite (reduce_axis_ok _ _ _ _ _ _ _ (identity_filled a _ _) k Hk).
    cbn [bind]. apply reduction_pair. exact Hw.
Qed.

(** [prod]: the same with the identity 1 and the product. *)
Lemma prod_reduction (a : MaskedArray.t T) (axis : option Z)
    (dtype : option dtype) (keepdims : bool) (k : option nat) :
  wf_array a ->
  resolve_axis axis (ndim (MaskedArray._data a)) = Ok k ->
  exists r,
    setup_ducktype.prod a axis dtype keepdims = Ok r /\
    reduction_of a (of_int (MaskedArray.dtype a) 1)
      (match dtype with Some dt => astype dt | None => fun x => x end)
      multiply
      (of_int (match dtype with
               | Some dt => dt
               | None => accumulator_dtype (MaskedArray.dtype a)
               end) 1)
      k keepdims r.
Proof.
  intros Hw Hk. unfold setup_ducktype.prod.
  rewrite (filled_value a _ true Hw). cbn [bind].
  rewrite filled_value_mask. unfold np.prod, np.all.
  rewrite (reduce_axis_ok _ _ _ _ _ _ _ (MaskedArray._mask a) k
             (wf_resolve_axis_mask a axis k Hw Hk)).
  destruct dtype as [dt|].
  - rewrite (reduce_axis_ok _ _ _ _ _ _ _ (identity_filled a _ _) k Hk).
    cbn [bind]. apply reduction_pair. exact Hw.
  - rewrite (reduce_axis_ok _ _ _ _ _ _ _ (identity_filled a _ _) k Hk).
    cbn [bind]. apply reduction_pair. exact Hw.
Qed.

End SumProd.

(** ** Calls that end in an unbound name *)

Section UnboundNames.
Context {T : Type} `{Kernels T}.

Lemma count_reduced (a : MaskedArray.t T) (axis : option Z)
    (keepdims : bool) (k : option nat) :
  wf_array a ->
  resolve_axis axis (ndim (MaskedArray._data a)) = Ok k ->
  MaskedArray.count a axis keepdims =
  Ok (reduce_result intp (MaskedArray.shape a) k keepdims
        (fun idx =>
           fold_lane Z.add 0%Z
             (map (fun b : bool => if b then 1%Z else 0%Z)
                (reduced (np.logical_not (MaskedArray._mask a)) k keepdims
                   idx)))).
Proof.
  intros Hw Hk. unfold MaskedArray.count, np.sum_intp.
  rewrite (reduce_axis_ok _ _ _ _ _ _ _ (np.logical_not (MaskedArray._mask a))
             k (wf_resolve_axis_mask a axis k Hw Hk)).
  cbn [np.logical_not elementwise1 shape]. unfold wf_array in Hw.
  rewrite Hw. reflexivity.
Qed.

Lemma reduce_result_shape {B} (dt : dtype) (shp : list nat) (k : option nat)
    (keepdims : bool) (F : list nat -> B) :
  value_shape (reduce_result dt shp k keepdims F)
  = reduced_shape shp k keepdims.
Proof.
  assert (Hdecay : forall s : list nat,
             value_shape (decay (mk_ndarray dt s F true)) = s).
  { intros [|n s]; reflexivity. }
  unfold reduce_result, reduced_shape.
  destruct k; destruct keepdims; try reflexivity; apply Hdecay.
Qed.

(** [mean] of an array of dtype [float16] reaches line 1435 or line 1438,
    where the name [arr] is not bound: whatever the mask, the axis and
    [keepdims], the call raises [NameError]. *)
Lemma mean_float16_unbound (a : MaskedArray.t T) (axis : option Z)
    (keepdims : option bool) (k : option nat) :
  wf_array a ->
  MaskedArray.dtype a = float16 ->
  resolve_axis axis (ndim (MaskedArray._data a)) = Ok k ->
  setup_ducktype.mean a axis None keepdims = Raise NameError.
Proof.
  intros Hw Hdt Hk. unfold setup_ducktype.mean.
  rewrite (count_reduced a axis _ k Hw Hk). cbn [bind].
  rewrite Hdt. cbn [is_integer_or_bool is_float16].
  rewrite (filled_value a _ true Hw). cbn [bind].
  rewrite filled_value_mask. unfold np.sum, np.all.
  rewrite (reduce_axis_ok _ _ _ _ _ _ _ (MaskedArray._mask a) k
             (wf_resolve_axis_mask a axis k Hw Hk)).
  rewrite (reduce_axis_ok _ _ _ _ _ _ _ (identity_filled a _ _) k Hk).
  cbn [bind].
  match goal with
  | |- context [reduce_result float32 ?s k ?kd ?F] =>
      pose proof (reduce_result_shape float32 s k kd F) as Hshape;
      destruct (reduce_result float32 s k kd F) as [dt x|r] eqn:Er
  end.
  - reflexivity.
  - unfold elementwise2. rewrite reduce_result_shape.
    change (shape (identity_filled a (of_int float16 0)
                     (negb (true && writeable (MaskedArray._data a)))))
      with (MaskedArray.shape a) in Hshape.
    rewrite Hshape, broadcast_shapes_refl. reflexivity.
Qed.

(** [tensordot] and [einsum] never return: the first raises [IndexError] or
    [ValueError] on axes that do not fit and otherwise reaches the unbound
    name [multiply] of line 2066; the second reads [_data] of an argument
    that is not an array, or reaches the unbound [outdata] of line 2092. *)
Lemma tensordot_no_result (a b : MaskedArray.t T)
    (axes : setup_ducktype.tensordot_axes) (r : masked T) :
  setup_ducktype.tensordot a b axes <> Ok r.
Proof.
  unfold setup_ducktype.tensordot.
  destruct axes as [n|la lb];
    match goal with
    | |- context [if ?c then _ else Ok false] => destruct c
    end; cbn [bind]; try discriminate;
    match goal with
    | |- context [setup_ducktype.tensordot_equal ?x ?y ?z ?w] =>
        destruct (setup_ducktype.tensordot_equal x y z w) as [[|]|e]
    end; cbn; discriminate.
Qed.

Lemma einsum_no_result (operands : list (setup_ducktype.einsum_arg (T:=T)))
    (r : masked T) :
  setup_ducktype.einsum operands <> Ok r.
Proof.
  unfold setup_ducktype.einsum.
  destruct (setup_ducktype.einsum_unzip operands) as [[|p l]|e];
    cbn; discriminate.
Qed.

End UnboundNames.

(** ** Sorting one lane *)

Section SortLane.
Context {A : Type} (le : A -> A -> bool).
Hypothesis le_total : forall x y, le x y = true \/ le y x = true.
Hypothesis le_trans :
  forall x y z, le x y = true -> le y z = true -> le x z = true.

Let leP (x y : A) : Prop := le x y = true.

Lemma le_refl (x : A) : le x x = true.
Proof. destruct (le_total x x); assumption. Qed.

Lemma insert_sorted_perm (x : A) (l : list A) :
  Permutation (insert_sorted le x l) (x :: l).
Proof.
  induction l as [|y l IH]; cbn; [reflexivity|].
  destruct (le x y); [reflexivity|].
  rewrite IH. apply perm_swap.
Qed.

Lemma sorted_list_perm (l : list A) : Permutation (sorted_list le l) l.
Proof.
  induction l as [|x l IH]; cbn; [reflexivity|].
  rewrite insert_sorted_perm. apply perm_skip. exact IH.
Qed.

Lemma sorted_list_length (l : list A) :
  List.length (sorted_list le l) = List.length l.
Proof. apply Permutation_length, sorted_list_perm. Qed.

Lemma sorted_list_in (l : list A) (x : A) :
  In x (sorted_list le l) -> In x l.
Proof. apply Permutation_in, sorted_list_perm. Qed.

Lemma insert_sorted_strongly (x : A) (l : list A) :
  StronglySorted leP l -> StronglySorted leP (insert_sorted le x l).
Proof.
  induction l as [|y l IH]; intros Hl; cbn.
  - constructor; constructor.
  - inversion Hl as [|y' l' Hs Hall]; subst.
    destruct (le x y) eqn:Hxy.
    + constructor; [exact Hl|].
      constructor; [exact Hxy|].
      eapply Forall_impl; [|exact Hall].
      intros z Hz. exact (le_trans _ _ _ Hxy Hz).
    + constructor; [apply IH; exact Hs|].
      assert (Hyx : le y x = true).
      { destruct (le_total x y) as [E|E]; [congruence|exact E]. }
      eapply Permutation_Forall;
        [symmetry; apply insert_sorted_perm|].
      constructor; assumption.
Qed.

Lemma sorted_list_strongly (l : list A) :
  StronglySorted leP (sorted_list le l).
Proof.
  induction l as [|x l IH]; cbn; [constructor|].
  apply insert_sorted_strongly. exact IH.
Qed.

Lemma insert_sorted_app (x : A) (U V : list A) :
  (forall z, In z V -> le x z = true) ->
  insert_sorted le x (U ++ V) = insert_sorted le x U ++ V.
Proof.
  intros HV. induction U as [|y U IH]; cbn.
  - destruct V as [|z V]; [reflexivity|].
    cbn. rewrite (HV z (or_introl eq_refl)). reflexivity.
  - destruct (le x y); [reflexivity|]. rewrite IH. reflexivity.
Qed.

Lemma repeat_snoc (v : A) (n : nat) (V : list A) :
  repeat v n ++ v :: V = v :: repeat v n ++ V.
Proof.
  induction n as [|n IH]; cbn; [reflexivity|]. rewrite IH. reflexivity.
Qed.

Lemma all_equal_repeat (v : A) (l : list A) :
  (forall z, In z l -> z = v) -> l = repeat v (List.length l).
Proof.
  induction l as [|y l IH]; intros Hl; cbn; [reflexivity|].
  rewrite (Hl y (or_introl eq_refl)) at 1.
  f_equal. apply IH. intros z Hz. apply Hl. right. exact Hz.
Qed.

(** Inserting the filler into a sorted list whose elements lie below it
    puts it at the end, up to the elements that are the filler itself. *)
Lemma insert_sorted_filler (v : A) (U : list A) (n : nat) :
  StronglySorted leP U ->
  (forall u, In u U -> le v u = true -> u = v) ->
  insert_sorted le v (U ++ repeat v n) = U ++ v :: repeat v n.
Proof.
  induction U as [|y U IH]; intros Hs Hanti.
  - cbn. destruct n as [|n]; [reflexivity|].
    cbn. rewrite le_refl. reflexivity.
  - inversion Hs as [|y' U' HsU Hall]; subst.
    cbn. destruct (le v y) eqn:Hvy.
    + assert (Hy : y = v) by (apply Hanti; [left; reflexivity|exact Hvy]).
      subst y.
      assert (HU : U = repeat v (List.length U)).
      { apply all_equal_repeat. intros z Hz. apply Hanti; [right; exact Hz|].
        rewrite Forall_forall in Hall. apply Hall. exact Hz. }
      rewrite HU at 2. rewrite HU at 1.
      rewrite repeat_snoc. reflexivity.
    + rewrite IH; [reflexivity|exact HsU|].
      intros u Hu. apply Hanti. right. exact Hu.
Qed.

(** The sort of a filled lane: the sorted unmasked values, then the
    fillers. *)
Lemma sorted_fill_lane (v : A) (l : list (bool * A)) :
  (forall x, In x (unmasked_values l) ->
             le x v = true /\ (le v x = true -> x = v)) ->
  sorted_list le (fill_lane v l) =
  sorted_list le (unmasked_values l) ++ repeat v (count_masked l).
Proof.
  induction l as [|[m x] l IH]; intros Hl; [reflexivity|].
  unfold fill_lane, unmasked_values, count_masked in *.
  cbn [map filter fst snd negb]. destruct m; cbn [negb map List.length].
  - cbn [sorted_list]. rewrite (IH Hl).
    apply (insert_sorted_filler v _ (List.length (filter _ l))).
    + apply sorted_list_strongly.
    + intros u Hu. apply Hl. apply sorted_list_in. exact Hu.
  - cbn [sorted_list].
    rewrite IH by (intros z Hz; apply Hl; right; exact Hz).
    apply insert_sorted_app. intros z Hz.
    apply repeat_spec in Hz. subst z.
    apply Hl. left. reflexivity.
Qed.

End SortLane.

(** The sort of a lane of the mask: the unmasked first. *)
Lemma sorted_mask_lane {A} (l : list (bool * A)) :
  sorted_list implb (map fst l) =
  repeat false (List.length (unmasked_values l))
  ++ repeat true (count_masked l).
Proof.
  assert (Ht : forall a c,
             insert_sorted implb true (repeat false a ++ repeat true c)
             = repeat false a ++ repeat true (S c)).
  { induction a as [|a IHa]; intros c; cbn.
    - destruct c; reflexivity.
    - rewrite IHa. reflexivity. }
  assert (Hf : forall a c,
             insert_sorted implb false (repeat false a ++ repeat true c)
             = repeat false (S a) ++ repeat true c).
  { intros [|a] [|c]; reflexivity. }
  induction l as [|[m x] l IH]; [reflexivity|].
  unfold unmasked_values, count_masked in *.
  cbn [map filter fst snd negb sorted_list]. rewrite IH.
  destruct m; cbn [negb map List.length]; [apply Ht|apply Hf].
Qed.

Lemma nth_false_true (a c j : nat) (d : bool) :
  j < a + c ->
  nth j (repeat false a ++ repeat true c) d = negb (j <? a).
Proof.
  intros Hj. destruct (Nat.ltb_spec j a) as [Hlt|Hge].
  - rewrite app_nth1 by (rewrite repeat_length; exact Hlt).
    apply nth_repeat_lt. exact Hlt.
  - rewrite app_nth2 by (rewrite repeat_length; exact Hge).
    rewrite repeat_length. apply nth_repeat_lt. lia.
Qed.

(** ** Lanes of an array *)

Lemma Forall2_firstn {A B} (R : A -> B -> Prop) (n : nat) (l : list A)
    (l' : list B) :
  Forall2 R l l' -> Forall2 R (firstn n l) (firstn n l').
Proof.
  intros HF. revert n. induction HF; intros [|n]; cbn; constructor; auto.
Qed.

Lemma Forall2_skipn {A B} (R : A -> B -> Prop) (n : nat) (l : list A)
    (l' : list B) :
  Forall2 R l l' -> Forall2 R (skipn n l) (skipn n l').
Proof.
  intros HF. revert n. induction HF; intros [|n]; cbn; auto.
Qed.

Lemma in_bounds_nth (shp idx : list nat) (k : nat) :
  in_bounds shp idx -> k < List.length shp -> nth k idx 0 < nth k shp 0.
Proof.
  unfold in_bounds. intros HF. revert k.
  induction HF as [|i n idx shp Hin HF IH]; intros [|k] Hk; cbn in *;
    try lia.
  apply IH. lia.
Qed.

Lemma split_at_nth (shp : list nat) (k : nat) :
  k < List.length shp ->
  shp = firstn k shp ++ nth k shp 0 :: skipn (S k) shp.
Proof.
  revert k. induction shp as [|n shp IH]; intros [|k] Hk; cbn in *;
    try lia; [reflexivity|].
  f_equal. apply IH. lia.
Qed.

Lemma insert_remove_at (idx : list nat) (k j : nat) :
  k < List.length idx ->
  insert_at k j (remove_at k idx) = firstn k idx ++ j :: skipn (S k) idx.
Proof.
  intros Hk. unfold insert_at, remove_at.
  assert (Hl : List.length (firstn k idx) = k)
    by (rewrite length_firstn; lia).
  rewrite firstn_app, Hl, Nat.sub_diag, firstn_O, app_nil_r.
  rewrite firstn_firstn, Nat.min_id.
  rewrite skipn_app, Hl, Nat.sub_diag, skipn_O.
  rewrite skipn_firstn_comm, Nat.sub_diag. reflexivity.
Qed.

Lemma in_bounds_lane (shp idx : list nat) (k j : nat) :
  in_bounds shp idx -> k < List.length shp -> j < nth k shp 0 ->
  in_bounds shp (insert_at k j (remove_at k idx)).
Proof.
  intros Hb Hk Hj. unfold in_bounds in *.
  assert (Hlen : List.length idx = List.length shp)
    by (apply (Forall2_length Hb)).
  rewrite insert_remove_at by lia.
  rewrite (split_at_nth shp k Hk) at 1.
  apply Forall2_app; [apply Forall2_firstn; exact Hb|].
  constructor; [exact Hj|]. apply Forall2_skipn. exact Hb.
Qed.

Lemma normalize_axis_index_lt (axis : Z) (nd k : nat) :
  normalize_axis_index axis nd = Ok k -> k < nd.
Proof.
  unfold normalize_axis_index.
  destruct ((- Z.of_nat nd <=? axis)%Z && (axis <? Z.of_nat nd)%Z) eqn:E;
    [|discriminate].
  apply andb_true_iff in E. destruct E as [E1 E2].
  apply Z.leb_le in E1. apply Z.ltb_lt in E2.
  intros [= <-]. destruct (axis <? 0)%Z eqn:E3.
  - apply Z.ltb_lt in E3. lia.
  - apply Z.ltb_ge in E3. lia.
Qed.

Lemma combine_map_seq {A B} (g : nat -> A) (h : nat -> B) (l : list nat) :
  combine (map g l) (map h l) = map (fun j => (g j, h j)) l.
Proof. induction l as [|x l IH]; cbn; [reflexivity|]. rewrite IH. reflexivity. Qed.

Lemma length_unmasked_masked {A} (l : list (bool * A)) :
  List.length (unmasked_values l) + count_masked l = List.length l.
Proof.
  unfold unmasked_values, count_masked. rewrite length_map.
  induction l as [|[m x] l IH]; cbn; [reflexivity|].
  destruct m; cbn; lia.
Qed.

Section Lanes.
Context {T : Type} `{Kernels T}.

Lemma lane_pairs_map (a : MaskedArray.t T) (k : nat) (p : list nat) :
  wf_array a ->
  lane_pairs a k p =
  map (fun j => (item (MaskedArray._mask a) (insert_at k j p),
                 item (MaskedArray._data a) (insert_at k j p)))
      (seq 0 (nth k (MaskedArray.shape a) 0)).
Proof.
  intros Hw. unfold lane_pairs, lane. unfold wf_array in Hw. rewrite Hw.
  apply combine_map_seq.
Qed.

Lemma lane_pairs_length (a : MaskedArray.t T) (k : nat) (p : list nat) :
  wf_array a ->
  List.length (lane_pairs a k p) = nth k (MaskedArray.shape a) 0.
Proof.
  intros Hw. rewrite (lane_pairs_map a k p Hw), length_map, length_seq.
  reflexivity.
Qed.

Lemma lane_filled (a : MaskedArray.t T) (v : T) (w : bool) (k : nat)
    (p : list nat) :
  wf_array a ->
  lane (identity_filled a v w) k p = fill_lane v (lane_pairs a k p).
Proof.
  intros Hw. rewrite (lane_pairs_map a k p Hw).
  unfold fill_lane, lane. rewrite map_map. reflexivity.
Qed.

Lemma lane_mask (a : MaskedArray.t T) (k : nat) (p : list nat) :
  wf_array a ->
  lane (MaskedArray._mask a) k p = map fst (lane_pairs a k p).
Proof.
  intros Hw. rewrite (lane_pairs_map a k p Hw).
  unfold lane. rewrite map_map. unfold wf_array in Hw. rewrite Hw.
  reflexivity.
Qed.

Lemma in_unmasked_lane (a : MaskedArray.t T) (k : nat) (p : list nat)
    (x : T) :
  wf_array a ->
  In x (unmasked_values (lane_pairs a k p)) ->
  exists j,
    j < nth k (MaskedArray.shape a) 0 /\
    item (MaskedArray._mask a) (insert_at k j p) = false /\
    x = item (MaskedArray._data a) (insert_at k j p).
Proof.
  intros Hw. rewrite (lane_pairs_map a k p Hw). unfold unmasked_values.
  rewrite in_map_iff. intros ([m y] & Hy & Hin). cbn in Hy. subst y.
  apply filter_In in Hin. destruct Hin as [Hin Hm].
  apply in_map_iff in Hin. destruct Hin as (j & Hj & Hs).
  apply in_seq in Hs. injection Hj as Hjm Hjx.
  exists j. split; [lia|]. cbn in Hm. split.
  - rewrite Hjm. destruct m; [discriminate|reflexivity].
  - symmetry. exact Hjx.
Qed.

End Lanes.

(** ** Sorting *)

Section Sorting.
Context {T : Type} `{Kernels T}.

Lemma filled_resolved (a : MaskedArray.t T)
    (fill_value : option (fill T)) (minmax : option string) (view : bool)
    (fv : T) :
  wf_array a ->
  _get_fill_value (MaskedArray.dtype a) fill_value minmax
    = Ok (TableEntry fv) ->
  MaskedArray.filled a fill_value minmax view =
  Ok (identity_filled a fv (negb (view && writeable (MaskedArray._data a))),
      if view && writeable (MaskedArray._data a)
      then MaskedArray.mk (identity_filled a fv true) (MaskedArray._mask a)
      else a).
Proof.
  intros Hw Hfv. apply (filled_stored a _ _ view (TableEntry fv)); auto.
Qed.

Lemma min_fill_value (dt : dtype) (v : T) :
  _min_filler dt = Some v ->
  _get_fill_value dt None (Some "min"%string) = Ok (TableEntry v).
Proof. intros Hv. unfold _get_fill_value. cbn. rewrite Hv. reflexivity. Qed.

Hypothesis le_total : forall x y : T, sort_le x y = true \/ sort_le y x = true.
Hypothesis le_trans :
  forall x y z : T,
    sort_le x y = true -> sort_le y z = true -> sort_le x z = true.

Lemma strongly_sorted_nth (U : list T) (v : T) (i i' : nat) :
  StronglySorted (fun x y => sort_le x y = true) U ->
  i <= i' -> i' < List.length U ->
  sort_le (nth i U v) (nth i' U v) = true.
Proof.
  intros Hs. revert i i'.
  induction Hs as [|x U Hs IH Hall]; intros i i' Hle Hlt; cbn in Hlt;
    [lia|].
  destruct i as [|i]; destruct i' as [|i']; cbn; try lia.
  - destruct (le_total x x); assumption.
  - rewrite Forall_forall in Hall. apply Hall. apply nth_In. lia.
  - apply IH; lia.
Qed.

(** The arrays that [np.sort] makes of the filled data and of the mask. *)
Lemma sorted_arrays (a : MaskedArray.t T) (v : T) (k : nat)
    (d : ndarray T) (m : ndarray bool) :
  wf_array a ->
  k < List.length (MaskedArray.shape a) ->
  (forall idx,
      in_bounds (MaskedArray.shape a) idx ->
      item (MaskedArray._mask a) idx = false ->
      sort_le (item (MaskedArray._data a) idx) v = true /\
      (sort_le v (item (MaskedArray._data a) idx) = true ->
       item (MaskedArray._data a) idx = v)) ->
  shape d = MaskedArray.shape a ->
  shape m = MaskedArray.shape a ->
  (forall idx,
      item d idx =
      nth (nth k idx 0)
        (sorted_list sort_le
           (lane (identity_filled a v true) k (remove_at k idx)))
        (if item (MaskedArray._mask a) idx then v
         else item (MaskedArray._data a) idx)) ->
  (forall idx,
      item m idx =
      nth (nth k idx 0)
        (sorted_list implb (lane (MaskedArray._mask a) k (remove_at k idx)))
        (item (MaskedArray._mask a) idx)) ->
  sorted_masked_last a v k (MaskedArray.mk d m).
Proof.
  intros Hw Hk Hfill Hsd Hsm Hd Hm.
  split; [exact Hsd|]. split; [exact Hsm|].
  intros idx Hb U j. cbn [MaskedArray._data MaskedArray._mask].
  set (l := lane_pairs a k (remove_at k idx)) in *.
  assert (Hlen : List.length U + count_masked l
                 = nth k (MaskedArray.shape a) 0).
  { unfold U. rewrite sorted_list_length, length_unmasked_masked.
    apply lane_pairs_length. exact Hw. }
  assert (Hj : j < nth k (MaskedArray.shape a) 0)
    by (apply in_bounds_nth; assumption).
  assert (HU : StronglySorted (fun x y => sort_le x y = true) U)
    by (apply sorted_list_strongly; assumption).
  assert (Hl : forall x, In x (unmasked_values l) ->
                         sort_le x v = true /\
                         (sort_le v x = true -> x = v)).
  { intros x Hx. apply (in_unmasked_lane a k _ x Hw) in Hx.
    destruct Hx as (j' & Hj' & Hmask & ->).
    apply Hfill; [|exact Hmask].
    apply in_bounds_lane; assumption. }
  split; [apply sorted_list_perm|]. split; [exact HU|]. split.
  { intros i i' Hi Hi' Hlt.
    destruct (Nat.lt_ge_cases i i') as [Hc|Hc]; [exact Hc|].
    rewrite (strongly_sorted_nth U v i' i HU Hc Hi) in Hlt. discriminate. }
  split.
  { rewrite Hm, (lane_mask a k _ Hw). fold l.
    rewrite sorted_mask_lane.
    change (unmasked_values l) with (unmasked_values l).
    replace (List.length (unmasked_values l)) with (List.length U)
      by (unfold U; apply sorted_list_length).
    apply nth_false_true. lia. }
  split.
  - intros HjU. rewrite Hd, (lane_filled a v true k _ Hw). fold l.
    rewrite (sorted_fill_lane sort_le le_total le_trans v l Hl). fold U.
    rewrite app_nth1 by exact HjU. apply nth_indep. exact HjU.
  - intros HjU. rewrite Hd, (lane_filled a v true k _ Hw). fold l.
    rewrite (sorted_fill_lane sort_le le_total le_trans v l Hl). fold U.
    rewrite app_nth2 by exact HjU. apply nth_repeat_lt. lia.
Qed.

Lemma sorted_arrays_filled (a : MaskedArray.t T) (v : T) (k : nat)
    (d : ndarray T) (m : ndarray bool) :
  wf_array a ->
  k < List.length (MaskedArray.shape a) ->
  shape d = MaskedArray.shape a ->
  shape m = MaskedArray.shape a ->
  (forall idx,
      item d idx =
      nth (nth k idx 0)
        (sorted_list sort_le
           (lane (identity_filled a v true) k (remove_at k idx)))
        (if item (MaskedArray._mask a) idx then v
         else item (MaskedArray._data a) idx)) ->
  (forall idx,
      item m idx =
      nth (nth k idx 0)
        (sorted_list implb (lane (MaskedArray._mask a) k (remove_at k idx)))
        (item (MaskedArray._mask a) idx)) ->
  sorted_filled a v k (MaskedArray.mk d m).
Proof.
  intros Hw Hk Hsd Hsm Hd Hm.
  split; [exact Hsd|]. split; [exact Hsm|].
  intros idx Hb l S j. cbn [MaskedArray._data MaskedArray._mask].
  assert (Hj : j < nth k (MaskedArray.shape a) 0)
    by (apply in_bounds_nth; assumption).
  assert (HlenS : List.length S = nth k (MaskedArray.shape a) 0).
  { unfold S, fill_lane. rewrite sorted_list_length, length_map.
    apply lane_pairs_length. exact Hw. }
  assert (HS : StronglySorted (fun x y => sort_le x y = true) S)
    by (apply sorted_list_strongly; assumption).
  split; [apply sorted_list_perm|]. split; [exact HS|]. split.
  { intros i i' Hi Hi' Hlt.
    destruct (Nat.lt_ge_cases i i') as [Hc|Hc]; [exact Hc|].
    rewrite (strongly_sorted_nth S v i' i HS Hc Hi) in Hlt. discriminate. }
  split.
  - rewrite Hd, (lane_filled a v true k _ Hw). fold l. fold S.
    apply nth_indep. lia.
  - rewrite Hm, (lane_mask a k _ Hw). fold l.
    rewrite sorted_mask_lane. apply nth_false_true.
    rewrite length_unmasked_masked. unfold l.
    rewrite (lane_pairs_length a k _ Hw). exact Hj.
Qed.

(** Sorting a masked array [a] whose dtype has the min-filler [v],
    with the function [sort] or in place with the method (on writeable
    arrays), along a valid axis, the order of the sorting kernel being
    total and transitive: the masked positions are filled with [v], the
    data is sorted, and the mask is sorted on its own along the same axis,
    false before true.  So in each lane of the result the data is in
    non-decreasing order (a strictly smaller value stands before a larger
    one), the unmasked positions are the leading ones, as many as [a] has
    unmasked elements in the lane, and every masked position comes after
    them.  When moreover every unmasked value of [a] lies below the filler
    (and is the filler if the filler lies below it), the unmasked
    positions hold exactly the sorted unmasked values of [a]. *)
Theorem sort_masked_last (a : MaskedArray.t T) (axis : Z) (k : nat) (v : T) :
  wf_array a ->
  _min_filler (MaskedArray.dtype a) = Some v ->
  normalize_axis_index axis (ndim (MaskedArray._data a)) = Ok k ->
  let below :=
    forall idx,
      in_bounds (MaskedArray.shape a) idx ->
      item (MaskedArray._mask a) idx = false ->
      sort_le (item (MaskedArray._data a) idx) v = true /\
      (sort_le v (item (MaskedArray._data a) idx) = true ->
       item (MaskedArray._data a) idx = v) in
  (exists r,
      setup_ducktype.sort a axis = Ok (RArray r) /\
      sorted_filled a v k r /\
      (below -> sorted_masked_last a v k r)) /\
  (writeable (MaskedArray._data a) = true ->
   writeable (MaskedArray._mask a) = true ->
   exists a',
     MaskedArray.sort a axis = Ok a' /\
     sorted_filled a v k a' /\
     (below -> sorted_masked_last a v k a')).
Proof.
  intros Hw Hv Hk below.
  assert (Hkm : normalize_axis_index axis (ndim (MaskedArray._mask a)) = Ok k).
  { unfold ndim. unfold wf_array in Hw. rewrite Hw. exact Hk. }
  assert (Hlt : k < List.length (MaskedArray.shape a))
    by exact (normalize_axis_index_lt _ _ _ Hk).
  split.
  - unfold setup_ducktype.sort.
    rewrite (filled_resolved a None _ true v Hw (min_fill_value _ v Hv)).
    cbn [bind]. rewrite filled_value_mask.
    unfold np.sort at 1.
    change (ndim (identity_filled a v
                    (negb (true && writeable (MaskedArray._data a)))))
      with (ndim (MaskedArray._data a)).
    rewrite Hk. cbn [bind]. unfold np.sort. rewrite Hkm. cbn [bind].
    unfold maskedarray_or_scalar, construct, MaskedArray.__init__.
    cbn [is_duckscalar ArrayType as_array shape identity_filled bind].
    unfold wf_array in Hw. rewrite Hw. unfold MaskedArray.shape.
    rewrite shape_eqb_refl. cbn [bind].
    eexists. split; [reflexivity|]. split.
    + apply sorted_arrays_filled; try assumption; try reflexivity.
    + intros Hfill.
      apply sorted_arrays; try assumption; try reflexivity.
  - intros Hwd Hwm. unfold MaskedArray.sort. rewrite Hv.
    unfold setitem_mask. rewrite Hwd. cbn [negb as_array].
    unfold wf_array in Hw. rewrite Hw, shape_eqb_refl. cbn [bind].
    unfold np.sort_inplace. cbn [writeable negb]. rewrite Hwm. cbn [negb].
    unfold np.sort at 1.
    match goal with
    | |- context [normalize_axis_index axis (ndim ?d)] =>
        change (ndim d) with (ndim (MaskedArray._data a))
    end.
    rewrite Hk. cbn [bind]. unfold np.sort. rewrite Hkm. cbn [bind].
    eexists. split; [reflexivity|]. split.
    + apply sorted_arrays_filled; try assumption; try reflexivity.
    + intros Hfill.
      apply sorted_arrays; try assumption; try reflexivity.
Qed.

End Sorting.

(** ** The order of the concrete engine *)

Lemma Qle_bool_total (a b : Q) : Qle_bool a b = true \/ Qle_bool b a = true.
Proof.
  destruct (Qlt_le_dec a b) as [Hlt|Hle].
  - left. apply Qle_bool_iff. apply Qlt_le_weak. exact Hlt.
  - right. apply Qle_bool_iff. exact Hle.
Qed.

Lemma xle_total (x y : Exact.xnum) :
  Exact.xle x y = true \/ Exact.xle y x = true.
Proof.
  destruct x, y; cbn; auto. apply Qle_bool_total.
Qed.

Lemma xle_trans (x y z : Exact.xnum) :
  Exact.xle x y = true -> Exact.xle y z = true -> Exact.xle x z = true.
Proof.
  destruct x, y, z; cbn; auto; try discriminate.
  rewrite !Qle_bool_iff. apply Qle_trans.
Qed.

Lemma in_bounds_1d (n : nat) (idx : list nat) :
  in_bounds [n] idx -> exists i, idx = [i] /\ i < n.
Proof.
  intros Hb. inversion Hb as [|i n' idx' shp' Hi Ht]; subst.
  inversion Ht; subst. exists i. split; [reflexivity|exact Hi].
Qed.

Lemma sort_masked_last_witness :
  let a := Exact.marray int8 [3; 0; 1]%Z [false; true; false] in
  let v := Exact.of_Z 127 in
  wf_array a /\
  _min_filler (MaskedArray.dtype a) = Some v /\
  normalize_axis_index (-1) (ndim (MaskedArray._data a)) = Ok 0 /\
  (exists r,
      setup_ducktype.sort a (-1) = Ok (RArray r) /\
      sorted_filled a v 0 r /\
      sorted_masked_last a v 0 r) /\
  (exists a',
      MaskedArray.sort a (-1) = Ok a' /\
      sorted_filled a v 0 a' /\
      sorted_masked_last a v 0 a').
Proof.
  intros a v.
  assert (Hw : wf_array a) by reflexivity.
  assert (Hv : _min_filler (MaskedArray.dtype a) = Some v) by reflexivity.
  assert (Hk : normalize_axis_index (-1) (ndim (MaskedArray._data a)) = Ok 0)
    by reflexivity.
  assert (Hfill : forall idx,
             in_bounds (MaskedArray.shape a) idx ->
             item (MaskedArray._mask a) idx = false ->
             sort_le (item (MaskedArray._data a) idx) v = true /\
             (sort_le v (item (MaskedArray._data a) idx) = true ->
              item (MaskedArray._data a) idx = v)).
  { intros idx Hb Hm. apply in_bounds_1d in Hb.
    destruct Hb as (i & -> & Hi). cbn in Hi.
    destruct i as [|[|[|i]]]; try lia; cbn in Hm; try discriminate;
      (split; [reflexivity|cbn; discriminate]). }
  split; [exact Hw|]. split; [exact Hv|]. split; [exact Hk|].
  destruct (@sort_masked_last Exact.xnum Exact.kernels xle_total xle_trans
              a (-1)%Z 0 v Hw Hv Hk)
    as [(r & Hr & Hf & Hs) Hin].
  destruct (Hin eq_refl eq_refl) as (a' & Ha' & Hf' & Hs').
  split.
  - exists r. split; [exact Hr|]. split; [exact Hf|]. exact (Hs Hfill).
  - exists a'. split; [exact Ha'|]. split; [exact Hf'|]. exact (Hs' Hfill).
Defined.

(** C4.  The array [[nan, X, 1.0]] of dtype [float64]: its masked position
    is filled with the min-filler [inf], the data is sorted to
    [[1, inf, nan]] (NaN sorts after the filler) and the mask to
    [[False, False, True]].  The result reads [[1, inf, X]]: its unmasked
    elements are not those of the array, the filler stands among them and
    the unmasked NaN lies under the mask, although the unmasked elements
    are in order and the masked position is the last one.  The function
    [sort] and the method [sort] agree on it. *)
Theorem sort_nan_after_filler :
  let a := MaskedArray.mk
             (array1 float64 Exact.NaN
                [Exact.NaN; Exact.of_Z 0; Exact.of_Z 1])
             (array1 bool_ false [false; true; false]) in
  wf_array a /\
  unmasked_values (lane_pairs a 0 []) = [Exact.NaN; Exact.of_Z 1] /\
  (exists r,
      setup_ducktype.sort a (-1) = Ok (RArray r) /\
      Exact.tolist 3 (MaskedArray._data r)
        = [Exact.of_Z 1; Exact.PosInf; Exact.NaN] /\
      Exact.tolist 3 (MaskedArray._mask r) = [false; false; true] /\
      unmasked_values (lane_pairs r 0 []) = [Exact.of_Z 1; Exact.PosInf]) /\
  (exists a',
      MaskedArray.sort a (-1) = Ok a' /\
      Exact.tolist 3 (MaskedArray._data a')
        = [Exact.of_Z 1; Exact.PosInf; Exact.NaN] /\
      Exact.tolist 3 (MaskedArray._mask a') = [false; false; true]).
Proof.
  intros a. split; [reflexivity|]. split; [reflexivity|]. split.
  - eexists. split; [reflexivity|]. repeat split.
  - eexists. split; [reflexivity|]. repeat split.
Qed.

(** ** Searching *)




Lemma fold_lane_Zsum (l : list Z) : fold_lane Z.add 0%Z l = Zsum l.
Proof.
  assert (G : forall l z, fold_left Z.add l z = (z + Zsum l)%Z).
  { clear l. unfold Zsum. induction l as [|x l IH]; intros z; cbn; [lia|].
    rewrite IH. lia. }
  destruct l as [|x l]; cbn -[Zsum]; [reflexivity|]. rewrite G.
  unfold Zsum. cbn. reflexivity.
Qed.


Section Searching.
Context {T : Type} `{Kernels T}.




End Searching.



(** ** Runs on concrete arrays *)

(** C3.  The all-masked array [MaskedArray([1, 2], mask=[True, True])] of
    dtype [float16]: [sum] and [prod] return a masked scalar, but [mean]
    raises [NameError] (the unbound [arr] of line 1438) instead of yielding
    a masked result. *)
Theorem mean_all_masked_float16 :
  let a := Exact.marray float16 [1; 2]%Z [true; true] in
  (exists s,
      setup_ducktype.sum a None None false = Ok (RScalar s) /\
      MaskedScalar._mask s = true) /\
  (exists s,
      setup_ducktype.prod a None None false = Ok (RScalar s) /\
      MaskedScalar._mask s = true) /\
  setup_ducktype.mean a None None None = Raise NameError.
Proof.
  intros a. split; [|split].
  - eexists. split; reflexivity.
  - eexists. split; reflexivity.
  - apply (mean_float16_unbound a None None None); reflexivity.
Qed.

(** C5.  The array [[[X, X], [3, 4]]] of dtype [float16], averaged along
    its last axis: the first slice has no unmasked entry.  The call does
    not divide by zero, yet it yields no result: it raises [NameError] (the
    unbound [arr] of line 1435).  The same array with dtype [float32] gives
    a result whose first element is masked. *)
Theorem mean_zero_count_float16 :
  let a16 := Exact.marray2 float16 2 [[1; 2]; [3; 4]]%Z
               [[true; true]; [false; false]] in
  let a32 := Exact.marray2 float32 2 [[1; 2]; [3; 4]]%Z
               [[true; true]; [false; false]] in
  (exists c,
      MaskedArray.count a16 (Some 1%Z) false = Ok (NDArray c) /\
      item c [0] = 0%Z /\ item c [1] = 2%Z) /\
  setup_ducktype.mean a16 (Some 1%Z) None None = Raise NameError /\
  (exists r,
      setup_ducktype.mean a32 (Some 1%Z) None None = Ok (RArray r) /\
      item (MaskedArray._mask r) [0] = true /\
      item (MaskedArray._mask r) [1] = false).
Proof.
  intros a16 a32. split; [|split].
  - eexists. split; [reflexivity|]. split; reflexivity.
  - apply (mean_float16_unbound a16 (Some 1%Z) None (Some 1)); reflexivity.
  - eexists. split; [reflexivity|]. split; reflexivity.
Qed.

(** C6.  The 0-d masked array [MaskedArray(X, dtype=float64)]: the sum of
    line 1476 is a numpy scalar, for which line 1479 selects the division
    of line 1480, whose third argument [out-arrmean] subtracts from the
    [None] of [out]; so [var] raises [TypeError] where [mean] returns a
    masked scalar. *)
Theorem var_zero_dimensional :
  exists a,
    MaskedArray.__init__ MaskedArray.FromX None (Some float64) = Ok a /\
    MaskedArray.shape a = [] /\
    wf_array (T:=Exact.xnum) a /\
    setup_ducktype.var a None None 0 None = Raise TypeError /\
    (exists s,
        setup_ducktype.mean a None None None = Ok (RScalar s) /\
        MaskedScalar._mask s = true).
Proof.
  eexists. split; [reflexivity|]. split; [reflexivity|].
  split; [reflexivity|]. split; [reflexivity|].
  eexists. split; reflexivity.
Qed.

(** C8.  [tensordot] and [einsum] yield no result on any input; on the
    2x2 arrays below [tensordot] stops at the unbound name [multiply] of
    line 2066 and [einsum] at the argument ['ij,jk'], which has no [_data],
    while [dot] of the same arrays returns the product with every element
    masked (no element has an unmasked pair of contributors). *)
Theorem tensordot_einsum_no_result :
  let a := Exact.marray2 float32 2 [[1; 2]; [3; 4]]%Z
             [[true; true]; [false; true]] in
  (forall (x y : MaskedArray.t Exact.xnum) axes r,
      setup_ducktype.tensordot x y axes <> Ok r) /\
  (forall (operands : list (setup_ducktype.einsum_arg (T:=Exact.xnum))) r,
      setup_ducktype.einsum operands <> Ok r) /\
  setup_ducktype.tensordot a a (setup_ducktype.AxesInt 1) = Raise NameError /\
  setup_ducktype.einsum
    [setup_ducktype.ESubscripts "ij,jk"; setup_ducktype.EOperand a;
     setup_ducktype.EOperand a] = Raise AttributeError /\
  (exists r,
      setup_ducktype.dot (AMaskedArray a) (AMaskedArray a) = Ok (RArray r) /\
      MaskedArray.shape r = [2; 2] /\
      item (MaskedArray._mask r) [1; 0] = true).
Proof.
  intros a. split; [|split; [|split; [|split]]].
  - intros x y axes r. apply tensordot_no_result.
  - intros operands r. apply einsum_no_result.
  - reflexivity.
  - reflexivity.
  - eexists. split; [reflexivity|]. split; reflexivity.
Qed.

(** C1.  [lexsort] with the single key [MaskedArray([5, 3], mask=[True,
    True])] returns the order [[1, 0]], and with the key [MaskedArray([3,
    5], mask=[True, True])] the order [[0, 1]]: the two keys have the same
    mask and differ only in the data stored at masked positions, and the
    results differ. *)
Theorem lexsort_reads_masked_data :
  let k1 := Exact.marray int8 [5; 3]%Z [true; true] in
  let k2 := Exact.marray int8 [3; 5]%Z [true; true] in
  (forall idx,
      item (MaskedArray._mask k1) idx = item (MaskedArray._mask k2) idx) /\
  (forall idx,
      item (MaskedArray._mask k1) idx = false ->
      item (MaskedArray._data k1) idx = item (MaskedArray._data k2) idx) /\
  exists r1 r2,
    setup_ducktype.lexsort [k1] = Ok r1 /\
    setup_ducktype.lexsort [k2] = Ok r2 /\
    Exact.tolist 2 r1 = [1; 0]%Z /\
    Exact.tolist 2 r2 = [0; 1]%Z.
Proof.
  intros k1 k2. split; [reflexivity|]. split.
  - intros [|[|[|i]] [|j idx]]; cbn; intros Hm; try discriminate;
      reflexivity.
  - eexists. eexists. repeat split.
Qed.

(** ** The [reduce] method of the binary operations *)

Section UfuncReduce.
Context {T : Type} `{Kernels T}.

(** X1.  [ufunc.reduce] of a masked version built from a ufunc with identity
    [z] (as [np.add] and [np.multiply]), on a masked array with writeable
    data: the masked entries are replaced by the identity, the plain
    reduction runs, and an element of the result is masked exactly when
    every element reduced into it is. *)
Lemma reduce_reduction (uf : ufunc T) (z : Z) (a : MaskedArray.t T)
    (axis : option Z) (keepdims : bool) (k : option nat) :
  identity uf = Some z ->
  wf_array a ->
  writeable (MaskedArray._data a) = true ->
  resolve_axis axis (ndim (MaskedArray._data a)) = Ok k ->
  exists r,
    reduce (_Masked_BinOp__init__ uf None) (AMaskedArray a) axis keepdims
      = Ok r /\
    reduction_of a (of_int (MaskedArray.dtype a) z) (fun x => x)
      (uf_call uf) (of_int (MaskedArray.dtype a) z) k keepdims r.
Proof.
  intros Hz Hw Hwr Hk.
  unfold reduce, _Masked_BinOp__init__. rewrite Hz.
  cbn [reduce_fill f getdata getmask is_duckscalar negb value_dtype
       as_array stored bind].
  unfold setitem_mask. rewrite Hwr. cbn [negb].
  pose proof Hw as Hw'. unfold wf_array in Hw'. rewrite Hw', shape_eqb_refl.
  cbn [bind value_dtype as_array dtype_of]. rewrite Hz. cbn [option_map].
  unfold np.all.
  rewrite (reduce_axis_ok _ _ _ _ _ _ _ (MaskedArray._mask a) k
             (wf_resolve_axis_mask a axis k Hw Hk)).
  match goal with
  | |- context [reduce_axis _ _ _ _ _ _ _ ?d] =>
      rewrite (reduce_axis_ok _ _ _ _ _ _ _ d k Hk)
  end.
  cbn [bind get_mask_cls get_mask_cls_loop type_of option_map ArrayType].
  exact (reduction_pair a (of_int (MaskedArray.dtype a) z) (fun x => x)
           (uf_call uf) (of_int (MaskedArray.dtype a) z)
           (MaskedArray.dtype a) k keepdims true Hw).
Qed.

End UfuncReduce.

(** ** Division of a reduced array by the counts *)

Lemma bindex_rev_app (l1 l2 i1 i2 : list nat) :
  List.length l1 = List.length i1 ->
  bindex_rev (l1 ++ l2) (i1 ++ i2) = bindex_rev l1 i1 ++ bindex_rev l2 i2.
Proof.
  revert i1. induction l1 as [|n l1 IH]; intros [|i i1] Hl; cbn in *;
    try discriminate.
  - destruct l2; reflexivity.
  - rewrite IH by lia. reflexivity.
Qed.

Lemma bindex_rev_length (s idx : list nat) :
  List.length s = List.length idx ->
  List.length (bindex_rev s idx) = List.length s.
Proof.
  revert idx. induction s as [|n s IH]; intros [|i idx] Hl; cbn in *;
    try discriminate; [reflexivity|].
  rewrite IH by lia. reflexivity.
Qed.

Lemma bindex_same_length (s idx : list nat) :
  List.length s = List.length idx -> bindex s idx = bindex_rev s idx.
Proof.
  unfold bindex. revert idx.
  induction s as [|n s IH]; intros [|i idx] Hl; cbn in *;
    try discriminate; [reflexivity|].
  rewrite bindex_rev_app by (rewrite !length_rev; lia).
  rewrite rev_app_distr. cbn. rewrite IH by lia. reflexivity.
Qed.

Lemma bindex_rev_in_bounds (s idx : list nat) :
  in_bounds s idx -> bindex_rev s idx = idx.
Proof.
  unfold in_bounds. induction 1 as [|i n idx s Hi HF IH]; cbn;
    [reflexivity|].
  rewrite IH. destruct (Nat.eqb_spec n 1) as [->|_]; [|reflexivity].
  f_equal. lia.
Qed.

Lemma bindex_in_bounds (s idx : list nat) :
  in_bounds s idx -> bindex s idx = idx.
Proof.
  intros Hb. rewrite bindex_same_length.
  - apply bindex_rev_in_bounds. exact Hb.
  - symmetry. apply (Forall2_length Hb).
Qed.

Section Division.
Context {T : Type} `{Kernels T}.

Lemma value_map_reduce_result {A B} (g : A -> B) (dt dt' : dtype)
    (shp : list nat) (k : option nat) (keepdims : bool)
    (C : list nat -> A) :
  setup_ducktype.value_map g dt (reduce_result dt' shp k keepdims C)
  = reduce_result dt shp k keepdims (fun idx => g (C idx)).
Proof.
  assert (Hdecay : forall s : list nat,
    setup_ducktype.value_map g dt (decay (mk_ndarray dt' s C true))
    = decay (mk_ndarray dt s (fun idx => g (C idx)) true)).
  { intros [|n s]; reflexivity. }
  unfold reduce_result.
  destruct k as [k|]; destruct keepdims; try reflexivity; apply Hdecay.
Qed.

(** The masked value built from a reduced data [F] divided by reduced
    counts [C], with the reduced mask [G]. *)
Lemma divided_pair (dt : dtype) (shp : list nat) (k : option nat)
    (keepdims : bool) (F : list nat -> T) (C : list nat -> Z)
    (G : list nat -> bool) :
  exists r,
    (ret <-
       match reduce_result dt shp k keepdims F with
       | NDArray r0 =>
           q <- elementwise2 true_divide (dtype_of r0)
                  (reduce_result dt shp k keepdims F)
                  (reduce_result intp shp k keepdims C) ;;
           Ok (setup_ducktype.value_map (astype (dtype_of r0))
                 (dtype_of r0) q)
       | Generic dt0 _ =>
           q <- elementwise2 true_divide dt0
                  (reduce_result dt shp k keepdims F)
                  (reduce_result intp shp k keepdims C) ;;
           Ok (setup_ducktype.value_map (astype dt0) dt0 q)
       end ;;
     maskedarray_or_scalar ret (reduce_result bool_ shp k keepdims G)
       (Some cls_MaskedArray)) = Ok r /\
    result_shape r = reduced_shape shp k keepdims /\
    shape (result_mask r) = reduced_shape shp k keepdims /\
    forall idx,
      in_bounds (reduced_shape shp k keepdims) idx ->
      item (result_mask r) idx = G idx /\
      item (result_data r) idx = astype dt (true_divide (F idx) (C idx)).
Proof.
  assert (Harr : forall s : list nat,
    exists r,
      (ret <- (q <- elementwise2 true_divide dt
                      (NDArray (mk_ndarray dt s F true))
                      (NDArray (mk_ndarray intp s C true)) ;;
               Ok (setup_ducktype.value_map (astype dt) dt q)) ;;
       maskedarray_or_scalar ret (NDArray (mk_ndarray bool_ s G true))
         (Some cls_MaskedArray)) = Ok r /\
      result_shape r = s /\
      shape (result_mask r) = s /\
      forall idx,
        in_bounds s idx ->
        item (result_mask r) idx = G idx /\
        item (result_data r) idx = astype dt (true_divide (F idx) (C idx))).
  { intros s. unfold elementwise2, value_shape. cbn [as_array shape].
    rewrite broadcast_shapes_refl. cbn [bind]. unfold decay. cbn [shape].
    destruct s as [|n s].
    - cbn. eexists. split; [reflexivity|]. cbn. repeat split;
        apply in_bounds_nil in H0; subst; reflexivity.
    - unfold maskedarray_or_scalar, construct, MaskedArray.__init__.
      cbn [setup_ducktype.value_map elementwise1 is_duckscalar ArrayType
           as_array shape bind].
      rewrite shape_eqb_refl.
      eexists. split; [reflexivity|]. cbn [result_shape result_mask
        result_data self_data self_mask value_shape as_array shape item
        MaskedArray._data MaskedArray._mask].
      repeat split. cbn [elementwise1 item].
      rewrite (bindex_in_bounds _ _ H0). reflexivity. }
  assert (Hsc :
    exists r,
      (ret <- (q <- elementwise2 true_divide dt (Generic dt (F []))
                      (Generic intp (C [])) ;;
               Ok (setup_ducktype.value_map (astype dt) dt q)) ;;
       maskedarray_or_scalar ret (Generic bool_ (G []))
         (Some cls_MaskedArray)) = Ok r /\
      result_shape r = [] /\
      shape (result_mask r) = [] /\
      forall idx,
        in_bounds [] idx ->
        item (result_mask r) idx = G idx /\
        item (result_data r) idx = astype dt (true_divide (F idx) (C idx))).
  { cbn. eexists. split; [reflexivity|]. cbn. repeat split;
      apply in_bounds_nil in H0; subst; reflexivity. }
  assert (Hdecay : forall s : list nat,
    exists r,
      (ret <-
         match decay (mk_ndarray dt s F true) with
         | NDArray r0 =>
             q <- elementwise2 true_divide (dtype_of r0)
                    (decay (mk_ndarray dt s F true))
                    (decay (mk_ndarray intp s C true)) ;;
             Ok (setup_ducktype.value_map (astype (dtype_of r0))
                   (dtype_of r0) q)
         | Generic dt0 _ =>
             q <- elementwise2 true_divide dt0
                    (decay (mk_ndarray dt s F true))
                    (decay (mk_ndarray intp s C true)) ;;
             Ok (setup_ducktype.value_map (astype dt0) dt0 q)
         end ;;
       maskedarray_or_scalar ret (decay (mk_ndarray bool_ s G true))
         (Some cls_MaskedArray)) = Ok r /\
      result_shape r = s /\
      shape (result_mask r) = s /\
      forall idx,
        in_bounds s idx ->
        item (result_mask r) idx = G idx /\
        item (result_data r) idx = astype dt (true_divide (F idx) (C idx))).
  { intros [|n s].
    - exact Hsc.
    - apply Harr. }
  unfold reduce_result, reduced_shape.
  destruct k as [k|]; destruct keepdims; cbn [is_duckscalar dtype_of].
  - apply Harr.
  - apply Hdecay.
  - apply Hdecay.
  - exact Hsc.
Qed.

End Division.

(** ** The mean *)

Lemma count_zero_iff (l : list bool) :
  Zsum (map (fun b : bool => if b then 1%Z else 0%Z) (map negb l)) = 0%Z <->
  (forall m, In m l -> m = true).
Proof.
  assert (Hpos : forall l : list bool,
             (0 <= Zsum (map (fun b : bool => if b then 1 else 0) l))%Z).
  { clear l. unfold Zsum. induction l as [|b l IH]; cbn; [lia|].
    destruct b; lia. }
  induction l as [|b l IH].
  - cbn. split; [intros _ m []|reflexivity].
  - cbn [map]. unfold Zsum in *. cbn [fold_right].
    specialize (Hpos (map negb l)). unfold Zsum in Hpos.
    destruct b; cbn [negb].
    + split.
      * intros Hz m [<-|Hm]; [reflexivity|]. apply IH; [lia|exact Hm].
      * intros Hall. enough (fold_right Z.add 0%Z
                               (map (fun b : bool => if b then 1%Z else 0%Z)
                                  (map negb l)) = 0%Z) by lia.
        apply IH. intros m Hm. apply Hall. right. exact Hm.
    + split.
      * intros Hz. lia.
      * intros Hall. specialize (Hall false (or_introl eq_refl)).
        discriminate.
Qed.

Lemma reduced_logical_not (m : ndarray bool) (k : option nat)
    (keepdims : bool) (idx : list nat) :
  reduced (np.logical_not m) k keepdims idx
  = map negb (reduced m k keepdims idx).
Proof.
  unfold reduced, np.logical_not, elementwise1, lane, ravel.
  destruct k; cbn [shape item]; rewrite map_map; reflexivity.
Qed.

Lemma is_duckscalar_reduce_result {B} (dt : dtype) (shp : list nat)
    (k : option nat) (keepdims : bool) (F : list nat -> B) :
  is_duckscalar (reduce_result dt shp k keepdims F)
  = match reduced_shape shp k keepdims with [] => true | _ :: _ => false end.
Proof.
  unfold reduce_result, reduced_shape, decay, keep_at.
  destruct k as [k|]; destruct keepdims; cbn [shape].
  - destruct (firstn k shp); reflexivity.
  - destruct (remove_at k shp); reflexivity.
  - destruct (map (fun _ => 1) shp); reflexivity.
  - reflexivity.
Qed.

Section Mean.
Context {T : Type} `{Kernels T}.

(** X2.  [mean] of an array whose dtype is not [float16]: the call returns,
    the 0-filled sum is divided by the count of unmasked elements, and the
    elements of count zero are the masked ones. *)
Lemma mean_reduction (a : MaskedArray.t T) (axis : option Z)
    (keepdims : option bool) (k : option nat) :
  wf_array a ->
  is_float16 (MaskedArray.dtype a) = false ->
  resolve_axis axis (ndim (MaskedArray._data a)) = Ok k ->
  exists r,
    setup_ducktype.mean a axis None keepdims = Ok r /\
    mean_of a
      (if is_integer_or_bool (MaskedArray.dtype a) then astype float64
       else fun x => x)
      (if is_integer_or_bool (MaskedArray.dtype a) then float64
       else accumulator_dtype (MaskedArray.dtype a))
      k (match keepdims with None => false | Some b => b end) r.
Proof.
  intros Hw H16 Hk. unfold setup_ducktype.mean.
  set (kw := match keepdims with None => false | Some b => b end).
  rewrite (count_reduced a axis kw k Hw Hk). cbn [bind].
  rewrite H16.
  assert (Hgen : forall (conv : T -> T) (dt : dtype),
    exists r,
      (ret <-
         match reduce_result dt (MaskedArray.shape a) k kw
                 (fun idx => fold_lane add (of_int dt 0)
                    (map conv
                       (reduced (identity_filled a
                                   (of_int (MaskedArray.dtype a) 0)
                                   (negb (true &&
                                          writeable (MaskedArray._data a))))
                          k kw idx)))
         with
         | NDArray r0 =>
             q <- elementwise2 true_divide (dtype_of r0)
                    (reduce_result dt (MaskedArray.shape a) k kw
                       (fun idx => fold_lane add (of_int dt 0)
                          (map conv
                             (reduced (identity_filled a
                                         (of_int (MaskedArray.dtype a) 0)
                                         (negb (true &&
                                            writeable (MaskedArray._data a))))
                                k kw idx))))
                    (reduce_result intp (MaskedArray.shape a) k kw
                       (fun idx =>
                          fold_lane Z.add 0%Z
                            (map (fun b : bool => if b then 1%Z else 0%Z)
                               (reduced
                                  (np.logical_not (MaskedArray._mask a))
                                  k kw idx)))) ;;
             Ok (setup_ducktype.value_map (astype (dtype_of r0))
                   (dtype_of r0) q)
         | Generic dt0 _ =>
             q <- elementwise2 true_divide dt0
                    (reduce_result dt (MaskedArray.shape a) k kw
                       (fun idx => fold_lane add (of_int dt 0)
                          (map conv
                             (reduced (identity_filled a
                                         (of_int (MaskedArray.dtype a) 0)
                                         (negb (true &&
                                            writeable (MaskedArray._data a))))
                                k kw idx))))
                    (reduce_result intp (MaskedArray.shape a) k kw
                       (fun idx =>
                          fold_lane Z.add 0%Z
                            (map (fun b : bool => if b then 1%Z else 0%Z)
                               (reduced
                                  (np.logical_not (MaskedArray._mask a))
                                  k kw idx)))) ;;
             Ok (setup_ducktype.value_map (astype dt0) dt0 q)
         end ;;
       maskedarray_or_scalar ret
         (reduce_result bool_ (shape (MaskedArray._mask a)) k kw
            (fun idx => fold_lane andb true
               (map (fun b : bool => b)
                  (reduced (MaskedArray._mask a) k kw idx))))
         (Some cls_MaskedArray)) = Ok r /\
      mean_of a conv dt k kw r).
  { intros conv dt.
    pose proof Hw as Hs. unfold wf_array in Hs. rewrite Hs.
    change (shape (MaskedArray._data a)) with (MaskedArray.shape a).
    match goal with
    | |- context [maskedarray_or_scalar _
                    (reduce_result bool_ _ _ _ ?G) _] =>
        match goal with
        | |- context [elementwise2 true_divide _
                        (reduce_result dt _ _ _ ?F)
                        (reduce_result intp _ _ _ ?C)] =>
            destruct (divided_pair dt (MaskedArray.shape a) k kw F C G)
              as (r & Hr & Hsh & Hms & Hit);
            pose proof (is_duckscalar_reduce_result dt (MaskedArray.shape a)
                          k kw F) as Hduck;
            exists r; split;
              [ destruct (reduce_result dt (MaskedArray.shape a) k kw F);
                match type of Hr with
                | context [elementwise2 ?f ?d ?x ?y] =>
                    destruct (elementwise2 f d x y)
                end; exact Hr
              | ]
        end
    end.
    unfold mean_of. cbn zeta.
    split; [exact Hsh|]. split; [exact Hms|].
    intros idx Hb. destruct (Hit idx Hb) as [Hm Hd]. split.
    - rewrite Hm, map_id, fold_lane_andb.
      unfold slice_count. symmetry. apply count_zero_iff.
    - rewrite Hd, fold_lane_Zsum, reduced_logical_not.
      unfold quotient_cast, slice_count. reflexivity. }
  destruct (is_integer_or_bool (MaskedArray.dtype a)).
  - rewrite (filled_value a _ true Hw). cbn [bind].
    rewrite filled_value_mask. unfold np.sum, np.all.
    rewrite (reduce_axis_ok _ _ _ _ _ _ _ (MaskedArray._mask a) k
               (wf_resolve_axis_mask a axis k Hw Hk)).
    rewrite (reduce_axis_ok _ _ _ _ _ _ _ (identity_filled a _ _) k Hk).
    cbn [bind]. apply (Hgen (astype float64) float64).
  - rewrite (filled_value a _ true Hw). cbn [bind].
    rewrite filled_value_mask. unfold np.sum, np.all.
    rewrite (reduce_axis_ok _ _ _ _ _ _ _ (MaskedArray._mask a) k
               (wf_resolve_axis_mask a axis k Hw Hk)).
    rewrite (reduce_axis_ok _ _ _ _ _ _ _ (identity_filled a _ _) k Hk).
    cbn [bind].
    apply (Hgen (fun x => x) (accumulator_dtype (MaskedArray.dtype a))).
Qed.

End Mean.

(** ** The variance *)

Lemma indices_in_bounds (shp idx : list nat) :
  In idx (indices shp) -> in_bounds shp idx.
Proof.
  unfold in_bounds. revert idx.
  induction shp as [|n s IH]; intros idx Hin; cbn in Hin.
  - destruct Hin as [<-|[]]. constructor.
  - apply in_flat_map in Hin. destruct Hin as (i & Hi & Hin).
    apply in_map_iff in Hin. destruct Hin as (tl & <- & Htl).
    apply in_seq in Hi. constructor; [lia|]. apply IH. exact Htl.
Qed.

Lemma firstn_app_exact {A} (l1 l2 : list A) (k : nat) :
  List.length l1 = k -> firstn k (l1 ++ l2) = l1.
Proof.
  intros <-. induction l1 as [|x l1 IH]; cbn; [reflexivity|].
  rewrite IH. reflexivity.
Qed.

Lemma skipn_app_exact {A} (l1 l2 : list A) (k : nat) :
  List.length l1 = k -> skipn k (l1 ++ l2) = l2.
Proof.
  intros <-. induction l1 as [|x l1 IH]; cbn; [reflexivity|exact IH].
Qed.

Lemma in_bounds_insert_at (shp idx : list nat) (k j : nat) :
  k < List.length shp -> in_bounds (remove_at k shp) idx ->
  j < nth k shp 0 -> in_bounds shp (insert_at k j idx).
Proof.
  unfold in_bounds, insert_at, remove_at. intros Hk Hb Hj.
  assert (Hl : List.length (firstn k shp) = k)
    by (rewrite length_firstn; lia).
  rewrite (split_at_nth shp k Hk) at 1.
  apply Forall2_app.
  - rewrite <- (firstn_app_exact (firstn k shp) (skipn (S k) shp) k Hl).
    apply Forall2_firstn. exact Hb.
  - constructor; [exact Hj|].
    rewrite <- (skipn_app_exact (firstn k shp) (skipn (S k) shp) k Hl).
    apply Forall2_skipn. exact Hb.
Qed.

Lemma in_bounds_keep_remove (shp idx : list nat) (k : nat) :
  k < List.length shp -> in_bounds (keep_at k shp) idx ->
  in_bounds (remove_at k shp) (remove_at k idx).
Proof.
  unfold in_bounds, keep_at, remove_at. intros Hk Hb.
  assert (Hl : List.length (firstn k shp) = k)
    by (rewrite length_firstn; lia).
  apply Forall2_app.
  - rewrite <- (firstn_app_exact (firstn k shp) (1 :: skipn (S k) shp) k Hl).
    apply Forall2_firstn. exact Hb.
  - change (skipn (S k) shp) with (skipn 1 (1 :: skipn (S k) shp)) at 1.
    rewrite <- (skipn_app_exact (firstn k shp) (1 :: skipn (S k) shp) k Hl)
      at 1.
    rewrite skipn_skipn. apply Forall2_skipn. exact Hb.
Qed.

Lemma reduced_ext {A} (x y : ndarray A) (k : option nat) (keepdims : bool)
    (idx : list nat) :
  shape x = shape y ->
  (forall j, in_bounds (shape x) j -> item x j = item y j) ->
  match k with Some k => k < List.length (shape x) | None => True end ->
  in_bounds (reduced_shape (shape x) k keepdims) idx ->
  reduced x k keepdims idx = reduced y k keepdims idx.
Proof.
  intros Hs Hext Hk Hb. unfold reduced, reduced_shape in *.
  destruct k as [k|].
  - unfold lane. rewrite <- Hs. apply map_ext_in. intros j Hj.
    apply in_seq in Hj. apply Hext. apply in_bounds_insert_at.
    + exact Hk.
    + destruct keepdims; [|exact Hb].
      apply in_bounds_keep_remove; assumption.
    + lia.
  - unfold ravel. rewrite <- Hs. apply map_ext_in. intros j Hj.
    apply Hext. apply indices_in_bounds. exact Hj.
Qed.

Lemma Forall2_rev_intro {A B} (R : A -> B -> Prop) (l : list A)
    (l' : list B) :
  Forall2 R l l' -> Forall2 R (rev l) (rev l').
Proof.
  induction 1; cbn; [constructor|].
  apply Forall2_app; [assumption|]. constructor; [assumption|constructor].
Qed.

Lemma bshape_rev_ones (r1 r2 : list nat) :
  Forall2 (fun n m => m = n \/ m = 1) r1 r2 -> bshape_rev r1 r2 = Some r1.
Proof.
  induction 1 as [|a b r1 r2 Hab HF IH]; cbn; [reflexivity|].
  rewrite IH. destruct (Nat.eqb_spec a b) as [_|Hne]; [reflexivity|].
  destruct Hab as [->| ->]; [contradiction|].
  destruct (Nat.eqb_spec a 1) as [->|_]; [contradiction|reflexivity].
Qed.

Lemma broadcast_shapes_ones (s1 s2 : list nat) :
  Forall2 (fun n m => m = n \/ m = 1) s1 s2 ->
  broadcast_shapes s1 s2 = Some s1.
Proof.
  intros HF. unfold broadcast_shapes.
  rewrite (bshape_rev_ones _ _ (Forall2_rev_intro _ _ _ HF)).
  cbn. rewrite rev_involutive. reflexivity.
Qed.

Lemma Forall2_same {A} (R : A -> A -> Prop) (l : list A) :
  (forall x, R x x) -> Forall2 R l l.
Proof. intros HR. induction l; constructor; auto. Qed.

Lemma broadcast_shapes_keepdims (shp : list nat) (k : option nat) :
  match k with Some k => k < List.length shp | None => True end ->
  broadcast_shapes shp (reduced_shape shp k true) = Some shp.
Proof.
  intros Hk. apply broadcast_shapes_ones. unfold reduced_shape.
  destruct k as [k|].
  - unfold keep_at. rewrite (split_at_nth shp k Hk) at 1.
    apply Forall2_app.
    + apply Forall2_same. intros x. left. reflexivity.
    + constructor; [right; reflexivity|].
      apply Forall2_same. intros x. left. reflexivity.
  - clear Hk. induction shp as [|n s IH]; cbn; constructor;
      [right; reflexivity|exact IH].
Qed.

Lemma bindex_idem (s idx : list nat) :
  bindex s (bindex s idx) = bindex s idx.
Proof. apply (bindex_compose_l s s s). apply broadcast_shapes_refl. Qed.

Lemma resolve_axis_valid (axis : option Z) (nd : nat) (k : option nat) :
  resolve_axis axis nd = Ok k ->
  match k with Some k => k < nd | None => True end.
Proof.
  unfold resolve_axis. destruct axis as [ax|]; [|intros [= <-]; exact I].
  destruct nd as [|nd].
  - destruct ((ax =? 0) || (ax =? -1))%Z; [|discriminate].
    intros [= <-]. exact I.
  - destruct (normalize_axis_index ax (S nd)) as [k'|e] eqn:E;
      cbn [bind]; [|discriminate].
    intros [= <-]. exact (normalize_axis_index_lt _ _ _ E).
Qed.

Section Variance.
Context {T : Type} `{Kernels T}.

Lemma subtract_call (a : MaskedArray.t T) (M : ndarray T) (n : nat)
    (s : list nat) :
  wf_array a -> MaskedArray.shape a = n :: s ->
  broadcast_shapes (n :: s) (shape M) = Some (n :: s) ->
  exists x,
    __call__ masked_subtract (AMaskedArray a) (Andarray M) None
    = Ok (RArray x) /\
    shape (MaskedArray._data x) = n :: s /\
    shape (MaskedArray._mask x) = n :: s /\
    MaskedArray.dtype x = result_type (MaskedArray.dtype a) (dtype_of M) /\
    writeable (MaskedArray._data x) = true /\
    writeable (MaskedArray._mask x) = true /\
    (forall idx,
        item (MaskedArray._data x) idx =
        subtract (item (MaskedArray._data a) (bindex (n :: s) idx))
                 (item M (bindex (shape M) idx))) /\
    (forall idx,
        item (MaskedArray._mask x) idx =
        item (MaskedArray._mask a) (bindex (n :: s) idx)).
Proof.
  intros Hw Hs Hb. unfold wf_array in Hw. unfold MaskedArray.shape in Hs.
  unfold __call__. cbn [getdata getmask bind].
  unfold np.logical_or, elementwise2, value_shape. cbn [as_array shape].
  rewrite Hw, Hs, broadcast_shapes_nil_r, Hb. cbn [bind decay shape].
  unfold get_mask_cls. cbn [get_mask_cls_loop bind option_map type_of
    issubclass ArrayType is_duckscalar].
  unfold construct, ArrayType, MaskedArray.__init__.
  cbn [as_array shape]. rewrite shape_eqb_refl. cbn [bind].
  eexists. split; [reflexivity|].
  cbn [MaskedArray._data MaskedArray._mask MaskedArray.dtype shape dtype_of
       writeable item].
  repeat split. intros idx. apply orb_false_r.
Qed.

(** A binary operation on two masked arrays of one shape, stored into a
    writeable masked array [o] of that shape. *)
Lemma call_out (self : _Masked_BinOp T) (x y o : MaskedArray.t T) (n : nat)
    (s : list nat) :
  shape (MaskedArray._data x) = n :: s ->
  shape (MaskedArray._mask x) = n :: s ->
  shape (MaskedArray._data y) = n :: s ->
  shape (MaskedArray._mask y) = n :: s ->
  shape (MaskedArray._data o) = n :: s ->
  shape (MaskedArray._mask o) = n :: s ->
  writeable (MaskedArray._data o) = true ->
  writeable (MaskedArray._mask o) = true ->
  can_cast (result_type (MaskedArray.dtype x) (MaskedArray.dtype y))
    (MaskedArray.dtype o) = true ->
  exists r,
    __call__ self (AMaskedArray x) (AMaskedArray y) (Some (RArray o))
    = Ok (RArray r) /\
    shape (MaskedArray._data r) = n :: s /\
    shape (MaskedArray._mask r) = n :: s /\
    MaskedArray.dtype r = MaskedArray.dtype o /\
    (forall idx,
        item (MaskedArray._data r) idx =
        astype (MaskedArray.dtype o)
          (uf_call (f self)
             (item (MaskedArray._data x) (bindex (n :: s) idx))
             (item (MaskedArray._data y) (bindex (n :: s) idx)))) /\
    (forall idx,
        item (MaskedArray._mask r) idx =
        item (MaskedArray._mask x) (bindex (n :: s) idx)
        || item (MaskedArray._mask y) (bindex (n :: s) idx)).
Proof.
  intros Hdx Hmx Hdy Hmy Hdo Hmo Hwd Hwm Hcast.
  unfold __call__. cbn [getdata getmask bind].
  unfold value_dtype. cbn [as_array].
  change (dtype_of (MaskedArray._data x)) with (MaskedArray.dtype x).
  change (dtype_of (MaskedArray._data y)) with (MaskedArray.dtype y).
  rewrite Hcast, Hwd. cbn [negb].
  unfold np.logical_or, elementwise2, value_shape. cbn [as_array shape].
  rewrite Hmx, Hmy, Hdx, Hdy, broadcast_shapes_refl.
  cbn [bind decay shape].
  unfold store_out. rewrite Hwd, Hwm. cbn [negb].
  unfold np.broadcast_to, value_shape. cbn [as_array shape].
  rewrite Hmo, Hdo, broadcast_shapes_refl, shape_eqb_refl. cbn [bind].
  eexists. split; [reflexivity|].
  cbn [MaskedArray._data MaskedArray._mask MaskedArray.dtype shape dtype_of
       item].
  repeat split; intros idx; rewrite !bindex_idem; reflexivity.
Qed.

Lemma conjugate_call (x : MaskedArray.t T) (n : nat) (s : list nat) :
  shape (MaskedArray._data x) = n :: s ->
  shape (MaskedArray._mask x) = n :: s ->
  exists cx,
    _Masked_UniOp__call__ conjugate (AMaskedArray x) = Ok (RArray cx) /\
    shape (MaskedArray._data cx) = n :: s /\
    shape (MaskedArray._mask cx) = n :: s /\
    (forall idx,
        item (MaskedArray._data cx) idx =
        conjugate (item (MaskedArray._data x) idx)) /\
    (forall idx,
        item (MaskedArray._mask cx) idx = item (MaskedArray._mask x) idx).
Proof.
  intros Hd Hm.
  unfold _Masked_UniOp__call__. cbn [getdata getmask type_of].
  unfold decay, elementwise1. cbn [as_array shape]. rewrite Hd.
  cbn [is_duckscalar].
  unfold construct, MaskedArray.__init__. cbn [as_array shape].
  rewrite Hm, shape_eqb_refl. cbn [bind].
  eexists. split; [reflexivity|].
  cbn [MaskedArray._data MaskedArray._mask shape item].
  repeat split. exact Hm.
Qed.

Lemma conjugate_call_dtype (x cx : MaskedArray.t T) (n : nat)
    (s : list nat) :
  shape (MaskedArray._data x) = n :: s ->
  _Masked_UniOp__call__ conjugate (AMaskedArray x) = Ok (RArray cx) ->
  MaskedArray.dtype cx = MaskedArray.dtype x.
Proof.
  intros Hd.
  unfold _Masked_UniOp__call__. cbn [getdata getmask type_of].
  unfold decay, elementwise1. cbn [as_array shape]. rewrite Hd.
  cbn [is_duckscalar].
  unfold construct, MaskedArray.__init__. cbn [as_array shape].
  destruct (shape_eqb (shape (MaskedArray._mask x)) (n :: s)).
  - intros [= <-]. reflexivity.
  - destruct (np.broadcast_to _ _); cbn [bind]; [|discriminate].
    intros [= <-]. reflexivity.
Qed.

Lemma real_call (p : MaskedArray.t T) (n : nat) (s : list nat) :
  shape (MaskedArray._data p) = n :: s ->
  shape (MaskedArray._mask p) = n :: s ->
  exists r,
    setup_ducktype.real (RArray p) = Ok (RArray r) /\
    shape (MaskedArray._data r) = n :: s /\
    shape (MaskedArray._mask r) = n :: s /\
    MaskedArray.dtype r = MaskedArray.dtype p /\
    (forall idx,
        item (MaskedArray._data r) idx =
        real_part (item (MaskedArray._data p) idx)) /\
    (forall idx,
        item (MaskedArray._mask r) idx = item (MaskedArray._mask p) idx).
Proof.
  intros Hd Hm.
  unfold setup_ducktype.real, maskedarray_or_scalar.
  cbn [self_data self_mask as_operand type_of setup_ducktype.value_map
       is_duckscalar ArrayType].
  unfold construct, MaskedArray.__init__, elementwise1.
  cbn [as_array shape]. rewrite Hm, Hd, shape_eqb_refl. cbn [bind].
  eexists. split; [reflexivity|].
  cbn [MaskedArray._data MaskedArray._mask MaskedArray.dtype shape item
       dtype_of value_dtype as_array].
  repeat split. exact Hm.
Qed.

(** The product of line 1488 or of line 1490, stored into [x] itself. *)
Lemma square_call (c : bool) (x : MaskedArray.t T) (n : nat)
    (s : list nat) :
  shape (MaskedArray._data x) = n :: s ->
  shape (MaskedArray._mask x) = n :: s ->
  writeable (MaskedArray._data x) = true ->
  writeable (MaskedArray._mask x) = true ->
  can_cast (result_type (MaskedArray.dtype x) (MaskedArray.dtype x))
    (MaskedArray.dtype x) = true ->
  exists y,
    (if c then
       cx <- _Masked_UniOp__call__ conjugate (as_operand (RArray x)) ;;
       p <- __call__ masked_multiply (as_operand (RArray x)) (as_operand cx)
              (Some (RArray x)) ;;
       setup_ducktype.real p
     else
       __call__ masked_multiply (as_operand (RArray x))
         (as_operand (RArray x)) (Some (RArray x)))
    = Ok (RArray y) /\
    shape (MaskedArray._data y) = n :: s /\
    shape (MaskedArray._mask y) = n :: s /\
    MaskedArray.dtype y = MaskedArray.dtype x /\
    (forall idx,
        item (MaskedArray._data y) idx =
        let d := item (MaskedArray._data x) (bindex (n :: s) idx) in
        if c
        then real_part (astype (MaskedArray.dtype x)
                          (multiply d (conjugate d)))
        else astype (MaskedArray.dtype x) (multiply d d)) /\
    (forall idx,
        item (MaskedArray._mask y) idx =
        item (MaskedArray._mask x) (bindex (n :: s) idx)).
Proof.
  intros Hd Hm Hwd Hwm Hcast. cbn [as_operand]. destruct c.
  - destruct (conjugate_call x n s Hd Hm)
      as (cx & Hcx & Hcd & Hcm & Hci & Hcmi).
    pose proof (conjugate_call_dtype x cx n s Hd Hcx) as Hct.
    rewrite Hcx. cbn [bind as_operand].
    rewrite <- Hct in Hcast at 2.
    destruct (call_out masked_multiply x cx x n s Hd Hm Hcd Hcm Hd Hm
                Hwd Hwm Hcast) as (p & Hp & Hpd & Hpm & Hpt & Hpi & Hpmi).
    rewrite Hp. cbn [bind].
    destruct (real_call p n s Hpd Hpm) as (r & Hr & Hrd & Hrm & Hrt & Hri &
                                           Hrmi).
    exists r. split; [exact Hr|]. split; [exact Hrd|]. split; [exact Hrm|].
    split; [congruence|]. split.
    + intros idx. rewrite Hri, Hpi, Hci. reflexivity.
    + intros idx. rewrite Hrmi, Hpmi, Hcmi. apply orb_diag.
  - destruct (call_out masked_multiply x x x n s Hd Hm Hd Hm Hd Hm
                Hwd Hwm Hcast) as (p & Hp & Hpd & Hpm & Hpt & Hpi & Hpmi).
    exists p. split; [exact Hp|]. split; [exact Hpd|]. split; [exact Hpm|].
    split; [exact Hpt|]. split.
    + intros idx. rewrite Hpi. reflexivity.
    + intros idx. rewrite Hpmi. apply orb_diag.
Qed.

Lemma reduce_result_keepdims {B} (dt : dtype) (n : nat) (s : list nat)
    (k : option nat) (F : list nat -> B) :
  exists m t,
    reduced_shape (n :: s) k true = m :: t /\
    reduce_result dt (n :: s) k true F
    = NDArray (mk_ndarray dt (m :: t) F true).
Proof.
  unfold reduce_result, reduced_shape, keep_at, decay.
  destruct k as [k|]; cbn [shape map].
  - destruct (firstn k (n :: s)) as [|m t] eqn:E; cbn [app];
      eexists; eexists; split; reflexivity.
  - eexists; eexists; split; reflexivity.
Qed.

Lemma np_sum_ok (x : ndarray T) (axis : option Z) (d : option dtype)
    (keepdims : bool) (k : option nat) :
  resolve_axis axis (ndim x) = Ok k ->
  np.sum x axis d keepdims =
  Ok (reduce_result
        (match d with Some dt => dt | None => accumulator_dtype (dtype_of x)
         end)
        (shape x) k keepdims
        (fun idx =>
           fold_lane add
             (of_int (match d with
                      | Some dt => dt
                      | None => accumulator_dtype (dtype_of x)
                      end) 0)
             (map (match d with Some dt => astype dt | None => fun y => y end)
                (reduced x k keepdims idx)))).
Proof.
  intros Hk. unfold np.sum. destruct d as [dt|];
    apply (reduce_axis_ok _ _ _ _ _ _ _ x k Hk).
Qed.

(** X3.  [var] of an array of one dimension at least, whatever the
    [dtype] argument, when the dtype of a product of two deviations casts
    to the dtype of the deviations (the rule of the in-place product): the
    call returns the sum of the squared deviations divided by
    [max(count - ddof, 0)], the quotient cast into the dtype of the sum,
    masked where the count is at most [ddof]. *)
Lemma var_reduction (a : MaskedArray.t T) (axis : option Z)
    (dtype : option dtype) (ddof : Z) (keepdims : option bool)
    (k : option nat) (n : nat) (s : list nat) :
  wf_array a ->
  MaskedArray.shape a = n :: s ->
  resolve_axis axis (ndim (MaskedArray._data a)) = Ok k ->
  let dtype' :=
    match dtype with
    | None =>
        if is_integer_or_bool (MaskedArray.dtype a) then Some float64
        else None
    | Some dt => Some dt
    end in
  let dx :=
    result_type (MaskedArray.dtype a)
      (match dtype' with
       | Some dt => dt
       | None => accumulator_dtype (MaskedArray.dtype a)
       end) in
  can_cast (result_type dx dx) dx = true ->
  exists r,
    setup_ducktype.var a axis dtype ddof keepdims = Ok r /\
    var_of a
      (match dtype' with Some dt => astype dt | None => fun x => x end)
      (match dtype' with
       | Some dt => dt
       | None => accumulator_dtype (MaskedArray.dtype a)
       end)
      (match dtype' with
       | Some dt => dt
       | None =>
           accumulator_dtype
             (result_type (MaskedArray.dtype a)
                (accumulator_dtype (MaskedArray.dtype a)))
       end)
      ddof k (match keepdims with None => false | Some b => b end) r.
Proof.
  intros Hw Hs Hk dtype' dx Hcast. unfold setup_ducktype.var.
  fold dtype'.
  set (kw := match keepdims with None => false | Some b => b end).
  rewrite (count_reduced a axis kw k Hw Hk). cbn [bind].
  rewrite (count_reduced a axis true k Hw Hk). cbn [bind].
  rewrite (filled_value a _ false Hw). cbn [bind andb negb].
  unfold dx in Hcast. clear dx. clearbody dtype'.
  rewrite (np_sum_ok (identity_filled a _ true) axis dtype' true k Hk).
  cbn [bind]. change (shape (identity_filled a _ true))
    with (MaskedArray.shape a).
  change (dtype_of (identity_filled a (of_int (MaskedArray.dtype a) 0) true))
    with (MaskedArray.dtype a).
  set (conv := match dtype' with Some dt => astype dt | None => fun y => y
               end).
  set (dt := match dtype' with
             | Some dt => dt
             | None => accumulator_dtype (MaskedArray.dtype a)
             end).
  rewrite Hs.
  match goal with
  | |- context [reduce_result dt (n :: s) k true ?F] =>
      destruct (reduce_result_keepdims dt n s k F) as (m & t & Hmt & ->);
      set (FS := F)
  end.
  match goal with
  | |- context [reduce_result intp (n :: s) k true ?C] =>
      destruct (reduce_result_keepdims intp n s k C) as (m' & t' & Hmt' & ->);
      set (C1 := C)
  end.
  rewrite Hmt in Hmt'. injection Hmt' as <- <-.
  cbn [dtype_of]. unfold elementwise2 at 1, value_shape.
  cbn [as_array shape]. rewrite broadcast_shapes_refl.
  cbn [bind decay shape setup_ducktype.value_map
       setup_ducktype.operand_of_value].
  assert (Hvalid : match k with
                   | Some k => k < List.length (n :: s)
                   | None => True
                   end).
  { rewrite <- Hs. exact (resolve_axis_valid _ _ _ Hk). }
  match goal with
  | |- context [Andarray ?M0] => set (M := M0)
  end.
  assert (HbM : broadcast_shapes (n :: s) (shape M) = Some (n :: s)).
  { change (shape M) with (m :: t). rewrite <- Hmt.
    apply broadcast_shapes_keepdims. exact Hvalid. }
  destruct (subtract_call a M n s Hw Hs HbM)
    as (x & Hx & Hxd & Hxm & Hxt & Hxwd & Hxwm & Hxi & Hxmi).
  rewrite Hx. cbn [bind].
  assert (Hcx : can_cast
                  (result_type (MaskedArray.dtype x) (MaskedArray.dtype x))
                  (MaskedArray.dtype x) = true).
  { rewrite Hxt. change (dtype_of M) with dt. exact Hcast. }
  destruct (square_call (is_complexfloating (MaskedArray.dtype a)) x n s
              Hxd Hxm Hxwd Hxwm Hcx)
    as (y & Hy & Hyd & Hym & Hyt & Hyi & Hymi).
  rewrite Hy. cbn [bind].
  assert (Hwy : wf_array y) by (unfold wf_array; congruence).
  rewrite (filled_value y _ true Hwy). cbn [bind].
  assert (Hky : resolve_axis axis
                  (ndim (identity_filled y (of_int (MaskedArray.dtype y) 0)
                           (negb (true && writeable (MaskedArray._data y)))))
                = Ok k).
  { unfold ndim. cbn [identity_filled shape]. unfold MaskedArray.shape.
    rewrite Hyd. unfold ndim in Hk. unfold MaskedArray.shape in Hs.
    rewrite Hs in Hk. exact Hk. }
  rewrite (np_sum_ok _ axis dtype' kw k Hky). cbn [bind].
  rewrite !value_map_reduce_result.
  change (shape (identity_filled y (of_int (MaskedArray.dtype y) 0)
                   (negb (true && writeable (MaskedArray._data y)))))
    with (shape (MaskedArray._data y)).
  change (dtype_of (identity_filled y (of_int (MaskedArray.dtype y) 0)
                      (negb (true && writeable (MaskedArray._data y)))))
    with (MaskedArray.dtype y).
  rewrite Hyd.
  set (dtr := match dtype' with
              | Some dt0 => dt0
              | None => accumulator_dtype (MaskedArray.dtype y)
              end).
  match goal with
  | |- context [maskedarray_or_scalar _
                  (reduce_result bool_ _ _ _ ?G) _] =>
      match goal with
      | |- context [elementwise2 true_divide _
                      (reduce_result dtr _ _ _ ?F)
                      (reduce_result intp _ _ _ ?C)] =>
          destruct (divided_pair dtr (n :: s) k kw F C G)
            as (r & Hr & Hsh & Hms & Hit);
          pose proof (is_duckscalar_reduce_result dtr (n :: s) k kw F)
            as Hduck
      end
  end.
  exists r. split; [exact Hr|].
  unfold var_of. cbn zeta. rewrite Hs.
  split; [exact Hsh|]. split; [exact Hms|].
  intros idx Hb. destruct (Hit idx Hb) as [Hm Hd]. split.
  - rewrite Hm, fold_lane_Zsum, reduced_logical_not.
    fold (slice_count a k kw idx). rewrite Z.eqb_eq. lia.
  - rewrite Hd, fold_lane_Zsum, reduced_logical_not.
    fold (slice_count a k kw idx).
    assert (Hdtr : dtr = match dtype' with
                         | Some dt0 => dt0
                         | None =>
                             accumulator_dtype
                               (result_type (MaskedArray.dtype a)
                                  (accumulator_dtype (MaskedArray.dtype a)))
                         end).
    { unfold dtr. rewrite Hyt, Hxt. change (dtype_of M) with dt.
      unfold dt. destruct dtype'; reflexivity. }
    assert (Hred :
      reduced (identity_filled y (of_int (MaskedArray.dtype y) 0)
                 (negb (true && writeable (MaskedArray._data y)))) k kw idx
      = reduced (squared_deviations a conv dt k) k kw idx).
    { apply reduced_ext.
      - cbn [identity_filled squared_deviations shape].
        unfold MaskedArray.shape at 1. rewrite Hyd, Hs. reflexivity.
      - cbn [identity_filled squared_deviations shape item].
        unfold MaskedArray.shape at 1. rewrite Hyd.
        intros j Hj. pose proof (bindex_in_bounds _ _ Hj) as Hbj.
        rewrite Hymi, Hxmi, Hbj, Hbj, Hyt, Hxt.
        change (dtype_of M) with dt.
        destruct (item (MaskedArray._mask a) j); [reflexivity|].
        rewrite Hyi. cbn zeta. rewrite Hxt, Hxi, Hbj, Hbj.
        change (dtype_of M) with dt.
        change (shape M) with (m :: t).
        change (item M (bindex (m :: t) j))
          with (astype dt
                  (true_divide
                     (FS (bindex (m :: t) (bindex (m :: t) j)))
                     (C1 (bindex (m :: t) (bindex (m :: t) j))))).
        rewrite bindex_idem. unfold slice_index. rewrite Hs, Hmt.
        unfold C1. rewrite fold_lane_Zsum, reduced_logical_not.
        reflexivity.
      - cbn [identity_filled shape]. unfold MaskedArray.shape.
        rewrite Hyd. exact Hvalid.
      - cbn [identity_filled shape]. unfold MaskedArray.shape.
        rewrite Hyd. exact Hb. }
    rewrite Hred, <- Hdtr. unfold quotient_cast. reflexivity.
Qed.

(** [var] of a 0-d array: the sum of line 1476 is a scalar, and line 1480
    subtracts it from the [None] of [out]. *)
Lemma var_0d_raises (a : MaskedArray.t T) (axis : option Z)
    (dtype : option dtype) (ddof : Z) (keepdims : option bool)
    (k : option nat) :
  wf_array a ->
  MaskedArray.shape a = [] ->
  resolve_axis axis (ndim (MaskedArray._data a)) = Ok k ->
  setup_ducktype.var a axis dtype ddof keepdims = Raise TypeError.
Proof.
  intros Hw Hs Hk. unfold setup_ducktype.var.
  rewrite (count_reduced a axis _ k Hw Hk). cbn [bind].
  rewrite (count_reduced a axis true k Hw Hk). cbn [bind].
  rewrite (filled_value a _ false Hw). cbn [bind andb negb].
  rewrite (np_sum_ok (identity_filled a _ true) axis _ true k Hk).
  cbn [bind]. change (shape (identity_filled a _ true))
    with (MaskedArray.shape a).
  rewrite Hs.
  assert (Hnone : k = None).
  { unfold ndim in Hk. unfold MaskedArray.shape in Hs. rewrite Hs in Hk.
    unfold resolve_axis in Hk. cbn [List.length] in Hk.
    destruct axis as [ax|]; [|congruence].
    destruct ((ax =? 0) || (ax =? -1))%Z; congruence. }
  subst k. reflexivity.
Qed.

End Variance.

(** ** Products of arrays *)

Lemma fold_lane_orb (l : list bool) :
  fold_lane orb false l = false <-> (forall m, In m l -> m = false).
Proof.
  assert (G : forall l b, fold_left orb l b = false <->
                          b = false /\ forall m, In m l -> m = false).
  { clear l. induction l as [|x l IH]; intros b; cbn.
    - split; [intros ->; split; [reflexivity|contradiction]|tauto].
    - rewrite IH. rewrite orb_false_iff. split.
      + intros [[-> ->] Hl]. split; [reflexivity|].
        intros m [<-|Hm]; auto.
      + intros [-> Hl]. split; [split; [reflexivity|]|]; auto. }
  destruct l as [|x l]; cbn.
  - split; [contradiction|reflexivity].
  - rewrite G. split.
    + intros [-> Hl] m [<-|Hm]; auto.
    + intros Hl. split; auto.
Qed.

Section Products.
Context {T : Type} `{Kernels T}.

Lemma value_map_decay {A B} (g : A -> B) (dt dt' : dtype) (s : list nat)
    (C : list nat -> A) :
  setup_ducktype.value_map g dt (decay (mk_ndarray dt' s C true))
  = decay (mk_ndarray dt s (fun idx => g (C idx)) true).
Proof. destruct s; reflexivity. Qed.

Lemma decay_pair (dt : dtype) (s : list nat) (F : list nat -> T)
    (G : list nat -> bool) :
  exists r,
    maskedarray_or_scalar (decay (mk_ndarray dt s F true))
      (decay (mk_ndarray bool_ s G true)) (Some cls_MaskedArray) = Ok r /\
    result_shape r = s /\
    shape (result_mask r) = s /\
    forall idx,
      in_bounds s idx ->
      item (result_mask r) idx = G idx /\ item (result_data r) idx = F idx.
Proof.
  unfold decay. cbn [shape]. destruct s as [|n s].
  - cbn. eexists. split; [reflexivity|]. cbn. repeat split;
      apply in_bounds_nil in H0; subst; reflexivity.
  - unfold maskedarray_or_scalar, construct, MaskedArray.__init__.
    cbn [is_duckscalar ArrayType as_array shape bind].
    rewrite shape_eqb_refl.
    eexists. split; [reflexivity|]. cbn. repeat split.
Qed.

(** X4.  [dot] of two masked arrays of one dimension at least whose contracted
    axes have one length: the data is the sum of the products of the
    0-filled operands, and an element is masked exactly when no pair of its
    contributors is unmasked on both sides. *)
Lemma dot_zero_fill (a b : MaskedArray.t T) (na nb : nat)
    (sa sb : list nat) :
  wf_array a -> wf_array b ->
  MaskedArray.shape a = na :: sa -> MaskedArray.shape b = nb :: sb ->
  last (na :: sa) 0 = nth (List.length sb - 1) (nb :: sb) 0 ->
  let n := last (na :: sa) 0 in
  let ia := fun (idx : list nat) (k : nat) =>
              firstn (List.length sa) idx ++ [k] in
  let ib := fun (idx : list nat) (k : nat) =>
              insert_at (List.length sb - 1) k
                (skipn (List.length sa) idx) in
  let shp := removelast (na :: sa)
             ++ remove_at (List.length sb - 1) (nb :: sb) in
  exists r,
    setup_ducktype.dot (AMaskedArray a) (AMaskedArray b) = Ok r /\
    result_shape r = shp /\
    forall idx,
      in_bounds shp idx ->
      (item (result_mask r) idx = true <->
       forall k, k < n ->
         item (MaskedArray._mask a) (ia idx k) = true \/
         item (MaskedArray._mask b) (ib idx k) = true) /\
      item (result_data r) idx =
      fold_lane add
        (of_int (result_type (MaskedArray.dtype a) (MaskedArray.dtype b)) 0)
        (map (fun k =>
                multiply
                  (item (identity_filled a
                           (of_int (MaskedArray.dtype a) 0) true)
                     (ia idx k))
                  (item (identity_filled b
                           (of_int (MaskedArray.dtype b) 0) true)
                     (ib idx k)))
           (seq 0 n)).
Proof.
  intros Hwa Hwb Hsa Hsb Hn n ia ib shp. destruct a as [da ma], b as [db mb].
  unfold wf_array, MaskedArray.shape in *. cbn [MaskedArray._data
    MaskedArray._mask] in *.
  unfold setup_ducktype.dot, get_mask_cls.
  cbn [get_mask_cls_loop type_of issubclass bind option_map ArrayType
       setup_ducktype.as_cls MaskedArray.__init__].
  unfold setup_ducktype.zero_filled.
  rewrite (filled_value (MaskedArray.mk da ma) _ true Hwa). cbn [bind].
  rewrite (filled_value (MaskedArray.mk db mb) _ true Hwb). cbn [bind].
  rewrite !filled_value_mask. cbn [MaskedArray._mask MaskedArray._data].
  unfold np.dot, ndim.
  cbn [identity_filled shape np.logical_not elementwise1 dtype_of].
  unfold MaskedArray.shape, MaskedArray.dtype.
  cbn [MaskedArray._data MaskedArray._mask].
  rewrite Hwa, Hwb, Hsa, Hsb. cbn [List.length Nat.sub].
  rewrite !Nat.sub_0_r. rewrite Hn, Nat.eqb_refl. cbn [bind].
  unfold setup_ducktype._inplace_not. rewrite value_map_decay.
  match goal with
  | |- context [maskedarray_or_scalar (decay (mk_ndarray ?dt ?s ?F true))
                  (decay (mk_ndarray bool_ ?s ?G true)) _] =>
      destruct (decay_pair dt s F G) as (r & Hr & Hsh & _ & Hit)
  end.
  exists r. split; [exact Hr|]. split; [exact Hsh|].
  intros idx Hb. destruct (Hit idx Hb) as [Hm Hd]. split.
  - rewrite Hm, negb_true_iff, fold_lane_orb. unfold n. rewrite Hn. split.
    + intros Hall k Hk. unfold ia, ib.
      destruct (item ma (firstn (List.length sa) idx ++ [k])) eqn:Ea;
        [left; reflexivity|].
      destruct (item mb (insert_at (List.length sb - 1) k
                           (skipn (List.length sa) idx))) eqn:Eb;
        [right; reflexivity|].
      exfalso. enough (true = false) by discriminate.
      apply Hall. apply in_map_iff. exists k. split.
      * cbn [np.logical_not elementwise1 item]. rewrite Ea, Eb. reflexivity.
      * apply in_seq. lia.
    + intros Hall m Hin. apply in_map_iff in Hin.
      destruct Hin as (k & <- & Hk). apply in_seq in Hk.
      cbn [np.logical_not elementwise1 item].
      destruct (Hall k) as [E|E]; [lia| |];
        unfold ia, ib in E; rewrite E; cbn;
        [reflexivity|apply andb_false_r].
  - rewrite Hd. unfold n. rewrite Hn. reflexivity.
Qed.

End Products.

(** ** Masked data and the reductions *)

Section Noninterference.
Context {T : Type} `{Kernels T}.

(** Two arrays with one mask whose data agree wherever the mask is unset
    have the same reduction. *)
Lemma reduction_of_masked_data (a a' : MaskedArray.t T) (fv : T)
    (conv : T -> T) (g : T -> T -> T) (e : T) (k : option nat)
    (keepdims : bool) (r r' : masked T) :
  MaskedArray._mask a' = MaskedArray._mask a ->
  MaskedArray.shape a' = MaskedArray.shape a ->
  (forall j,
      in_bounds (MaskedArray.shape a) j ->
      item (MaskedArray._mask a) j = false ->
      item (MaskedArray._data a') j = item (MaskedArray._data a) j) ->
  match k with
  | Some k => k < List.length (MaskedArray.shape a)
  | None => True
  end ->
  reduction_of a fv conv g e k keepdims r ->
  reduction_of a' fv conv g e k keepdims r' ->
  result_shape r' = result_shape r /\
  forall idx,
    in_bounds (result_shape r) idx ->
    item (result_mask r') idx = item (result_mask r) idx /\
    item (result_data r') idx = item (result_data r) idx.
Proof.
  intros Hm Hs Hd Hk (Hrs & _ & Hr) (Hrs' & _ & Hr').
  rewrite Hs in Hrs', Hr'. split; [congruence|].
  intros idx Hb. rewrite Hrs in Hb.
  destruct (Hr idx Hb) as [Hmask Hdata].
  destruct (Hr' idx Hb) as [Hmask' Hdata']. split.
  - rewrite Hm in Hmask'.
    destruct (item (result_mask r) idx), (item (result_mask r') idx);
      try reflexivity.
    + apply (proj2 Hmask'). apply (proj1 Hmask). reflexivity.
    + symmetry. apply (proj2 Hmask). apply (proj1 Hmask'). reflexivity.
  - rewrite Hdata, Hdata'. f_equal. f_equal.
    apply reduced_ext.
    + cbn [identity_filled shape]. exact Hs.
    + cbn [identity_filled shape item]. rewrite Hs, Hm. intros j Hj.
      destruct (item (MaskedArray._mask a) j) eqn:E; [reflexivity|].
      apply Hd; assumption.
    + cbn [identity_filled shape]. rewrite Hs. exact Hk.
    + cbn [identity_filled shape]. rewrite Hs. exact Hb.
Qed.

(** X5.  The data stored under the mask does not influence [sum]: two
    arrays of one mask, shape and dtype whose data agree wherever the mask
    is unset have sums of one shape, with the same mask and the same data at
    every position. *)
Lemma sum_masked_data (a a' : MaskedArray.t T) (axis : option Z)
    (dtype : option dtype) (keepdims : bool) (k : option nat) :
  wf_array a -> wf_array a' ->
  MaskedArray._mask a' = MaskedArray._mask a ->
  MaskedArray.shape a' = MaskedArray.shape a ->
  MaskedArray.dtype a' = MaskedArray.dtype a ->
  (forall j,
      in_bounds (MaskedArray.shape a) j ->
      item (MaskedArray._mask a) j = false ->
      item (MaskedArray._data a') j = item (MaskedArray._data a) j) ->
  resolve_axis axis (ndim (MaskedArray._data a)) = Ok k ->
  exists r r',
    setup_ducktype.sum a axis dtype keepdims = Ok r /\
    setup_ducktype.sum a' axis dtype keepdims = Ok r' /\
    result_shape r' = result_shape r /\
    forall idx,
      in_bounds (result_shape r) idx ->
      item (result_mask r') idx = item (result_mask r) idx /\
      item (result_data r') idx = item (result_data r) idx.
Proof.
  intros Hw Hw' Hm Hs Hdt Hd Hk.
  assert (Hk' : resolve_axis axis (ndim (MaskedArray._data a')) = Ok k).
  { unfold ndim. unfold MaskedArray.shape in Hs. rewrite Hs. exact Hk. }
  destruct (sum_reduction a axis dtype keepdims k Hw Hk) as (r & Hr & Hred).
  destruct (sum_reduction a' axis dtype keepdims k Hw' Hk')
    as (r' & Hr' & Hred').
  rewrite Hdt in Hred'.
  exists r, r'. split; [exact Hr|]. split; [exact Hr'|].
  eapply reduction_of_masked_data; eauto.
  exact (resolve_axis_valid _ _ _ Hk).
Qed.

End Noninterference.

(** * Further properties

    ** Instances of the reductions *)

Lemma reduce_reduction_witness :
  let a := Exact.marray2 int64 2 [[1; 2]; [3; 4]]%Z
             [[true; false]; [true; true]] in
  identity (T:=Exact.xnum) np_add = Some 0%Z /\
  wf_array a /\
  writeable (MaskedArray._data a) = true /\
  resolve_axis (Some 1%Z) (ndim (MaskedArray._data a)) = Ok (Some 1) /\
  exists r,
    reduce (_Masked_BinOp__init__ np_add None) (AMaskedArray a) (Some 1%Z)
      false = Ok r /\
    reduction_of a (of_int (MaskedArray.dtype a) 0) (fun x => x)
      (uf_call np_add) (of_int (MaskedArray.dtype a) 0) (Some 1) false r.
Proof.
  intros a.
  repeat (split; [reflexivity|]).
  exact (reduce_reduction np_add 0 a (Some 1%Z) false (Some 1)
           eq_refl eq_refl eq_refl eq_refl).
Defined.

Lemma mean_reduction_witness :
  let a := Exact.marray2 float32 2 [[1; 2]; [3; 4]]%Z
             [[true; true]; [false; true]] in
  wf_array a /\
  is_float16 (MaskedArray.dtype a) = false /\
  resolve_axis (Some 1%Z) (ndim (MaskedArray._data a)) = Ok (Some 1) /\
  exists r,
    setup_ducktype.mean a (Some 1%Z) None None = Ok r /\
    mean_of a
      (if is_integer_or_bool (MaskedArray.dtype a) then astype float64
       else fun x => x)
      (if is_integer_or_bool (MaskedArray.dtype a) then float64
       else accumulator_dtype (MaskedArray.dtype a))
      (Some 1) false r.
Proof.
  intros a.
  repeat (split; [reflexivity|]).
  exact (mean_reduction a (Some 1%Z) None (Some 1) eq_refl eq_refl eq_refl).
Defined.

Lemma var_reduction_witness :
  let a := Exact.marray2 int64 2 [[1; 2]; [3; 4]]%Z
             [[false; false]; [false; false]] in
  wf_array a /\
  MaskedArray.shape a = [2; 2] /\
  resolve_axis (Some 1%Z) (ndim (MaskedArray._data a)) = Ok (Some 1) /\
  (let dx := result_type (T := Exact.xnum) int64 int64 in
   can_cast (T := Exact.xnum) (result_type (T := Exact.xnum) dx dx) dx
   = true) /\
  exists r,
    setup_ducktype.var a (Some 1%Z) (Some int64) 0 None = Ok r /\
    var_of a (astype int64) int64 int64 0 (Some 1) false r /\
    item (result_data r) [0] = Exact.of_Z 0 /\
    item (result_data r) [1] = Exact.of_Z 0.
Proof.
  intros a.
  assert (Hcast :
            let dx := result_type (T := Exact.xnum) int64 int64 in
            can_cast (T := Exact.xnum)
              (result_type (T := Exact.xnum) dx dx) dx = true)
    by reflexivity.
  do 3 (split; [reflexivity|]). split; [exact Hcast|].
  destruct (var_reduction a (Some 1%Z) (Some int64) 0 None (Some 1) 2 [2]
              eq_refl eq_refl eq_refl Hcast) as (r & Hr & Hv).
  exists r. split; [exact Hr|]. split; [exact Hv|].
  destruct Hv as (_ & _ & Hit).
  assert (Hb : forall i, i < 2 ->
             in_bounds (reduced_shape (MaskedArray.shape a) (Some 1) false)
               [i]).
  { intros i Hi. change (in_bounds [2] [i]).
    constructor; [exact Hi|constructor]. }
  split.
  - rewrite (proj2 (Hit [0] (Hb 0 ltac:(lia)))). vm_compute. reflexivity.
  - rewrite (proj2 (Hit [1] (Hb 1 ltac:(lia)))). vm_compute. reflexivity.
Defined.

Lemma dot_zero_fill_witness :
  let a := Exact.marray2 float32 2 [[1; 2]; [3; 4]]%Z
             [[true; false]; [false; false]] in
  let b := Exact.marray float32 [5; 6]%Z [false; true] in
  wf_array a /\ wf_array b /\
  MaskedArray.shape a = [2; 2] /\ MaskedArray.shape b = [2] /\
  last [2; 2] 0 = nth (List.length (@nil nat) - 1) [2] 0 /\
  exists r,
    setup_ducktype.dot (AMaskedArray a) (AMaskedArray b) = Ok r /\
    result_shape r = [2] /\
    forall idx,
      in_bounds [2] idx ->
      (item (result_mask r) idx = true <->
       forall k, k < 2 ->
         item (MaskedArray._mask a) (firstn 1 idx ++ [k]) = true \/
         item (MaskedArray._mask b) (insert_at 0 k (skipn 1 idx)) = true) /\
      item (result_data r) idx =
      fold_lane add
        (of_int (result_type (MaskedArray.dtype a) (MaskedArray.dtype b)) 0)
        (map (fun k =>
                multiply
                  (item (identity_filled a
                           (of_int (MaskedArray.dtype a) 0) true)
                     (firstn 1 idx ++ [k]))
                  (item (identity_filled b
                           (of_int (MaskedArray.dtype b) 0) true)
                     (insert_at 0 k (skipn 1 idx))))
           (seq 0 2)).
Proof.
  intros a b.
  repeat (split; [reflexivity|]).
  exact (dot_zero_fill a b 2 2 [2] [] eq_refl eq_refl eq_refl eq_refl
           eq_refl).
Defined.

Lemma sum_masked_data_witness :
  let a := Exact.marray int64 [1; 2; 3]%Z [false; true; false] in
  let a' := Exact.marray int64 [1; 7; 3]%Z [false; true; false] in
  wf_array a /\ wf_array a' /\
  MaskedArray._mask a' = MaskedArray._mask a /\
  MaskedArray.shape a' = MaskedArray.shape a /\
  MaskedArray.dtype a' = MaskedArray.dtype a /\
  (forall j,
      in_bounds (MaskedArray.shape a) j ->
      item (MaskedArray._mask a) j = false ->
      item (MaskedArray._data a') j = item (MaskedArray._data a) j) /\
  resolve_axis None (ndim (MaskedArray._data a)) = Ok None /\
  exists r r',
    setup_ducktype.sum a None None false = Ok r /\
    setup_ducktype.sum a' None None false = Ok r' /\
    result_shape r' = result_shape r /\
    forall idx,
      in_bounds (result_shape r) idx ->
      item (result_mask r') idx = item (result_mask r) idx /\
      item (result_data r') idx = item (result_data r) idx.
Proof.
  intros a a'.
  assert (Hd : forall j,
             in_bounds (MaskedArray.shape a) j ->
             item (MaskedArray._mask a) j = false ->
             item (MaskedArray._data a') j = item (MaskedArray._data a) j).
  { intros j Hj. inversion Hj as [|i n tl tls Hi Htl]; subst.
    inversion Htl; subst. destruct i as [|[|[|i]]]; cbn; try lia;
      try reflexivity; discriminate. }
  repeat (split; [reflexivity|]). split; [exact Hd|].
  split; [reflexivity|].
  exact (sum_masked_data a a' None None false None eq_refl eq_refl eq_refl
           eq_refl eq_refl Hd eq_refl).
Defined.

(** ** Reductions over the unmasked elements *)

Lemma combine_map {A B C} (g : C -> A) (h : C -> B) (l : list C) :
  combine (map g l) (map h l) = map (fun j => (g j, h j)) l.
Proof.
  induction l as [|x l IH]; cbn; [reflexivity|]. rewrite IH. reflexivity.
Qed.

Lemma reduce_result_item {B} (dt : dtype) (shp : list nat) (k : option nat)
    (keepdims : bool) (F : list nat -> B) (idx : list nat) :
  in_bounds (reduced_shape shp k keepdims) idx ->
  item (as_array (reduce_result dt shp k keepdims F)) idx = F idx.
Proof.
  assert (Hdecay : forall s : list nat,
             in_bounds s idx ->
             item (as_array (decay (mk_ndarray dt s F true))) idx = F idx).
  { intros [|n s] Hb; [|reflexivity].
    apply in_bounds_nil in Hb. subst. reflexivity. }
  unfold reduce_result, reduced_shape.
  destruct k as [k|]; destruct keepdims; intros Hb;
    try (apply Hdecay; exact Hb); [reflexivity|].
  apply in_bounds_nil in Hb. subst. reflexivity.
Qed.

Lemma fold_lane_orb_true (l : list bool) :
  fold_lane orb false l = true <-> In true l.
Proof.
  destruct (fold_lane orb false l) eqn:E.
  - split; [intros _|reflexivity].
    destruct (in_dec bool_dec true l) as [Hin|Hn]; [exact Hin|].
    assert (Hall : forall m, In m l -> m = false).
    { intros [|] Hm; [contradiction|reflexivity]. }
    apply fold_lane_orb in Hall. congruence.
  - split; [discriminate|]. intros Hin.
    apply (proj1 (fold_lane_orb l) E) in Hin. discriminate.
Qed.

Section Unmasked.
Context {T : Type} `{Kernels T}.

Lemma reduced_pairs_map (a : MaskedArray.t T) (k : option nat)
    (keepdims : bool) (idx : list nat) :
  wf_array a ->
  exists js : list (list nat),
    reduced_pairs a k keepdims idx =
    map (fun j => (item (MaskedArray._mask a) j,
                   item (MaskedArray._data a) j)) js /\
    forall A (x : ndarray A),
      shape x = MaskedArray.shape a ->
      reduced x k keepdims idx = map (item x) js.
Proof.
  intros Hw. unfold wf_array in Hw. unfold reduced_pairs, reduced.
  destruct k as [k|].
  - exists (map (fun j => insert_at k j
                            (if keepdims then remove_at k idx else idx))
              (seq 0 (nth k (MaskedArray.shape a) 0))).
    split.
    + unfold lane. rewrite Hw. unfold MaskedArray.shape.
      rewrite combine_map, map_map. reflexivity.
    + intros A x Hx. unfold lane. rewrite Hx, map_map. reflexivity.
  - exists (indices (MaskedArray.shape a)). split.
    + unfold ravel. rewrite Hw. unfold MaskedArray.shape.
      apply combine_map.
    + intros A x Hx. unfold ravel. rewrite Hx. reflexivity.
Qed.

Lemma reduced_filled (a : MaskedArray.t T) (v : T) (w : bool)
    (k : option nat) (keepdims : bool) (idx : list nat) :
  wf_array a ->
  reduced (identity_filled a v w) k keepdims idx
  = fill_lane v (reduced_pairs a k keepdims idx).
Proof.
  intros Hw.
  destruct (reduced_pairs_map a k keepdims idx Hw) as (js & -> & Hjs).
  rewrite (Hjs T (identity_filled a v w) eq_refl).
  unfold fill_lane. rewrite map_map. reflexivity.
Qed.

Lemma reduced_mask (a : MaskedArray.t T) (k : option nat)
    (keepdims : bool) (idx : list nat) :
  wf_array a ->
  reduced (MaskedArray._mask a) k keepdims idx
  = map fst (reduced_pairs a k keepdims idx).
Proof.
  intros Hw.
  destruct (reduced_pairs_map a k keepdims idx Hw) as (js & -> & Hjs).
  rewrite (Hjs bool (MaskedArray._mask a) Hw), map_map. reflexivity.
Qed.

End Unmasked.

Section AllAny.
Context {T : Type} `{Kernels T}.

(** X6.  [all] and [any] of a masked array along a valid axis, for a dtype
    in which 1 is true and 0 is false: both return a plain boolean result,
    not a masked one; an element of [all] is true exactly when every
    unmasked element of its slice is true, and an element of [any] exactly
    when some unmasked element is.  So a fully masked slice gives [True] for
    [all] and [False] for [any]. *)
Theorem all_any_unmasked (a : MaskedArray.t T) (axis : option Z)
    (keepdims : option bool) (k : option nat) :
  wf_array a ->
  resolve_axis axis (ndim (MaskedArray._data a)) = Ok k ->
  truth (of_int (MaskedArray.dtype a) 1) = true ->
  truth (of_int (MaskedArray.dtype a) 0) = false ->
  let kw := match keepdims with None => false | Some b => b end in
  exists ra ry,
    setup_ducktype.all a axis keepdims = Ok ra /\
    setup_ducktype.any a axis keepdims = Ok ry /\
    value_shape ra = reduced_shape (MaskedArray.shape a) k kw /\
    value_shape ry = reduced_shape (MaskedArray.shape a) k kw /\
    forall idx,
      in_bounds (reduced_shape (MaskedArray.shape a) k kw) idx ->
      (item (as_array ra) idx = true <->
       forall x, In x (unmasked_values (reduced_pairs a k kw idx)) ->
                 truth x = true) /\
      (item (as_array ry) idx = true <->
       exists x, In x (unmasked_values (reduced_pairs a k kw idx)) /\
                 truth x = true).
Proof.
  intros Hw Hk H1 H0 kw.
  unfold setup_ducktype.all, setup_ducktype.any. fold kw.
  rewrite !(filled_value a _ true Hw). cbn [bind].
  unfold np.all_values, np.any_values.
  rewrite !(reduce_axis_ok _ _ _ _ _ _ _ (identity_filled a _ _) k Hk).
  eexists. eexists. split; [reflexivity|]. split; [reflexivity|].
  rewrite !reduce_result_shape.
  split; [reflexivity|]. split; [reflexivity|].
  intros idx Hb.
  change (shape (identity_filled a _ _)) with (MaskedArray.shape a).
  rewrite !(reduce_result_item _ _ _ _ _ idx Hb).
  rewrite !(reduced_filled a _ _ k kw idx Hw).
  unfold fill_lane, unmasked_values. rewrite !map_map. split.
  - rewrite fold_lane_andb. split.
    + intros Hall x Hx. apply in_map_iff in Hx.
      destruct Hx as ([m y] & <- & Hin). apply filter_In in Hin.
      destruct Hin as [Hin Hm]. cbn in Hm. destruct m; [discriminate|].
      apply Hall. apply in_map_iff. exists (false, y). split;
        [reflexivity|exact Hin].
    + intros Hall b Hb'. apply in_map_iff in Hb'.
      destruct Hb' as ([m y] & <- & Hin). cbn [fst snd].
      destruct m; [exact H1|]. apply Hall. apply in_map_iff.
      exists (false, y). split; [reflexivity|].
      apply filter_In. split; [exact Hin|reflexivity].
  - rewrite fold_lane_orb_true. split.
    + intros Hin. apply in_map_iff in Hin.
      destruct Hin as ([m y] & Hy & Hin). cbn [fst snd] in Hy.
      destruct m; [congruence|]. exists y. split; [|exact Hy].
      apply in_map_iff. exists (false, y). split; [reflexivity|].
      apply filter_In. split; [exact Hin|reflexivity].
    + intros (x & Hx & Ht). apply in_map_iff in Hx.
      destruct Hx as ([m y] & <- & Hin). apply filter_In in Hin.
      destruct Hin as [Hin Hm]. cbn in Hm. destruct m; [discriminate|].
      apply in_map_iff. exists (false, y). split; [exact Ht|exact Hin].
Qed.

End AllAny.

Lemma all_any_unmasked_witness :
  let a := Exact.marray2 int64 2 [[1; 0]; [0; 0]]%Z
             [[false; true]; [true; true]] in
  wf_array a /\
  resolve_axis (Some 1%Z) (ndim (MaskedArray._data a)) = Ok (Some 1) /\
  truth (of_int (MaskedArray.dtype a) 1) = true /\
  truth (of_int (MaskedArray.dtype a) 0) = false /\
  exists ra ry,
    setup_ducktype.all a (Some 1%Z) None = Ok ra /\
    setup_ducktype.any a (Some 1%Z) None = Ok ry /\
    value_shape ra = reduced_shape (MaskedArray.shape a) (Some 1) false /\
    value_shape ry = reduced_shape (MaskedArray.shape a) (Some 1) false /\
    forall idx,
      in_bounds (reduced_shape (MaskedArray.shape a) (Some 1) false) idx ->
      (item (as_array ra) idx = true <->
       forall x,
         In x (unmasked_values (reduced_pairs a (Some 1) false idx)) ->
         truth x = true) /\
      (item (as_array ry) idx = true <->
       exists x,
         In x (unmasked_values (reduced_pairs a (Some 1) false idx)) /\
         truth x = true).
Proof.
  intros a.
  repeat (split; [reflexivity|]).
  exact (all_any_unmasked a (Some 1%Z) None (Some 1)
           eq_refl eq_refl eq_refl eq_refl).
Defined.

(** ** Extrema *)

Lemma reduce_axis_no_identity {A B} (conv : A -> B) (f : B -> B -> B)
    (dflt : B) (dt : dtype) (axis : option Z) (keepdims : bool)
    (a : ndarray A) (k : option nat) :
  resolve_axis axis (ndim a) = Ok k ->
  match k with
  | Some k => nth k (shape a) 0 <> 0
  | None => ravel a <> []
  end ->
  reduce_axis conv f None dflt dt axis keepdims a =
  Ok (reduce_result dt (shape a) k keepdims
        (fun idx => fold_lane f dflt
                      (map conv (reduced a k keepdims idx)))).
Proof.
  unfold resolve_axis, reduce_axis, ndim.
  destruct axis as [ax|].
  - destruct (shape a) as [|n s] eqn:Hs; cbn [List.length].
    + destruct ((ax =? 0) || (ax =? -1))%Z; [|discriminate].
      intros [= <-] Hne. unfold reduced, reduce_result.
      destruct (ravel a); [contradiction|].
      destruct keepdims; reflexivity.
    + destruct (normalize_axis_index ax (S (List.length s))) as [k'|e];
        cbn [bind]; [|discriminate].
      intros [= <-] Hne. unfold reduce_result, reduced.
      destruct (nth k' (n :: s) 0); [contradiction|].
      destruct keepdims; reflexivity.
  - intros [= <-] Hne. unfold reduced, reduce_result.
    destruct (ravel a); [contradiction|].
    destruct keepdims; reflexivity.
Qed.

(** Folding a kernel over a lane whose masked elements hold a neutral
    element of the kernel is folding it over the unmasked elements. *)
Lemma fold_lane_neutral {A} (f : A -> A -> A) (e : A)
    (l : list (bool * A)) :
  (forall x, f e x = x) -> (forall x, f x e = x) ->
  fold_lane f e (fill_lane e l) = fold_lane f e (unmasked_values l).
Proof.
  intros Hl Hr.
  assert (G : forall (l : list (bool * A)) acc,
             fold_left f (fill_lane e l) acc
             = fold_left f (unmasked_values l) acc).
  { clear l. unfold fill_lane, unmasked_values.
    induction l as [|[m x] l IH]; intros acc; cbn; [reflexivity|].
    destruct m; cbn; [rewrite Hr|]; apply IH. }
  assert (E : forall u : list A, fold_left f u e = fold_lane f e u).
  { intros [|y u]; cbn; [reflexivity|]. rewrite Hl. reflexivity. }
  destruct l as [|[m x] l]; [reflexivity|].
  unfold fill_lane, unmasked_values in *. cbn [map filter fst snd negb].
  destruct m; cbn [negb map fold_lane].
  - rewrite G. apply E.
  - apply G.
Qed.

Lemma unmasked_values_nil {A} (l : list (bool * A)) :
  unmasked_values l = [] <-> (forall m, In m (map fst l) -> m = true).
Proof.
  unfold unmasked_values. induction l as [|[m x] l IH]; cbn.
  - split; [intros _ m []|reflexivity].
  - destruct m; cbn.
    + rewrite IH. split.
      * intros Hall m [<-|Hm]; [reflexivity|apply Hall; exact Hm].
      * intros Hall m Hm. apply Hall. right. exact Hm.
    + split; [discriminate|]. intros Hall.
      specialize (Hall false (or_introl eq_refl)). discriminate.
Qed.

Lemma fold_lane_nonempty {A} (f : A -> A -> A) (d d' : A) (l : list A) :
  l <> [] -> fold_lane f d l = fold_lane f d' l.
Proof. destruct l; [contradiction|reflexivity]. Qed.

Lemma reduced_nonempty {A} (a : ndarray A) (k : option nat)
    (keepdims : bool) (idx : list nat) :
  match k with
  | Some k => nth k (shape a) 0 <> 0
  | None => ravel a <> []
  end ->
  reduced a k keepdims idx <> [].
Proof.
  unfold reduced, lane. destruct k as [k|]; [|exact (fun h => h)].
  destruct (nth k (shape a) 0); [contradiction|]. discriminate.
Qed.

Section Extrema.
Context {T : Type} `{Kernels T}.

Lemma extremum_unmasked (mm : string) (kernel : T -> T -> T)
    (a : MaskedArray.t T) (axis : option Z) (kw : bool) (k : option nat)
    (v : T) :
  wf_array a ->
  resolve_axis axis (ndim (MaskedArray._data a)) = Ok k ->
  match k with
  | Some k => nth k (MaskedArray.shape a) 0 <> 0
  | None => ravel (MaskedArray._data a) <> []
  end ->
  _get_fill_value (MaskedArray.dtype a) None (Some mm)
    = Ok (TableEntry v) ->
  (forall x, kernel v x = x) -> (forall x, kernel x v = x) ->
  exists r,
    ('(filled, a) <- MaskedArray.filled a None (Some mm) true ;;
     result_data <- np.extremum_reduce kernel
                      (of_int (MaskedArray.dtype a) 0) filled axis kw ;;
     result_mask <- np.all (MaskedArray._mask a) axis kw ;;
     maskedarray_or_scalar result_data result_mask (Some cls_MaskedArray))
    = Ok r /\
    result_shape r = reduced_shape (MaskedArray.shape a) k kw /\
    forall idx,
      in_bounds (reduced_shape (MaskedArray.shape a) k kw) idx ->
      (item (result_mask r) idx = true <->
       unmasked_values (reduced_pairs a k kw idx) = []) /\
      item (result_data r) idx =
      fold_lane kernel v (unmasked_values (reduced_pairs a k kw idx)).
Proof.
  intros Hw Hk Hne Hfv Hl Hr.
  rewrite (filled_resolved a None (Some mm) true v Hw Hfv). cbn [bind].
  rewrite filled_value_mask. unfold np.extremum_reduce, np.all.
  rewrite (reduce_axis_ok _ _ _ _ _ _ _ (MaskedArray._mask a) k
             (wf_resolve_axis_mask a axis k Hw Hk)).
  assert (Hne' : match k with
                 | Some k => nth k (shape (identity_filled a v
                     (negb (true && writeable (MaskedArray._data a))))) 0
                             <> 0
                 | None => ravel (identity_filled a v
                     (negb (true && writeable (MaskedArray._data a))))
                           <> []
                 end).
  { destruct k as [k|]; [exact Hne|].
    unfold ravel in *. cbn [identity_filled shape].
    unfold MaskedArray.shape.
    destruct (indices (shape (MaskedArray._data a)));
      [exact Hne|discriminate]. }
  rewrite (reduce_axis_no_identity _ _ _ _ _ _ (identity_filled a v _) k
             Hk Hne').
  cbn [bind].
  pose proof Hw as Hs. unfold wf_array in Hs. rewrite Hs.
  change (shape (identity_filled a v _)) with (MaskedArray.shape a).
  change (shape (MaskedArray._data a)) with (MaskedArray.shape a).
  match goal with
  | |- context [maskedarray_or_scalar (reduce_result ?dt _ _ _ ?F)
                  (reduce_result bool_ _ _ _ ?G) _] =>
      destruct (reduced_pair dt (MaskedArray.shape a) k kw F G)
        as (r & Hrr & Hsh & _ & _ & Hit)
  end.
  exists r. split; [exact Hrr|]. split; [exact Hsh|].
  intros idx Hb. destruct (Hit idx Hb) as [Hm Hd]. split.
  - rewrite Hm, map_id, fold_lane_andb, unmasked_values_nil.
    rewrite (reduced_mask a k kw idx Hw). reflexivity.
  - rewrite Hd, map_id.
    rewrite (fold_lane_nonempty kernel _ v)
      by (apply reduced_nonempty; exact Hne').
    rewrite (reduced_filled a v _ k kw idx Hw).
    apply fold_lane_neutral; assumption.
Qed.

End Extrema.

Section MaxMin.
Context {T : Type} `{Kernels T}.

(** X7.  [max] and [min] of a masked array along a valid axis that is not
    empty, for a dtype with extremum fillers that are neutral for the
    kernels of [np.maximum] and [np.minimum]: the result element is the
    extremum of the unmasked elements of its slice alone (the filler when
    there is none), and it is masked exactly when the slice has no unmasked
    element. *)
Theorem max_min_unmasked (maximum minimum : T -> T -> T)
    (a : MaskedArray.t T) (axis : option Z) (keepdims : option bool)
    (k : option nat) (lo hi : T) :
  wf_array a ->
  resolve_axis axis (ndim (MaskedArray._data a)) = Ok k ->
  match k with
  | Some k => nth k (MaskedArray.shape a) 0 <> 0
  | None => ravel (MaskedArray._data a) <> []
  end ->
  _max_filler (MaskedArray.dtype a) = Some lo ->
  _min_filler (MaskedArray.dtype a) = Some hi ->
  (forall x, maximum lo x = x) -> (forall x, maximum x lo = x) ->
  (forall x, minimum hi x = x) -> (forall x, minimum x hi = x) ->
  let kw := match keepdims with None => false | Some b => b end in
  exists rmax rmin,
    setup_ducktype.max maximum a axis keepdims = Ok rmax /\
    setup_ducktype.min minimum a axis keepdims = Ok rmin /\
    result_shape rmax = reduced_shape (MaskedArray.shape a) k kw /\
    result_shape rmin = reduced_shape (MaskedArray.shape a) k kw /\
    forall idx,
      in_bounds (reduced_shape (MaskedArray.shape a) k kw) idx ->
      let U := unmasked_values (reduced_pairs a k kw idx) in
      (item (result_mask rmax) idx = true <-> U = []) /\
      (item (result_mask rmin) idx = true <-> U = []) /\
      item (result_data rmax) idx = fold_lane maximum lo U /\
      item (result_data rmin) idx = fold_lane minimum hi U.
Proof.
  intros Hw Hk Hne Hlo Hhi Hmaxl Hmaxr Hminl Hminr kw.
  assert (Hflo : _get_fill_value (MaskedArray.dtype a) None
                   (Some "max"%string) = Ok (TableEntry lo)).
  { unfold _get_fill_value. cbn. rewrite Hlo. reflexivity. }
  destruct (extremum_unmasked "max" maximum a axis kw k lo Hw Hk Hne Hflo
              Hmaxl Hmaxr) as (rmax & Hrmax & Hsmax & Himax).
  destruct (extremum_unmasked "min" minimum a axis kw k hi Hw Hk Hne
              (min_fill_value _ hi Hhi) Hminl Hminr)
    as (rmin & Hrmin & Hsmin & Himin).
  exists rmax, rmin.
  split; [exact Hrmax|]. split; [exact Hrmin|].
  split; [exact Hsmax|]. split; [exact Hsmin|].
  intros idx Hb U.
  destruct (Himax idx Hb) as [Hm1 Hd1].
  destruct (Himin idx Hb) as [Hm2 Hd2].
  repeat split; try apply Hm1; try apply Hm2; assumption.
Qed.

End MaxMin.

Lemma max_min_unmasked_witness :
  let a := Exact.marray2 complex128 2 [[1; 2]; [3; 4]]%Z
             [[false; true]; [true; true]] in
  wf_array a /\
  resolve_axis (Some 1%Z) (ndim (MaskedArray._data a)) = Ok (Some 1) /\
  nth 1 (MaskedArray.shape a) 0 <> 0 /\
  _max_filler (MaskedArray.dtype a) = Some Exact.CNegInf /\
  _min_filler (MaskedArray.dtype a) = Some Exact.CPosInf /\
  (forall x, Exact.xmaximum Exact.CNegInf x = x) /\
  (forall x, Exact.xmaximum x Exact.CNegInf = x) /\
  (forall x, Exact.xminimum Exact.CPosInf x = x) /\
  (forall x, Exact.xminimum x Exact.CPosInf = x) /\
  exists rmax rmin,
    setup_ducktype.max Exact.xmaximum a (Some 1%Z) None = Ok rmax /\
    setup_ducktype.min Exact.xminimum a (Some 1%Z) None = Ok rmin /\
    result_shape rmax = reduced_shape (MaskedArray.shape a) (Some 1) false /\
    result_shape rmin = reduced_shape (MaskedArray.shape a) (Some 1) false /\
    forall idx,
      in_bounds (reduced_shape (MaskedArray.shape a) (Some 1) false) idx ->
      let U := unmasked_values (reduced_pairs a (Some 1) false idx) in
      (item (result_mask rmax) idx = true <-> U = []) /\
      (item (result_mask rmin) idx = true <-> U = []) /\
      item (result_data rmax) idx = fold_lane Exact.xmaximum Exact.CNegInf U /\
      item (result_data rmin) idx = fold_lane Exact.xminimum Exact.CPosInf U.
Proof.
  intros a.
  assert (Hne : nth 1 (MaskedArray.shape a) 0 <> 0) by discriminate.
  assert (H1 : forall x, Exact.xmaximum Exact.CNegInf x = x)
    by (intros []; reflexivity).
  assert (H2 : forall x, Exact.xmaximum x Exact.CNegInf = x)
    by (intros []; reflexivity).
  assert (H3 : forall x, Exact.xminimum Exact.CPosInf x = x)
    by (intros []; reflexivity).
  assert (H4 : forall x, Exact.xminimum x Exact.CPosInf = x)
    by (intros []; reflexivity).
  split; [reflexivity|]. split; [reflexivity|]. split; [exact Hne|].
  split; [reflexivity|]. split; [reflexivity|].
  split; [exact H1|]. split; [exact H2|]. split; [exact H3|].
  split; [exact H4|].
  exact (max_min_unmasked Exact.xmaximum Exact.xminimum a (Some 1%Z) None
           (Some 1) Exact.CNegInf Exact.CPosInf eq_refl eq_refl Hne
           eq_refl eq_refl H1 H2 H3 H4).
Defined.

(** ** Sums and products of the unmasked elements *)

Section SumOfUnmasked.
Context {T : Type} `{Kernels T}.

Lemma reduction_of_unmasked (a : MaskedArray.t T) (g : T -> T -> T)
    (e : T) (k : option nat) (keepdims : bool) (r : masked T) :
  wf_array a ->
  (forall x, g e x = x) -> (forall x, g x e = x) ->
  reduction_of a e (fun x => x) g e k keepdims r ->
  forall idx,
    in_bounds (reduced_shape (MaskedArray.shape a) k keepdims) idx ->
    (item (result_mask r) idx = true <->
     unmasked_values (reduced_pairs a k keepdims idx) = []) /\
    item (result_data r) idx =
    fold_lane g e (unmasked_values (reduced_pairs a k keepdims idx)).
Proof.
  intros Hw Hl Hr (_ & _ & Hit) idx Hb.
  destruct (Hit idx Hb) as [Hm Hd]. split.
  - rewrite Hm, unmasked_values_nil, (reduced_mask a k keepdims idx Hw).
    reflexivity.
  - rewrite Hd, map_id, (reduced_filled a e true k keepdims idx Hw).
    apply fold_lane_neutral; assumption.
Qed.

(** X8.  [sum] and [prod] with the default [dtype], along a valid axis,
    when 0 is neutral for the addition kernel and 1 for the multiplication
    kernel: the result element is the sum (the product) of the unmasked
    elements of its slice alone, 0 (1) when there is none, and it is masked
    exactly when the slice has no unmasked element. *)
Theorem sum_prod_unmasked (a : MaskedArray.t T) (axis : option Z)
    (keepdims : bool) (k : option nat) (zero one : T) :
  wf_array a ->
  resolve_axis axis (ndim (MaskedArray._data a)) = Ok k ->
  of_int (MaskedArray.dtype a) 0 = zero ->
  of_int (accumulator_dtype (MaskedArray.dtype a)) 0 = zero ->
  of_int (MaskedArray.dtype a) 1 = one ->
  of_int (accumulator_dtype (MaskedArray.dtype a)) 1 = one ->
  (forall x, add zero x = x) -> (forall x, add x zero = x) ->
  (forall x, multiply one x = x) -> (forall x, multiply x one = x) ->
  exists rs rp,
    setup_ducktype.sum a axis None keepdims = Ok rs /\
    setup_ducktype.prod a axis None keepdims = Ok rp /\
    result_shape rs = reduced_shape (MaskedArray.shape a) k keepdims /\
    result_shape rp = reduced_shape (MaskedArray.shape a) k keepdims /\
    forall idx,
      in_bounds (reduced_shape (MaskedArray.shape a) k keepdims) idx ->
      let U := unmasked_values (reduced_pairs a k keepdims idx) in
      (item (result_mask rs) idx = true <-> U = []) /\
      (item (result_mask rp) idx = true <-> U = []) /\
      item (result_data rs) idx = fold_lane add zero U /\
      item (result_data rp) idx = fold_lane multiply one U.
Proof.
  intros Hw Hk Hz Hz' Ho Ho' Hal Har Hml Hmr.
  destruct (sum_reduction a axis None keepdims k Hw Hk) as (rs & Hrs & Hs).
  destruct (prod_reduction a axis None keepdims k Hw Hk) as (rp & Hrp & Hp).
  rewrite Hz, Hz' in Hs. rewrite Ho, Ho' in Hp.
  exists rs, rp. split; [exact Hrs|]. split; [exact Hrp|].
  split; [exact (proj1 Hs)|]. split; [exact (proj1 Hp)|].
  intros idx Hb U.
  destruct (reduction_of_unmasked a add zero k keepdims rs Hw Hal Har Hs
              idx Hb) as [Hm1 Hd1].
  destruct (reduction_of_unmasked a multiply one k keepdims rp Hw Hml Hmr Hp
              idx Hb) as [Hm2 Hd2].
  repeat split; try apply Hm1; try apply Hm2; assumption.
Qed.

End SumOfUnmasked.

Lemma sum_prod_unmasked_witness :
  let a := Integral.marray2 int64 2 [[1; 2]; [3; 4]]%Z
             [[false; true]; [true; true]] in
  wf_array a /\
  resolve_axis (Some 1%Z) (ndim (MaskedArray._data a)) = Ok (Some 1) /\
  of_int (MaskedArray.dtype a) 0 = 0%Z /\
  of_int (accumulator_dtype (MaskedArray.dtype a)) 0 = 0%Z /\
  of_int (MaskedArray.dtype a) 1 = 1%Z /\
  of_int (accumulator_dtype (MaskedArray.dtype a)) 1 = 1%Z /\
  (forall x, add 0%Z x = x) /\ (forall x, add x 0%Z = x) /\
  (forall x, multiply 1%Z x = x) /\ (forall x, multiply x 1%Z = x) /\
  exists rs rp,
    setup_ducktype.sum a (Some 1%Z) None false = Ok rs /\
    setup_ducktype.prod a (Some 1%Z) None false = Ok rp /\
    result_shape rs = reduced_shape (MaskedArray.shape a) (Some 1) false /\
    result_shape rp = reduced_shape (MaskedArray.shape a) (Some 1) false /\
    forall idx,
      in_bounds (reduced_shape (MaskedArray.shape a) (Some 1) false) idx ->
      let U := unmasked_values (reduced_pairs a (Some 1) false idx) in
      (item (result_mask rs) idx = true <-> U = []) /\
      (item (result_mask rp) idx = true <-> U = []) /\
      item (result_data rs) idx = fold_lane add 0%Z U /\
      item (result_data rp) idx = fold_lane multiply 1%Z U.
Proof.
  intros a.
  pose proof Z.add_0_l as Hal. pose proof Z.add_0_r as Har.
  pose proof Z.mul_1_l as Hml. pose proof Z.mul_1_r as Hmr.
  repeat (split; [first [assumption | reflexivity]|]).
  exact (sum_prod_unmasked a (Some 1%Z) false (Some 1) 0%Z 1%Z
           eq_refl eq_refl eq_refl eq_refl eq_refl eq_refl
           Z.add_0_l Z.add_0_r Z.mul_1_l Z.mul_1_r).
Defined.

(** ** Cumulative sums and products *)

Section Cumulative.
Context {T : Type} `{Kernels T}.

Lemma prefix_mask (l : list (bool * T)) (j : nat) :
  negb (fold_lane orb false
          (map (fun b : bool => b)
             (firstn j (map negb (map fst l))))) = true <->
  unmasked_values (firstn j l) = [].
Proof.
  rewrite negb_true_iff, fold_lane_orb, unmasked_values_nil.
  rewrite map_id, <- !firstn_map. split.
  - intros Hall m Hm. specialize (Hall (negb m)).
    destruct m; [reflexivity|]. symmetry. apply Hall.
    rewrite firstn_map. apply in_map. exact Hm.
  - intros Hall m Hm. rewrite firstn_map in Hm.
    apply in_map_iff in Hm. destruct Hm as (b & <- & Hb).
    rewrite (Hall b Hb). reflexivity.
Qed.

Lemma lane_logical_not (m : ndarray bool) (k : nat) (p : list nat) :
  lane (np.logical_not m) k p = map negb (lane m k p).
Proof.
  unfold lane, np.logical_not, elementwise1. cbn [shape item].
  rewrite map_map. reflexivity.
Qed.

Lemma cumulate_prefix (f : T -> T -> T) (e : Z) (a : MaskedArray.t T)
    (axis : Z) (dtype : option dtype) (k : nat) :
  wf_array a ->
  normalize_axis_index axis (ndim (MaskedArray._data a)) = Ok k ->
  exists r,
    ('(filled, a) <- MaskedArray.filled a
                       (Some (PyInt e)) None true ;;
     result_data <- np.cumulate f e filled axis dtype ;;
     result_mask <- np.accumulate (fun b : bool => b) orb false bool_ axis
                      (np.logical_not (MaskedArray._mask a)) ;;
     let result_mask := setup_ducktype._inplace_not (NDArray result_mask) in
     maskedarray_or_scalar (NDArray result_data) result_mask
       (Some cls_MaskedArray)) = Ok (RArray r) /\
    MaskedArray.shape r = MaskedArray.shape a /\
    shape (MaskedArray._mask r) = MaskedArray.shape a /\
    forall idx,
      let P := firstn (S (nth k idx 0))
                 (lane_pairs a k (remove_at k idx)) in
      (item (MaskedArray._mask r) idx = true <-> unmasked_values P = []) /\
      item (MaskedArray._data r) idx =
      fold_lane f
        (of_int (match dtype with
                 | Some dt => dt
                 | None => accumulator_dtype (MaskedArray.dtype a)
                 end) e)
        (map (match dtype with Some dt => astype dt | None => fun x => x end)
           (fill_lane (of_int (MaskedArray.dtype a) e) P)).
Proof.
  intros Hw Hk.
  pose proof (normalize_axis_index_lt _ _ _ Hk) as Hlt. unfold ndim in Hlt.
  destruct (shape (MaskedArray._data a)) as [|n s] eqn:Hs;
    [cbn in Hlt; lia|].
  rewrite (filled_value a _ true Hw). cbn [bind].
  rewrite filled_value_mask.
  unfold np.cumulate, np.accumulate, ndim.
  cbn [identity_filled shape np.logical_not elementwise1].
  pose proof Hw as Hm. unfold wf_array in Hm. unfold MaskedArray.shape.
  rewrite Hm, Hs. unfold ndim in Hk. rewrite Hs in Hk. rewrite Hk.
  cbn [bind setup_ducktype._inplace_not setup_ducktype.value_map].
  unfold maskedarray_or_scalar, construct, MaskedArray.__init__.
  cbn [is_duckscalar ArrayType as_array elementwise1 shape bind].
  rewrite shape_eqb_refl.
  eexists. split; [reflexivity|].
  cbn [MaskedArray._data MaskedArray._mask shape item].
  split; [reflexivity|]. split; [reflexivity|].
  intros idx. unfold np.accumulated. split.
  - cbn [elementwise1 item]. rewrite lane_logical_not.
    rewrite (lane_mask a k _ Hw). apply prefix_mask.
  - match goal with
    | |- context [lane ?x k (remove_at k idx)] =>
        change (lane x k (remove_at k idx))
          with (lane (identity_filled a
                        (of_int (MaskedArray.dtype a) e) true) k
                  (remove_at k idx))
    end.
    rewrite (lane_filled a _ true k _ Hw).
    unfold fill_lane. rewrite firstn_map. reflexivity.
Qed.

End Cumulative.

Section CumulativeResults.
Context {T : Type} `{Kernels T}.

(** X9.  [cumsum] and [cumprod] of a masked array of one dimension at
    least, along a valid axis: the result has the shape of the array; its
    element at a position cumulates the lane up to that position with the
    masked elements taken as 0 (as 1 for the product), and it is masked
    exactly when every element of the lane up to that position is masked.
    So once an unmasked element has been met the rest of the lane is
    unmasked. *)
Theorem cumsum_cumprod_prefix (a : MaskedArray.t T) (axis : Z)
    (dtype : option dtype) (k : nat) :
  wf_array a ->
  normalize_axis_index axis (ndim (MaskedArray._data a)) = Ok k ->
  let dt := match dtype with
            | Some dt => dt
            | None => accumulator_dtype (MaskedArray.dtype a)
            end in
  let conv := match dtype with
              | Some dt => astype dt
              | None => fun x => x
              end in
  exists rs rp,
    setup_ducktype.cumsum a axis dtype = Ok (RArray rs) /\
    setup_ducktype.cumprod a axis dtype = Ok (RArray rp) /\
    MaskedArray.shape rs = MaskedArray.shape a /\
    MaskedArray.shape rp = MaskedArray.shape a /\
    forall idx,
      let P := firstn (S (nth k idx 0))
                 (lane_pairs a k (remove_at k idx)) in
      (item (MaskedArray._mask rs) idx = true <-> unmasked_values P = []) /\
      (item (MaskedArray._mask rp) idx = true <-> unmasked_values P = []) /\
      item (MaskedArray._data rs) idx =
        fold_lane add (of_int dt 0)
          (map conv (fill_lane (of_int (MaskedArray.dtype a) 0) P)) /\
      item (MaskedArray._data rp) idx =
        fold_lane multiply (of_int dt 1)
          (map conv (fill_lane (of_int (MaskedArray.dtype a) 1) P)).
Proof.
  intros Hw Hk dt conv.
  destruct (cumulate_prefix add 0 a axis dtype k Hw Hk)
    as (rs & Hrs & Hss & _ & His).
  destruct (cumulate_prefix multiply 1 a axis dtype k Hw Hk)
    as (rp & Hrp & Hsp & _ & Hip).
  exists rs, rp. split; [exact Hrs|]. split; [exact Hrp|].
  split; [exact Hss|]. split; [exact Hsp|].
  intros idx P. destruct (His idx) as [Hm1 Hd1].
  destruct (Hip idx) as [Hm2 Hd2].
  split; [exact Hm1|]. split; [exact Hm2|]. split; [exact Hd1|exact Hd2].
Qed.

End CumulativeResults.

Lemma cumsum_cumprod_prefix_witness :
  let a := Exact.marray int64 [1; 2; 3]%Z [true; false; true] in
  wf_array a /\
  normalize_axis_index (-1) (ndim (MaskedArray._data a)) = Ok 0 /\
  exists rs rp,
    setup_ducktype.cumsum a (-1) None = Ok (RArray rs) /\
    setup_ducktype.cumprod a (-1) None = Ok (RArray rp) /\
    MaskedArray.shape rs = MaskedArray.shape a /\
    MaskedArray.shape rp = MaskedArray.shape a /\
    forall idx,
      let P := firstn (S (nth 0 idx 0))
                 (lane_pairs a 0 (remove_at 0 idx)) in
      (item (MaskedArray._mask rs) idx = true <-> unmasked_values P = []) /\
      (item (MaskedArray._mask rp) idx = true <-> unmasked_values P = []) /\
      item (MaskedArray._data rs) idx =
        fold_lane add (of_int (accumulator_dtype (MaskedArray.dtype a)) 0)
          (map (fun x => x) (fill_lane (of_int (MaskedArray.dtype a) 0) P)) /\
      item (MaskedArray._data rp) idx =
        fold_lane multiply
          (of_int (accumulator_dtype (MaskedArray.dtype a)) 1)
          (map (fun x => x) (fill_lane (of_int (MaskedArray.dtype a) 1) P)).
Proof.
  intros a. split; [reflexivity|]. split; [reflexivity|].
  exact (cumsum_cumprod_prefix a (-1) None 0 eq_refl eq_refl).
Defined.

(** ** The two sorts *)

Section TwoSorts.
Context {T : Type} `{Kernels T}.

(** X10.  For a masked array whose dtype has a min-filler, along a valid
    axis: the function [sort] returns on read-only as on writeable arrays;
    the in-place method [MaskedArray.sort] on writeable data and mask leaves
    the array with exactly the data and the mask that the function returns,
    and on read-only data it raises [ValueError]. *)
Theorem sort_in_place_agrees (a : MaskedArray.t T) (axis : Z) (k : nat)
    (v : T) :
  wf_array a ->
  _min_filler (MaskedArray.dtype a) = Some v ->
  normalize_axis_index axis (ndim (MaskedArray._data a)) = Ok k ->
  exists r,
    setup_ducktype.sort a axis = Ok (RArray r) /\
    (writeable (MaskedArray._data a) = false ->
     MaskedArray.sort a axis = Raise ValueError) /\
    (writeable (MaskedArray._data a) = true ->
     writeable (MaskedArray._mask a) = true ->
     exists a',
       MaskedArray.sort a axis = Ok a' /\
       MaskedArray.shape a' = MaskedArray.shape r /\
       shape (MaskedArray._mask a') = shape (MaskedArray._mask r) /\
       MaskedArray.dtype a' = MaskedArray.dtype r /\
       forall idx,
         item (MaskedArray._data a') idx = item (MaskedArray._data r) idx /\
         item (MaskedArray._mask a') idx = item (MaskedArray._mask r) idx).
Proof.
  intros Hw Hv Hk.
  assert (Hkm : normalize_axis_index axis (ndim (MaskedArray._mask a)) = Ok k).
  { unfold ndim. unfold wf_array in Hw. rewrite Hw. exact Hk. }
  unfold setup_ducktype.sort.
  rewrite (filled_resolved a None _ true v Hw (min_fill_value _ v Hv)).
  cbn [bind]. rewrite filled_value_mask.
  unfold np.sort at 1.
  change (ndim (identity_filled a v
                  (negb (true && writeable (MaskedArray._data a)))))
    with (ndim (MaskedArray._data a)).
  rewrite Hk. cbn [bind]. unfold np.sort. rewrite Hkm. cbn [bind].
  unfold maskedarray_or_scalar, construct, MaskedArray.__init__.
  cbn [is_duckscalar ArrayType as_array shape identity_filled bind].
  pose proof Hw as Hs. unfold wf_array in Hs. rewrite Hs.
  unfold MaskedArray.shape. rewrite shape_eqb_refl. cbn [bind].
  eexists. split; [reflexivity|]. split.
  - intros Hro. unfold MaskedArray.sort. rewrite Hv. cbn [bind].
    unfold setitem_mask. rewrite Hro. reflexivity.
  - intros Hwd Hwm. unfold MaskedArray.sort. rewrite Hv. cbn [bind].
    unfold setitem_mask. rewrite Hwd. cbn [negb].
    rewrite Hs, shape_eqb_refl. cbn [bind].
    unfold np.sort_inplace. cbn [writeable negb]. rewrite Hwm. cbn [negb].
    unfold np.sort, ndim. cbn [shape]. unfold ndim in Hk, Hkm.
    rewrite Hk, Hkm. cbn [bind].
    eexists. split; [reflexivity|].
    cbn [MaskedArray._data MaskedArray._mask MaskedArray.shape
         MaskedArray.dtype shape dtype_of item].
    repeat split. exact Hs.
Qed.

End TwoSorts.

Lemma sort_in_place_agrees_witness :
  let a := Exact.marray int8 [3; 9; 1]%Z [false; true; false] in
  wf_array a /\
  _min_filler (MaskedArray.dtype a) = Some (Exact.of_Z 127) /\
  normalize_axis_index (-1) (ndim (MaskedArray._data a)) = Ok 0 /\
  exists r,
    setup_ducktype.sort a (-1) = Ok (RArray r) /\
    (writeable (MaskedArray._data a) = false ->
     MaskedArray.sort a (-1) = Raise ValueError) /\
    (writeable (MaskedArray._data a) = true ->
     writeable (MaskedArray._mask a) = true ->
     exists a',
       MaskedArray.sort a (-1) = Ok a' /\
       MaskedArray.shape a' = MaskedArray.shape r /\
       shape (MaskedArray._mask a') = shape (MaskedArray._mask r) /\
       MaskedArray.dtype a' = MaskedArray.dtype r /\
       forall idx,
         item (MaskedArray._data a') idx = item (MaskedArray._data r) idx /\
         item (MaskedArray._mask a') idx = item (MaskedArray._mask r) idx).
Proof.
  intros a. repeat (split; [reflexivity|]).
  exact (sort_in_place_agrees a (-1) 0 (Exact.of_Z 127)
           eq_refl eq_refl eq_refl).
Defined.

(** ** Filling *)

Section Filling.
Context {T : Type} `{Kernels T}.

(** X11.  [filled] of a masked array (mask and data of one shape) with a
    fill value.  When the dtype can store the fill value, as the element
    [c], the call returns the data with [c] at the masked positions and the
    data of the array elsewhere.  Without [view], or on read-only data, the
    result is a fresh writeable copy and the array is left as it was.  With
    [view] on writeable data the result is read-only and [c] is stored into
    the array itself: its own masked positions hold [c] afterwards, its
    unmasked data and its mask are unchanged.  When the dtype cannot store
    the fill value, the call raises the error of the conversion. *)
Theorem filled_view_aliasing (a : MaskedArray.t T) (fv : fill T)
    (view : bool) :
  wf_array a ->
  match stored (MaskedArray.dtype a) fv with
  | Ok c =>
      exists d a',
        MaskedArray.filled a (Some fv) None view = Ok (d, a') /\
        shape d = MaskedArray.shape a /\
        dtype_of d = MaskedArray.dtype a /\
        (forall idx,
            item d idx = if item (MaskedArray._mask a) idx then c
                         else item (MaskedArray._data a) idx) /\
        MaskedArray._mask a' = MaskedArray._mask a /\
        (forall idx,
            item (MaskedArray._mask a) idx = false ->
            item (MaskedArray._data a') idx
            = item (MaskedArray._data a) idx) /\
        (view && writeable (MaskedArray._data a) = false ->
         a' = a /\ writeable d = true) /\
        (view && writeable (MaskedArray._data a) = true ->
         writeable d = false /\
         forall idx, item (MaskedArray._data a') idx = item d idx)
  | Raise e => MaskedArray.filled a (Some fv) None view = Raise e
  end.
Proof.
  intros Hw. destruct (stored (MaskedArray.dtype a) fv) as [c|e] eqn:Hc.
  - rewrite (filled_stored a (Some fv) None view fv c Hw eq_refl Hc).
    eexists. eexists. split; [reflexivity|].
    cbn [identity_filled shape dtype_of item writeable].
    split; [reflexivity|]. split; [reflexivity|]. split; [reflexivity|].
    destruct (view && writeable (MaskedArray._data a)).
    + cbn [MaskedArray._mask MaskedArray._data identity_filled item].
      split; [reflexivity|]. split.
      * intros idx Hm. rewrite Hm. reflexivity.
      * split; [discriminate|]. intros _. split; reflexivity.
    + split; [reflexivity|]. split; [reflexivity|].
      split; [intros _; split; reflexivity|discriminate].
  - unfold MaskedArray.filled. cbn [_get_fill_value bind]. rewrite Hc.
    destruct (view && writeable (MaskedArray._data a)); reflexivity.
Qed.

(** X12.  The fill value and [minmax] exclude each other, and [minmax] is
    ['max'] or ['min']: for every masked array and every masked scalar,
    [filled] raises [Exception] when a fill value is given together with
    any [minmax], and [ValueError] for a [minmax] that is neither ['max']
    nor ['min']. *)
Theorem fill_value_errors (a : MaskedArray.t T) (sc : MaskedScalar.t T)
    (fv : fill T) (mm ms : string) (view : bool) :
  String.eqb mm "max" = false ->
  String.eqb mm "min" = false ->
  MaskedArray.filled a (Some fv) (Some ms) view = Raise Exception /\
  MaskedArray.filled a None (Some mm) view = Raise ValueError /\
  MaskedScalar.filled sc (Some fv) (Some ms) = Raise Exception /\
  MaskedScalar.filled sc None (Some mm) = Raise ValueError.
Proof.
  intros Hmax Hmin.
  unfold MaskedArray.filled, MaskedScalar.filled, _get_fill_value.
  rewrite Hmax, Hmin. cbn [bind].
  destruct (view && writeable (MaskedArray._data a)); repeat split.
Qed.

End Filling.

Lemma filled_view_aliasing_witness :
  let a := Exact.marray int64 [1; 2; 3]%Z [false; true; false] in
  let fv := Given (Exact.Fin (3 # 2)) in
  wf_array a /\
  exists d a',
    MaskedArray.filled a (Some fv) None true = Ok (d, a') /\
    shape d = MaskedArray.shape a /\
    dtype_of d = MaskedArray.dtype a /\
    (forall idx,
        item d idx = if item (MaskedArray._mask a) idx then Exact.of_Z 1
                     else item (MaskedArray._data a) idx) /\
    MaskedArray._mask a' = MaskedArray._mask a /\
    (forall idx,
        item (MaskedArray._mask a) idx = false ->
        item (MaskedArray._data a') idx = item (MaskedArray._data a) idx) /\
    (true && writeable (MaskedArray._data a) = false ->
     a' = a /\ writeable d = true) /\
    (true && writeable (MaskedArray._data a) = true ->
     writeable d = false /\
     forall idx, item (MaskedArray._data a') idx = item d idx).
Proof.
  intros a fv. split; [reflexivity|].
  exact (filled_view_aliasing a fv true eq_refl).
Defined.

Lemma fill_value_errors_witness :
  let a := Exact.marray int64 [1; 2]%Z [false; true] in
  let sc := MaskedScalar.mk (Exact.of_Z 1) true int64 in
  String.eqb "mean" "max" = false /\
  String.eqb "mean" "min" = false /\
  MaskedArray.filled a (Some (PyInt 0)) (Some "min"%string) false
    = Raise Exception /\
  MaskedArray.filled a None (Some "mean"%string) false = Raise ValueError /\
  MaskedScalar.filled sc (Some (PyInt 0)) (Some "min"%string)
    = Raise Exception /\
  MaskedScalar.filled sc None (Some "mean"%string) = Raise ValueError.
Proof.
  intros a sc. do 2 (split; [reflexivity|]).
  exact (fill_value_errors a sc (PyInt 0) "mean" "min" false
           eq_refl eq_refl).
Defined.

(** ** Binary operations into an output array *)

Section OutputArray.
Context {T : Type} `{Kernels T}.

(** X13.  A binary operation on two masked arrays of one shape with an
    output operand.  A masked scalar as [out] raises [ValueError] ("out
    must be a MaskedArray"); a masked array of that shape with read-only
    mask or data raises [ValueError]; a writeable one to whose dtype the
    result dtype does not cast under the rule 'same_kind' raises
    [UFuncTypeError]; otherwise it receives the result: it keeps its dtype,
    its mask becomes the OR of the operand masks and its data the kernel
    applied to the operand data, cast into its dtype.  The operands may be
    the output array itself. *)
Theorem call_with_out (self : _Masked_BinOp T) (x y o : MaskedArray.t T)
    (sc : MaskedScalar.t T) (n : nat) (s : list nat) :
  shape (MaskedArray._data x) = n :: s ->
  shape (MaskedArray._mask x) = n :: s ->
  shape (MaskedArray._data y) = n :: s ->
  shape (MaskedArray._mask y) = n :: s ->
  shape (MaskedArray._data o) = n :: s ->
  shape (MaskedArray._mask o) = n :: s ->
  let dt := result_type (MaskedArray.dtype x) (MaskedArray.dtype y) in
  __call__ self (AMaskedArray x) (AMaskedArray y) (Some (RScalar sc))
    = Raise ValueError /\
  (writeable (MaskedArray._mask o) = false ->
   __call__ self (AMaskedArray x) (AMaskedArray y) (Some (RArray o))
     = Raise ValueError) /\
  (writeable (MaskedArray._data o) = false ->
   __call__ self (AMaskedArray x) (AMaskedArray y) (Some (RArray o))
     = Raise ValueError) /\
  (writeable (MaskedArray._data o) = true ->
   writeable (MaskedArray._mask o) = true ->
   can_cast dt (MaskedArray.dtype o) = false ->
   __call__ self (AMaskedArray x) (AMaskedArray y) (Some (RArray o))
     = Raise UFuncTypeError) /\
  (writeable (MaskedArray._data o) = true ->
   writeable (MaskedArray._mask o) = true ->
   can_cast dt (MaskedArray.dtype o) = true ->
   exists r,
     __call__ self (AMaskedArray x) (AMaskedArray y) (Some (RArray o))
       = Ok (RArray r) /\
     MaskedArray.shape r = n :: s /\
     MaskedArray.dtype r = MaskedArray.dtype o /\
     forall idx,
       in_bounds (n :: s) idx ->
       item (MaskedArray._data r) idx =
         astype (MaskedArray.dtype o)
           (uf_call (f self) (item (MaskedArray._data x) idx)
              (item (MaskedArray._data y) idx)) /\
       item (MaskedArray._mask r) idx =
         item (MaskedArray._mask x) idx || item (MaskedArray._mask y) idx).
Proof.
  intros Hdx Hmx Hdy Hmy Hdo Hmo dt.
  split; [reflexivity|].
  assert (Hmask : writeable (MaskedArray._mask o) = false ->
    __call__ self (AMaskedArray x) (AMaskedArray y) (Some (RArray o))
    = Raise ValueError).
  { intros Hro. unfold __call__. cbn [getdata getmask bind].
    unfold np.logical_or, elementwise2 at 1, value_shape.
    cbn [as_array shape]. rewrite Hmx, Hmy, broadcast_shapes_refl.
    cbn [bind decay shape]. unfold store_out at 1. rewrite Hro.
    reflexivity. }
  assert (Hstep : writeable (MaskedArray._mask o) = true ->
    __call__ self (AMaskedArray x) (AMaskedArray y) (Some (RArray o)) =
    (if negb (writeable (MaskedArray._data o)) then Raise ValueError
     else if negb (can_cast dt (MaskedArray.dtype o))
     then Raise UFuncTypeError
     else
       __call__ self (AMaskedArray x) (AMaskedArray y) (Some (RArray o)))).
  { intros Hwm. unfold __call__. cbn [getdata getmask bind].
    unfold value_dtype. cbn [as_array].
    change (dtype_of (MaskedArray._data x)) with (MaskedArray.dtype x).
    change (dtype_of (MaskedArray._data y)) with (MaskedArray.dtype y).
    fold dt.
    unfold np.logical_or, elementwise2 at 1 3, value_shape.
    cbn [as_array shape]. rewrite Hmx, Hmy, broadcast_shapes_refl.
    cbn [bind decay shape]. unfold store_out at 1 3. rewrite Hwm.
    cbn [negb]. unfold np.broadcast_to, value_shape.
    cbn [as_array shape].
    rewrite Hmo, broadcast_shapes_refl, shape_eqb_refl. cbn [bind].
    destruct (negb (writeable (MaskedArray._data o))); [reflexivity|].
    destruct (negb (can_cast dt (MaskedArray.dtype o))); reflexivity. }
  split; [exact Hmask|]. split; [|split].
  - intros Hro. destruct (writeable (MaskedArray._mask o)) eqn:Hwm;
      [|apply Hmask; reflexivity].
    rewrite (Hstep eq_refl), Hro. reflexivity.
  - intros Hwd Hwm Hcast.
    rewrite (Hstep Hwm), Hwd, Hcast. reflexivity.
  - intros Hwd Hwm Hcast.
    destruct (call_out self x y o n s Hdx Hmx Hdy Hmy Hdo Hmo Hwd Hwm
                Hcast)
      as (r & Hr & Hrd & _ & Hrt & Hri & Hrm).
    exists r. split; [exact Hr|]. split; [exact Hrd|]. split; [exact Hrt|].
    intros idx Hb. rewrite Hri, Hrm, (bindex_in_bounds _ _ Hb).
    split; reflexivity.
Qed.

End OutputArray.

Lemma call_with_out_witness :
  let x := Exact.marray float64 [1; 2]%Z [false; true] in
  let y := Exact.marray int64 [3; 4]%Z [false; false] in
  let o := Exact.marray int64 [0; 0]%Z [false; false] in
  let sc := MaskedScalar.mk (Exact.of_Z 0) false int64 in
  shape (MaskedArray._data x) = [2] /\
  shape (MaskedArray._mask x) = [2] /\
  shape (MaskedArray._data y) = [2] /\
  shape (MaskedArray._mask y) = [2] /\
  __call__ masked_add (AMaskedArray x) (AMaskedArray y) (Some (RScalar sc))
    = Raise ValueError /\
  __call__ masked_add (AMaskedArray x) (AMaskedArray y) (Some (RArray o))
    = Raise UFuncTypeError /\
  exists r,
    __call__ masked_add (AMaskedArray x) (AMaskedArray y) (Some (RArray x))
      = Ok (RArray r) /\
    MaskedArray.shape r = [2] /\
    MaskedArray.dtype r = MaskedArray.dtype x /\
    forall idx,
      in_bounds [2] idx ->
      item (MaskedArray._data r) idx =
        astype (MaskedArray.dtype x)
          (uf_call (f masked_add) (item (MaskedArray._data x) idx)
             (item (MaskedArray._data y) idx)) /\
      item (MaskedArray._mask r) idx =
        item (MaskedArray._mask x) idx || item (MaskedArray._mask y) idx.
Proof.
  intros x y o sc. do 4 (split; [reflexivity|]).
  destruct (call_with_out masked_add x y o sc 2 []
              eq_refl eq_refl eq_refl eq_refl eq_refl eq_refl)
    as (Hsc & _ & _ & Hbad & _).
  destruct (call_with_out masked_add x y x sc 2 []
              eq_refl eq_refl eq_refl eq_refl eq_refl eq_refl)
    as (_ & _ & _ & _ & Hgood).
  split; [exact Hsc|]. split; [exact (Hbad eq_refl eq_refl eq_refl)|].
  exact (Hgood eq_refl eq_refl eq_refl).
Defined.

(** ** Unary operations *)

Section UnaryOps.
Context {T : Type} `{Kernels T}.

(** X14.  A unary operation on a masked array or masked scalar returns a
    result of the shape of the operand, whose mask is the [_mask] of the
    operand and whose data is the kernel applied to its [_data], also under
    the mask (a 0-d array gives a masked scalar); on the sentinel [X] it
    raises [MemoryError]. *)
Theorem uniop_keeps_mask (uf : T -> T) (a : operand T) :
  wf_operand a ->
  is_masked a = true ->
  _Masked_UniOp__call__ uf AX = Raise MemoryError /\
  exists r,
    _Masked_UniOp__call__ uf a = Ok r /\
    result_shape r = operand_shape a /\
    (operand_shape a = [] -> exists s, r = RScalar s) /\
    forall idx,
      in_bounds (operand_shape a) idx ->
      item (result_mask r) idx = item (operand_mask a) idx /\
      item (result_data r) idx = uf (item (operand_data a) idx).
Proof.
  intros Hw Hm. split; [reflexivity|].
  destruct a as [m|s|d|dt x|]; try discriminate.
  - unfold _Masked_UniOp__call__. cbn [getdata getmask type_of].
    unfold decay, elementwise1. cbn [as_array shape].
    unfold operand_shape, operand_data, operand_mask.
    cbn in Hw. unfold wf_array in Hw.
    destruct (shape (MaskedArray._data m)) as [|n sh] eqn:Hs.
    + cbn [is_duckscalar]. unfold construct, MaskedScalar.__init__,
        MaskedScalar.np_bool_. rewrite Hw. cbn [bind].
      eexists. split; [reflexivity|]. cbn.
      split; [reflexivity|]. split; [intros _; eexists; reflexivity|].
      intros idx Hb. apply in_bounds_nil in Hb. subst. split; reflexivity.
    + cbn [is_duckscalar]. unfold construct, MaskedArray.__init__.
      cbn [as_array shape]. rewrite Hw, shape_eqb_refl. cbn [bind].
      eexists. split; [reflexivity|]. cbn.
      split; [reflexivity|]. split; [discriminate|].
      intros idx Hb. split; reflexivity.
  - cbn. eexists. split; [reflexivity|]. cbn.
    split; [reflexivity|]. split; [intros _; eexists; reflexivity|].
    intros idx Hb. split; reflexivity.
Qed.

End UnaryOps.

Lemma uniop_keeps_mask_witness :
  let a := AMaskedArray (Exact.marray int64 [1; 2; 3]%Z
                           [false; true; false]) in
  wf_operand a /\
  is_masked a = true /\
  _Masked_UniOp__call__ Exact.xneg AX = Raise MemoryError /\
  exists r,
    _Masked_UniOp__call__ Exact.xneg a = Ok r /\
    result_shape r = operand_shape a /\
    (operand_shape a = [] -> exists s, r = RScalar s) /\
    forall idx,
      in_bounds (operand_shape a) idx ->
      item (result_mask r) idx = item (operand_mask a) idx /\
      item (result_data r) idx = Exact.xneg (item (operand_data a) idx).
Proof.
  intros a. split; [reflexivity|]. split; [reflexivity|].
  exact (uniop_keeps_mask Exact.xneg a eq_refl eq_refl).
Defined.

(** ** The class of a result *)

Section ResultClass.
Context {T : Type} `{Kernels T}.

Lemma get_mask_cls_loop_ok (args : list (operand T)) :
  forall cls,
  exists c,
    get_mask_cls_loop cls args = Ok c /\
    (c = None <-> cls = None /\ existsb is_masked args = false).
Proof.
  induction args as [|arg rest IH]; intros cls.
  - exists cls. split; [reflexivity|]. cbn. tauto.
  - cbn [get_mask_cls_loop existsb]. unfold is_masked at 1.
    destruct (type_of arg) as [acl|].
    + assert (Hsome : forall c0,
                exists c, get_mask_cls_loop (Some c0) rest = Ok c /\
                          (c = None <-> cls = None /\ true
                                        || existsb is_masked rest = false)).
      { intros c0. destruct (IH (Some c0)) as (c & Hc & Hiff).
        exists c. split; [exact Hc|]. cbn [orb]. split.
        - intros Hn. apply Hiff in Hn. destruct Hn as [Hn _].
          discriminate.
        - intros [_ Hf]. discriminate. }
      destruct cls as [c0|]; [|apply Hsome].
      destruct acl, c0; cbn; apply Hsome.
    + cbn [orb]. apply IH.
Qed.

(** X15.  [get_mask_cls] on any operands of the two base classes never
    raises: it returns [None] when no operand is a masked array or masked
    scalar, and the array class otherwise, also when every masked operand is
    a scalar. *)
Theorem get_mask_cls_total (args : list (operand T)) :
  get_mask_cls args =
  Ok (if existsb is_masked args then Some cls_MaskedArray else None).
Proof.
  unfold get_mask_cls.
  destruct (get_mask_cls_loop_ok args None) as (c & -> & Hiff).
  cbn [bind]. destruct c as [c|]; cbn [option_map].
  - destruct (existsb is_masked args); [reflexivity|].
    assert (Hn : Some c = None) by (apply Hiff; split; reflexivity).
    discriminate.
  - destruct (proj1 Hiff eq_refl) as [_ ->]. reflexivity.
Qed.

End ResultClass.

(** ** Counting *)

Section Counting.
Context {T : Type} `{Kernels T}.

Lemma Zsum_unmasked (l : list (bool * T)) :
  Zsum (map (fun b : bool => if b then 1%Z else 0%Z)
          (map negb (map fst l)))
  = Z.of_nat (List.length (unmasked_values l)).
Proof.
  unfold Zsum, unmasked_values. rewrite length_map.
  induction l as [|[m x] l IH]; [reflexivity|].
  cbn [map fold_right filter fst negb]. rewrite IH.
  destruct m; cbn [negb List.length]; lia.
Qed.

(** X16.  [count] along a valid axis returns, for each slice, the number of
    its unmasked elements: together with the number of masked elements it
    makes up the length of the slice. *)
Theorem count_unmasked (a : MaskedArray.t T) (axis : option Z)
    (keepdims : bool) (k : option nat) :
  wf_array a ->
  resolve_axis axis (ndim (MaskedArray._data a)) = Ok k ->
  exists c,
    MaskedArray.count a axis keepdims = Ok c /\
    value_shape c = reduced_shape (MaskedArray.shape a) k keepdims /\
    forall idx,
      in_bounds (reduced_shape (MaskedArray.shape a) k keepdims) idx ->
      let P := reduced_pairs a k keepdims idx in
      item (as_array c) idx = Z.of_nat (List.length (unmasked_values P)) /\
      (item (as_array c) idx + Z.of_nat (count_masked P)
       = Z.of_nat (List.length P))%Z.
Proof.
  intros Hw Hk. rewrite (count_reduced a axis keepdims k Hw Hk).
  eexists. split; [reflexivity|]. rewrite reduce_result_shape.
  split; [reflexivity|]. intros idx Hb P.
  rewrite (reduce_result_item _ _ _ _ _ idx Hb).
  rewrite fold_lane_Zsum, reduced_logical_not.
  rewrite (reduced_mask a k keepdims idx Hw). fold P.
  rewrite Zsum_unmasked. split; [reflexivity|].
  pose proof (length_unmasked_masked P). lia.
Qed.

End Counting.

Lemma count_unmasked_witness :
  let a := Exact.marray2 int64 2 [[1; 2]; [3; 4]]%Z
             [[false; true]; [true; true]] in
  wf_array a /\
  resolve_axis (Some 0%Z) (ndim (MaskedArray._data a)) = Ok (Some 0) /\
  exists c,
    MaskedArray.count a (Some 0%Z) true = Ok c /\
    value_shape c = reduced_shape (MaskedArray.shape a) (Some 0) true /\
    forall idx,
      in_bounds (reduced_shape (MaskedArray.shape a) (Some 0) true) idx ->
      let P := reduced_pairs a (Some 0) true idx in
      item (as_array c) idx = Z.of_nat (List.length (unmasked_values P)) /\
      (item (as_array c) idx + Z.of_nat (count_masked P)
       = Z.of_nat (List.length P))%Z.
Proof.
  intros a. split; [reflexivity|]. split; [reflexivity|].
  exact (count_unmasked a (Some 0%Z) true (Some 0) eq_refl eq_refl).
Defined.

(** ** Masked scalars *)

Section Scalars.
Context {T : Type} `{Kernels T}.

(** X17.  Round trip of a masked scalar [s] through [filled] with a fill
    value.  An unmasked [s] ignores the fill value, also one its dtype
    cannot store: [s.filled(f)] is its data and
    [MaskedScalar(s.filled(f), s.mask)] is [s] again.  For a masked [s],
    when the scalar type of the dtype converts the fill value to [c], the
    call returns [c] and the rebuilt scalar is masked, false, of the dtype
    of [s], with data [c]; when the conversion fails, [filled] raises its
    error.  The typed sentinel [X(dtype)] is a masked, false scalar of the
    dtype whose [filled] is the conversion of the fill value. *)
Theorem masked_scalar_roundtrip (s : MaskedScalar.t T) (fv : fill T)
    (dt : dtype) :
  (MaskedScalar._mask s = false ->
   MaskedScalar.filled s (Some fv) None = Ok (MaskedScalar._data s) /\
   MaskedScalar.__init__
     (MaskedScalar.FromValue
        (Generic (MaskedScalar.dtype s) (MaskedScalar._data s)))
     (Some (Generic bool_ (MaskedScalar.mask s))) None = Ok s) /\
  (MaskedScalar._mask s = true ->
   match stored (MaskedScalar._dtype s) fv with
   | Ok c =>
       MaskedScalar.filled s (Some fv) None = Ok c /\
       exists s',
         MaskedScalar.__init__
           (MaskedScalar.FromValue (Generic (MaskedScalar.dtype s) c))
           (Some (Generic bool_ (MaskedScalar.mask s))) None = Ok s' /\
         MaskedScalar._mask s' = true /\
         MaskedScalar._dtype s' = MaskedScalar._dtype s /\
         MaskedScalar._data s' = c /\
         MaskedScalar.__bool__ s' = false
   | Raise e => MaskedScalar.filled s (Some fv) None = Raise e
   end) /\
  (exists sx,
      MaskedX__call__ dt = Ok sx /\
      MaskedScalar._mask sx = true /\
      MaskedScalar._dtype sx = dt /\
      MaskedScalar.__bool__ sx = false /\
      MaskedScalar.filled sx (Some fv) None = stored dt fv).
Proof.
  split; [|split].
  - destruct s as [d m sdt]. cbn [MaskedScalar._mask MaskedScalar._data
      MaskedScalar._dtype MaskedScalar.dtype MaskedScalar.mask].
    intros ->. split; reflexivity.
  - destruct s as [d m sdt]. cbn [MaskedScalar._mask MaskedScalar._data
      MaskedScalar._dtype MaskedScalar.dtype MaskedScalar.mask].
    intros ->. unfold MaskedScalar.filled.
    cbn [_get_fill_value bind MaskedScalar._mask MaskedScalar._dtype].
    destruct (stored sdt fv) as [c|e]; [|reflexivity].
    split; [reflexivity|]. eexists. split; [reflexivity|].
    repeat split.
  - eexists. split; [reflexivity|]. repeat split.
Qed.

(** X18.  What the constructor of masked scalars refuses, with
    [ValueError]: a mask given together with a masked scalar, the sentinel
    [X] without dtype or with a mask, an array of one dimension or more as
    data, and an array as mask. *)
Theorem masked_scalar_init_errors (s : MaskedScalar.t T)
    (m : npvalue bool) (dt : dtype) (od : option dtype) (a : ndarray T)
    (ma : ndarray bool) (x : T) (n k : nat) (sh sk : list nat) :
  shape a = n :: sh ->
  shape ma = k :: sk ->
  MaskedScalar.__init__ (MaskedScalar.FromMaskedScalar s) (Some m) od
    = Raise ValueError /\
  MaskedScalar.__init__ MaskedScalar.FromX None None = Raise ValueError /\
  MaskedScalar.__init__ MaskedScalar.FromX (Some m) od = Raise ValueError /\
  MaskedScalar.__init__ (MaskedScalar.FromValue (NDArray a)) (Some m) od
    = Raise ValueError /\
  MaskedScalar.__init__ (MaskedScalar.FromValue (Generic dt x))
    (Some (NDArray ma)) od = Raise ValueError.
Proof.
  intros Ha Hm. unfold MaskedScalar.__init__, MaskedScalar.np_bool_.
  rewrite Ha, Hm. destruct od; repeat split.
Qed.

End Scalars.

Lemma masked_scalar_roundtrip_witness :
  let s := MaskedScalar.mk (Exact.of_Z 7) true int64 in
  let u := MaskedScalar.mk (Exact.of_Z 7) false int64 in
  MaskedScalar.filled u (Some (Given Exact.NaN)) None = Ok (Exact.of_Z 7) /\
  MaskedScalar.filled s (Some (Given Exact.NaN)) None = Raise ValueError /\
  MaskedScalar.filled s (Some (Given (Exact.Fin (3 # 2)))) None
    = Ok (Exact.of_Z 1).
Proof.
  intros s u.
  destruct (masked_scalar_roundtrip u (Given Exact.NaN) int64)
    as (Hu & _ & _).
  destruct (masked_scalar_roundtrip s (Given Exact.NaN) int64)
    as (_ & Hnan & _).
  destruct (masked_scalar_roundtrip s (Given (Exact.Fin (3 # 2))) int64)
    as (_ & Hfin & _).
  split; [exact (proj1 (Hu eq_refl))|].
  split; [exact (Hnan eq_refl)|].
  exact (proj1 (Hfin eq_refl)).
Defined.

Lemma masked_scalar_init_errors_witness :
  let s := MaskedScalar.mk (Exact.of_Z 5) false int64 in
  let a := array1 int64 Exact.NaN [Exact.of_Z 1; Exact.of_Z 2] in
  let ma := array1 bool_ false [true; false] in
  shape a = [2] /\ shape ma = [2] /\
  MaskedScalar.__init__ (MaskedScalar.FromMaskedScalar s)
    (Some (Generic bool_ true)) None = Raise ValueError /\
  MaskedScalar.__init__ (T:=Exact.xnum) MaskedScalar.FromX None None
    = Raise ValueError /\
  MaskedScalar.__init__ (T:=Exact.xnum) MaskedScalar.FromX
    (Some (Generic bool_ true)) None = Raise ValueError /\
  MaskedScalar.__init__ (MaskedScalar.FromValue (NDArray a))
    (Some (Generic bool_ true)) None = Raise ValueError /\
  MaskedScalar.__init__
    (MaskedScalar.FromValue (Generic int64 (Exact.of_Z 5)))
    (Some (NDArray ma)) None = Raise ValueError.
Proof.
  intros s a ma. split; [reflexivity|]. split; [reflexivity|].
  exact (masked_scalar_init_errors s (Generic bool_ true) int64 None a ma
           (Exact.of_Z 5) 2 2 [] [] eq_refl eq_refl).
Defined.

(** ** The outer product *)

Section OuterProduct.
Context {T : Type} `{Kernels T}.

Lemma ravel_logical_not (m : ndarray bool) :
  ravel (np.logical_not m) = map negb (ravel m).
Proof.
  unfold ravel, np.logical_not, elementwise1. cbn [shape item].
  rewrite map_map. reflexivity.
Qed.

Lemma ravel_length {A} (x : ndarray A) :
  List.length (ravel x) = List.length (indices (shape x)).
Proof. unfold ravel. apply length_map. Qed.

(** X19.  [outer] of two masked arrays: the result has one row per element
    of the first operand and one column per element of the second, both
    taken in C order; its element is the product of the two 0-filled
    elements, and it is masked exactly when one of the two is masked. *)
Theorem outer_either_masked (a b : MaskedArray.t T) :
  wf_array a -> wf_array b ->
  let na := List.length (ravel (MaskedArray._data a)) in
  let nb := List.length (ravel (MaskedArray._data b)) in
  let z := of_int (result_type (MaskedArray.dtype a) (MaskedArray.dtype b))
             0 in
  exists r,
    setup_ducktype.outer (AMaskedArray a) (AMaskedArray b) = Ok (RArray r) /\
    MaskedArray.shape r = [na; nb] /\
    shape (MaskedArray._mask r) = [na; nb] /\
    forall i j,
      i < na -> j < nb ->
      item (MaskedArray._mask r) [i; j] =
        nth i (ravel (MaskedArray._mask a)) false
        || nth j (ravel (MaskedArray._mask b)) false /\
      item (MaskedArray._data r) [i; j] =
        multiply
          (nth i (ravel (identity_filled a
                           (of_int (MaskedArray.dtype a) 0) true)) z)
          (nth j (ravel (identity_filled b
                           (of_int (MaskedArray.dtype b) 0) true)) z).
Proof.
  intros Hwa Hwb na nb z. destruct a as [da ma], b as [db mb].
  unfold wf_array in *. cbn [MaskedArray._data MaskedArray._mask] in *.
  unfold setup_ducktype.outer, get_mask_cls.
  cbn [get_mask_cls_loop type_of issubclass bind option_map ArrayType
       setup_ducktype.as_cls MaskedArray.__init__].
  unfold setup_ducktype.zero_filled.
  rewrite (filled_value (MaskedArray.mk da ma) _ true Hwa). cbn [bind].
  rewrite (filled_value (MaskedArray.mk db mb) _ true Hwb). cbn [bind].
  rewrite !filled_value_mask. cbn [MaskedArray._mask MaskedArray._data].
  unfold setup_ducktype._inplace_not.
  cbn [setup_ducktype.value_map].
  unfold maskedarray_or_scalar, construct, MaskedArray.__init__, np.outer.
  cbn [is_duckscalar ArrayType as_array elementwise1 shape].
  rewrite !ravel_length.
  cbn [identity_filled np.logical_not elementwise1 shape].
  unfold MaskedArray.shape. cbn [MaskedArray._data].
  rewrite Hwa, Hwb, shape_eqb_refl. cbn [bind].
  eexists. split; [reflexivity|].
  cbn [MaskedArray._data MaskedArray._mask MaskedArray.shape shape item].
  unfold na, nb. cbn [MaskedArray._data]. rewrite !ravel_length.
  split; [reflexivity|]. split; [reflexivity|].
  intros i j Hi Hj. cbn [nth]. split; [|reflexivity].
  change (elementwise1 negb bool_ ma) with (np.logical_not ma).
  change (elementwise1 negb bool_ mb) with (np.logical_not mb).
  rewrite !ravel_logical_not.
  assert (Hla : i < List.length (map negb (ravel ma)))
    by (rewrite length_map, ravel_length, Hwa; exact Hi).
  assert (Hlb : j < List.length (map negb (ravel mb)))
    by (rewrite length_map, ravel_length, Hwb; exact Hj).
  cbn [elementwise1 item nth].
  rewrite (nth_indep (map negb (ravel ma)) false (negb false) Hla).
  rewrite (nth_indep (map negb (ravel mb)) false (negb false) Hlb).
  rewrite !map_nth.
  destruct (nth i (ravel ma) false), (nth j (ravel mb) false); reflexivity.
Qed.

End OuterProduct.

Lemma outer_either_masked_witness :
  let a := Exact.marray int64 [1; 2]%Z [false; true] in
  let b := Exact.marray int64 [3; 4; 5]%Z [true; false; false] in
  wf_array a /\ wf_array b /\
  exists r,
    setup_ducktype.outer (AMaskedArray a) (AMaskedArray b) = Ok (RArray r) /\
    MaskedArray.shape r = [2; 3] /\
    shape (MaskedArray._mask r) = [2; 3] /\
    forall i j,
      i < 2 -> j < 3 ->
      item (MaskedArray._mask r) [i; j] =
        nth i (ravel (MaskedArray._mask a)) false
        || nth j (ravel (MaskedArray._mask b)) false /\
      item (MaskedArray._data r) [i; j] =
        multiply
          (nth i (ravel (identity_filled a
                           (of_int (MaskedArray.dtype a) 0) true))
             (Exact.of_Z 0))
          (nth j (ravel (identity_filled b
                           (of_int (MaskedArray.dtype b) 0) true))
             (Exact.of_Z 0)).
Proof.
  intros a b. split; [reflexivity|]. split; [reflexivity|].
  exact (outer_either_masked a b eq_refl eq_refl).
Defined.

(** ** Counting the true elements *)

Section CountNonzero.
Context {T : Type} `{Kernels T}.

Lemma Zsum_truth_filled (zero : T) (l : list (bool * T)) :
  truth zero = false ->
  Zsum (map (fun x => if truth x then 1%Z else 0%Z) (fill_lane zero l))
  = Z.of_nat (List.length (filter truth (unmasked_values l))).
Proof.
  intros Hz. unfold Zsum, fill_lane, unmasked_values.
  induction l as [|[m x] l IH]; [reflexivity|].
  cbn [map fold_right filter fst snd negb]. rewrite IH.
  destruct m; cbn [negb map filter].
  - rewrite Hz. reflexivity.
  - cbn [snd]. destruct (truth x); cbn [List.length]; [|reflexivity].
    rewrite Nat2Z.inj_succ. lia.
Qed.

(** X20.  [count_nonzero] of a masked array along a valid axis, for a dtype
    in which 0 is false: each element of the plain result is the number of
    unmasked elements of its slice that are true; masked elements are never
    counted. *)
Theorem count_nonzero_unmasked (a : MaskedArray.t T) (axis : option Z)
    (k : option nat) :
  wf_array a ->
  resolve_axis axis (ndim (MaskedArray._data a)) = Ok k ->
  truth (of_int (MaskedArray.dtype a) 0) = false ->
  exists c,
    setup_ducktype.count_nonzero a axis = Ok c /\
    value_shape c = reduced_shape (MaskedArray.shape a) k false /\
    forall idx,
      in_bounds (reduced_shape (MaskedArray.shape a) k false) idx ->
      item (as_array c) idx =
      Z.of_nat (List.length
                  (filter truth
                     (unmasked_values (reduced_pairs a k false idx)))).
Proof.
  intros Hw Hk Hz. unfold setup_ducktype.count_nonzero.
  rewrite (filled_value a _ true Hw). cbn [bind].
  unfold np.count_nonzero.
  rewrite (reduce_axis_ok _ _ _ _ _ _ _ (identity_filled a _ _) k Hk).
  eexists. split; [reflexivity|]. rewrite reduce_result_shape.
  split; [reflexivity|]. intros idx Hb.
  change (shape (identity_filled a _ _)) with (MaskedArray.shape a).
  rewrite (reduce_result_item _ _ _ _ _ idx Hb).
  rewrite fold_lane_Zsum, (reduced_filled a _ _ k false idx Hw).
  apply Zsum_truth_filled. exact Hz.
Qed.

End CountNonzero.

Lemma count_nonzero_unmasked_witness :
  let a := Exact.marray int64 [1; 5; 0; 7]%Z [false; true; false; false] in
  wf_array a /\
  resolve_axis None (ndim (MaskedArray._data a)) = Ok None /\
  truth (of_int (MaskedArray.dtype a) 0) = false /\
  exists c,
    setup_ducktype.count_nonzero a None = Ok c /\
    value_shape c = reduced_shape (MaskedArray.shape a) None false /\
    forall idx,
      in_bounds (reduced_shape (MaskedArray.shape a) None false) idx ->
      item (as_array c) idx =
      Z.of_nat (List.length
                  (filter truth
                     (unmasked_values (reduced_pairs a None false idx)))).
Proof.
  intros a. do 3 (split; [reflexivity|]).
  exact (count_nonzero_unmasked a None None eq_refl eq_refl eq_refl).
Defined.

(** ** Construction *)

Section Construction.
Context {T : Type} `{Kernels T}.

(** A masked array built from a masked array [a] and a mask holds a
    [float64] copy of the data of [a] and shares its mask with [a], which
    the call updates: afterwards the mask of [a] is the mask of the new
    array, the OR of the old mask and the given one. *)
Lemma init_shares_mask (a b : MaskedArray.t T) (m : npvalue bool)
    (dtype : option dtype) :
  MaskedArray.__init__ (MaskedArray.FromMaskedArray a) (Some m) dtype
    = Ok b ->
  exists a',
    MaskedArray.__init___argument a (Some m) = Ok a' /\
    MaskedArray._mask a' = MaskedArray._mask b /\
    MaskedArray._data a' = MaskedArray._data a /\
    MaskedArray.dtype b = float64 /\
    forall idx,
      item (MaskedArray._data b) idx
      = astype float64 (item (MaskedArray._data a) idx).
Proof.
  unfold MaskedArray.__init__, MaskedArray.__init___argument.
  destruct (MaskedArray.ior_mask (MaskedArray._mask a) m) as [m'|];
    cbn [bind]; [|discriminate].
  intros [= <-]. eexists. split; [reflexivity|]. repeat split.
Qed.

(** X21.  The constructor establishes the invariant of the data model:
    whenever [MaskedArray(data, mask, dtype)] returns (from a plain array,
    from [X], or from a masked array that has the invariant), the mask of
    the new array has the shape of its data.  From a plain array the data is
    the array itself and the mask is the given mask broadcast to its shape
    (no element masked when no mask is given); a mask that does not
    broadcast to the shape of the data is refused with [ValueError], and
    with one that does the constructor returns. *)
Theorem init_establishes_invariant (data : MaskedArray.init_data T)
    (mask : option (npvalue bool)) (dtype : option dtype)
    (b : MaskedArray.t T) :
  match data with
  | MaskedArray.FromMaskedArray a => wf_array a
  | _ => True
  end ->
  MaskedArray.__init__ data mask dtype = Ok b ->
  wf_array b /\
  (forall d,
      data = MaskedArray.FromArray d ->
      MaskedArray._data b = d /\
      forall idx,
        in_bounds (shape d) idx ->
        item (MaskedArray._mask b) idx =
        match mask with
        | None => false
        | Some m => item (as_array m) (bindex (value_shape m) idx)
        end) /\
  (forall d m,
      data = MaskedArray.FromArray d ->
      broadcast_shapes (value_shape m) (shape d) <> Some (shape d) ->
      MaskedArray.__init__ data (Some m) dtype = Raise ValueError) /\
  (forall d m,
      data = MaskedArray.FromArray d ->
      broadcast_shapes (value_shape m) (shape d) = Some (shape d) ->
      exists b', MaskedArray.__init__ data (Some m) dtype = Ok b').
Proof.
  intros Hw Hb. unfold wf_array.
  assert (Hbc : forall (m : npvalue bool) (shp : list nat) (bm : ndarray bool),
             np.broadcast_to m shp = Ok bm ->
             forall idx,
               item bm idx = item (as_array m) (bindex (value_shape m) idx)).
  { intros m shp bm. unfold np.broadcast_to.
    destruct (broadcast_shapes (value_shape m) shp) as [s0|]; [|discriminate].
    destruct (shape_eqb s0 shp); [|discriminate].
    intros [= <-] idx. reflexivity. }
  unfold MaskedArray.__init__ in Hb.
  split; [|split; [|split]].
  - destruct data as [a| |d].
    + destruct mask as [m|].
      * unfold MaskedArray.ior_mask in Hb.
        destruct (negb (writeable (MaskedArray._mask a))); [discriminate|].
        destruct (np.broadcast_to m (shape (MaskedArray._mask a)));
          cbn [bind] in Hb; [|discriminate].
        injection Hb as <-. cbn. exact Hw.
      * injection Hb as <-. exact Hw.
    + destruct mask; [discriminate|]. destruct dtype; [|discriminate].
      injection Hb as <-. reflexivity.
    + destruct mask as [[dt0 v|m]|].
      * destruct (np.broadcast_to (Generic dt0 v) (shape d));
          cbn [bind] in Hb; [|discriminate].
        injection Hb as <-. reflexivity.
      * destruct (shape_eqb (shape m) (shape d)) eqn:E.
        -- injection Hb as <-. cbn. apply shape_eqb_eq. exact E.
        -- destruct (np.broadcast_to (NDArray m) (shape d));
             cbn [bind] in Hb; [|discriminate].
           injection Hb as <-. reflexivity.
      * injection Hb as <-. reflexivity.
  - intros d ->. destruct mask as [[dt0 v|m]|].
    + destruct (np.broadcast_to (Generic dt0 v) (shape d)) as [bm|] eqn:E;
        cbn [bind] in Hb; [|discriminate].
      injection Hb as <-. cbn. split; [reflexivity|].
      intros idx _. apply (Hbc _ _ _ E).
    + destruct (shape_eqb (shape m) (shape d)) eqn:E.
      * injection Hb as <-. cbn. split; [reflexivity|].
        intros idx Hidx. unfold value_shape. cbn [as_array].
        apply shape_eqb_eq in E. rewrite E.
        rewrite (bindex_in_bounds _ _ Hidx). reflexivity.
      * destruct (np.broadcast_to (NDArray m) (shape d)) as [bm|] eqn:E';
          cbn [bind] in Hb; [|discriminate].
        injection Hb as <-. cbn. split; [reflexivity|].
        intros idx _. apply (Hbc _ _ _ E').
    + injection Hb as <-. cbn. split; reflexivity.
  - intros d m -> Hne. unfold MaskedArray.__init__.
    destruct m as [dt0 v|m].
    + unfold np.broadcast_to.
      destruct (broadcast_shapes (value_shape (Generic dt0 v)) (shape d))
        as [s0|] eqn:E; [|reflexivity].
      destruct (shape_eqb s0 (shape d)) eqn:E'; [|reflexivity].
      apply shape_eqb_eq in E'. subst. contradiction.
    + destruct (shape_eqb (shape m) (shape d)) eqn:E.
      * apply shape_eqb_eq in E. exfalso. apply Hne.
        unfold value_shape. cbn [as_array]. rewrite E.
        apply broadcast_shapes_refl.
      * unfold np.broadcast_to.
        destruct (broadcast_shapes (value_shape (NDArray m)) (shape d))
          as [s0|] eqn:E0; [|reflexivity].
        destruct (shape_eqb s0 (shape d)) eqn:E'; [|reflexivity].
        apply shape_eqb_eq in E'. subst. contradiction.
  - intros d m -> Hbs. unfold MaskedArray.__init__.
    destruct m as [dt0 v|m].
    + unfold np.broadcast_to. rewrite Hbs, shape_eqb_refl. cbn [bind].
      eexists. reflexivity.
    + destruct (shape_eqb (shape m) (shape d)); [eexists; reflexivity|].
      unfold np.broadcast_to. rewrite Hbs, shape_eqb_refl. cbn [bind].
      eexists. reflexivity.
Qed.

End Construction.

Lemma init_establishes_invariant_witness :
  let d := array1 int64 Exact.NaN [Exact.of_Z 1; Exact.of_Z 2] in
  let m := Generic bool_ true in
  let b := MaskedArray.mk d
             (mk_ndarray bool_ (shape d)
                (fun idx => item (as_array m) (bindex (value_shape m) idx))
                true) in
  True /\
  MaskedArray.__init__ (MaskedArray.FromArray d) (Some m) None = Ok b /\
  wf_array b /\
  (forall d',
      MaskedArray.FromArray d = MaskedArray.FromArray d' ->
      MaskedArray._data b = d' /\
      forall idx,
        in_bounds (shape d') idx ->
        item (MaskedArray._mask b) idx =
        item (as_array m) (bindex (value_shape m) idx)) /\
  (forall d' m',
      MaskedArray.FromArray d = MaskedArray.FromArray d' ->
      broadcast_shapes (value_shape m') (shape d') <> Some (shape d') ->
      MaskedArray.__init__ (MaskedArray.FromArray d) (Some m') None
        = Raise ValueError) /\
  (forall d' m',
      MaskedArray.FromArray d = MaskedArray.FromArray d' ->
      broadcast_shapes (value_shape m') (shape d') = Some (shape d') ->
      exists b',
        MaskedArray.__init__ (MaskedArray.FromArray d) (Some m') None
          = Ok b').
Proof.
  intros d m b. split; [exact I|]. split; [reflexivity|].
  exact (init_establishes_invariant (MaskedArray.FromArray d) (Some m) None
           b I eq_refl).
Defined.

(** ** Comparisons *)

Section Comparisons.
Context {T : Type} `{Kernels T}.

Lemma cmp_tail (da db : npvalue T) (ma mb : npvalue bool)
    (op : T -> T -> T) (s : list nat) :
  mask_fits ma da -> mask_fits mb db ->
  broadcast_shapes (value_shape da) (value_shape db) = Some s ->
  exists r,
    (data <- elementwise2 op bool_ da db ;;
     mask <- np.logical_or ma mb ;;
     maskedarray_or_scalar data mask (Some cls_MaskedArray)) = Ok r /\
    result_shape r = s /\
    value_dtype (self_data r) = bool_ /\
    forall idx,
      item (result_mask r) idx =
        item (as_array ma) (bindex (value_shape ma) idx)
        || item (as_array mb) (bindex (value_shape mb) idx) /\
      item (result_data r) idx =
        op (item (as_array da) (bindex (value_shape da) idx))
           (item (as_array db) (bindex (value_shape db) idx)).
Proof.
  intros Ha Hb Hs.
  destruct (mask_fits_broadcast ma mb da db s Ha Hb Hs) as (sm & Hm & Hms).
  unfold np.logical_or, elementwise2. rewrite Hm, Hs. cbn [bind].
  unfold maskedarray_or_scalar.
  destruct s as [|n s].
  - apply broadcast_shapes_nil_inv in Hs. destruct Hs as [Hda Hdb].
    assert (Hsm : sm = []).
    { destruct Ha as [Ha|Ha], Hb as [Hb|Hb]; rewrite Ha, Hb in Hm;
        rewrite ?Hda, ?Hdb in Hm; cbn in Hm; congruence. }
    subst sm. cbn.
    eexists. split; [reflexivity|]. cbn.
    assert (Ea : value_shape ma = []).
    { destruct Ha as [Ha|Ha]; congruence. }
    assert (Eb : value_shape mb = []).
    { destruct Hb as [Hb|Hb]; congruence. }
    rewrite Ea, Eb, Hda, Hdb. repeat split.
  - cbn [decay shape is_duckscalar].
    destruct sm as [|k sm].
    + cbn [decay shape dtype_of item construct ScalarType ArrayType as_array].
      unfold MaskedArray.__init__, np.broadcast_to.
      cbn [value_shape as_array shape].
      rewrite broadcast_shapes_nil_l, shape_eqb_refl.
      cbn. eexists. split; [reflexivity|]. cbn.
      destruct (broadcast_shapes_nil_inv _ _ Hm) as [Ea Eb].
      rewrite Ea, Eb. repeat split.
    + cbn [decay shape dtype_of item construct ScalarType ArrayType as_array].
      unfold MaskedArray.__init__. cbn [shape].
      destruct (shape_eqb (k :: sm) (n :: s)) eqn:E.
      * cbn. eexists. split; [reflexivity|]. cbn. repeat split.
      * unfold np.broadcast_to. cbn [value_shape as_array shape].
        rewrite Hms, shape_eqb_refl.
        cbn. eexists. split; [reflexivity|]. cbn.
        repeat split.
        change (rev (bindex_rev (rev sm ++ [k]) (rev idx)))
          with (bindex (k :: sm) idx).
        rewrite (bindex_compose_l _ _ _ idx Hm).
        rewrite (bindex_compose_r _ _ _ idx Hm). reflexivity.
Qed.

End Comparisons.

Section ComparisonResults.
Context {T : Type} `{Kernels T}.

Lemma cmp_op_is_tail (self : masked T) (other : operand T)
    (op : T -> T -> T) :
  _cmp_op self other op =
  (data <- elementwise2 op bool_ (self_data self)
             (resolved_data other (as_operand self)) ;;
   mask <- np.logical_or (self_mask self) (resolved_mask other) ;;
   maskedarray_or_scalar data mask (Some cls_MaskedArray)).
Proof. destruct self, other; reflexivity. Qed.

(** X22.  A comparison of a masked array or masked scalar with any operand
    of the data model whose shape broadcasts with its own: the call returns
    a masked result of the broadcast shape and of dtype [bool_]; its mask
    is the OR of the two operand masks broadcast (a plain operand has mask
    [False], the sentinel [X] has mask [True], so a comparison with [X] is
    masked everywhere), and its data is the comparison kernel applied to
    the broadcast data. *)
Theorem comparison_mask (self : masked T) (other : operand T)
    (op : T -> T -> T) (s : list nat) :
  wf_operand (as_operand self) -> wf_operand other ->
  broadcast_shapes (operand_shape (as_operand self)) (operand_shape other)
    = Some s ->
  exists r,
    _cmp_op self other op = Ok r /\
    result_shape r = s /\
    value_dtype (self_data r) = bool_ /\
    forall idx,
      item (result_mask r) idx =
        item (operand_mask (as_operand self))
          (bindex (operand_shape (as_operand self)) idx)
        || item (operand_mask other) (bindex (operand_shape other) idx) /\
      item (result_data r) idx =
        op (item (as_array (self_data self))
              (bindex (operand_shape (as_operand self)) idx))
           (item (as_array (resolved_data other (as_operand self)))
              (bindex (operand_shape other) idx)).
Proof.
  intros Hws Hwo Hs. rewrite cmp_op_is_tail.
  assert (Hself : self_data self
                  = resolved_data (as_operand self) other)
    by (destruct self; reflexivity).
  assert (Hsm : self_mask self = resolved_mask (as_operand self))
    by (destruct self; reflexivity).
  destruct (cmp_tail (self_data self)
              (resolved_data other (as_operand self))
              (self_mask self) (resolved_mask other) op s)
    as (r & Hr & Hrs & Hdt & Hit).
  - rewrite Hself, Hsm. apply resolved_mask_fits. exact Hws.
  - apply resolved_mask_fits. exact Hwo.
  - rewrite Hself, !resolved_data_shape. exact Hs.
  - exists r. split; [exact Hr|]. split; [exact Hrs|]. split; [exact Hdt|].
    intros idx. destruct (Hit idx) as [Hm Hd]. split.
    + rewrite Hm, Hsm.
      rewrite (resolved_mask_item (as_operand self) idx Hws).
      rewrite (resolved_mask_item other idx Hwo). reflexivity.
    + rewrite Hd. rewrite (resolved_data_shape other).
      assert (Hshape : value_shape (self_data self)
                       = operand_shape (as_operand self))
        by (destruct self; reflexivity).
      rewrite Hshape. reflexivity.
Qed.

End ComparisonResults.

Lemma comparison_mask_witness :
  let a := RArray (Exact.marray int64 [1; 2; 3]%Z [false; true; false]) in
  let b := @AX Exact.xnum in
  wf_operand (as_operand a) /\ wf_operand b /\
  broadcast_shapes (operand_shape (as_operand a)) (operand_shape b)
    = Some [3] /\
  exists r,
    _cmp_op a b (fun x y => if Exact.xle x y then Exact.of_Z 1
                            else Exact.of_Z 0) = Ok r /\
    result_shape r = [3] /\
    value_dtype (self_data r) = bool_ /\
    forall idx,
      item (result_mask r) idx =
        item (operand_mask (as_operand a))
          (bindex (operand_shape (as_operand a)) idx)
        || item (operand_mask b) (bindex (operand_shape b) idx) /\
      item (result_data r) idx =
        (fun x y => if Exact.xle x y then Exact.of_Z 1 else Exact.of_Z 0)
          (item (as_array (self_data a))
             (bindex (operand_shape (as_operand a)) idx))
          (item (as_array (resolved_data b (as_operand a)))
             (bindex (operand_shape b) idx)).
Proof.
  intros a b. split; [reflexivity|]. split; [exact I|].
  split; [reflexivity|].
  exact (comparison_mask a b _ [3] eq_refl I eq_refl).
Defined.

(** ** The flattened scalar product *)

Section ScalarProduct.
Context {T : Type} `{Kernels T}.

Lemma fold_lane_orb_pairs (la lb : list bool) :
  List.length la = List.length lb ->
  (negb (fold_lane orb false
           (map (fun p => andb (fst p) (snd p))
              (combine (map negb la) (map negb lb)))) = true <->
   forall i, i < List.length la ->
     nth i la false = true \/ nth i lb false = true).
Proof.
  intros Hlen. rewrite negb_true_iff, <- not_true_iff_false.
  rewrite fold_lane_orb_true. revert lb Hlen.
  induction la as [|x la IH]; intros [|y lb] Hlen; try discriminate.
  - cbn. split; [intros _ i Hi; lia | intros _ []].
  - cbn [map combine List.length In fst snd]. injection Hlen as Hlen.
    specialize (IH lb Hlen). split.
    + intros Hn [|i] Hi; cbn [nth].
      * destruct x, y; auto; exfalso; apply Hn; left; reflexivity.
      * apply (proj1 IH); [|lia]. intros Hin. apply Hn. right. exact Hin.
    + intros Hall [E|Hin].
      * specialize (Hall 0 (Nat.lt_0_succ _)). cbn [nth] in Hall.
        destruct x, y; cbn in E; try discriminate; destruct Hall; discriminate.
      * apply (proj2 IH); [|exact Hin].
        intros i Hi. apply (Hall (S i)). lia.
Qed.

(** X23.  [vdot] of two masked arrays flattens both in C order.  With
    different numbers of elements it raises [ValueError]; with the same
    number it returns a masked scalar whose data is the sum of the products
    of the conjugated 0-filled elements of the first operand with the
    0-filled elements of the second, and which is masked exactly when every
    position is masked in one operand at least. *)
Theorem vdot_flattened (a b : MaskedArray.t T) :
  wf_array a -> wf_array b ->
  let fa := ravel (identity_filled a (of_int (MaskedArray.dtype a) 0) true) in
  let fb := ravel (identity_filled b (of_int (MaskedArray.dtype b) 0) true) in
  let dt := result_type (MaskedArray.dtype a) (MaskedArray.dtype b) in
  (List.length fa <> List.length fb ->
   setup_ducktype.vdot (AMaskedArray a) (AMaskedArray b)
     = Raise ValueError) /\
  (List.length fa = List.length fb ->
   exists s,
     setup_ducktype.vdot (AMaskedArray a) (AMaskedArray b)
       = Ok (RScalar s) /\
     MaskedScalar._dtype s = dt /\
     (MaskedScalar._mask s = true <->
      forall i, i < List.length fa ->
        nth i (ravel (MaskedArray._mask a)) false = true \/
        nth i (ravel (MaskedArray._mask b)) false = true) /\
     MaskedScalar._data s =
       fold_lane add (of_int dt 0)
         (map (fun p => multiply (conjugate (fst p)) (snd p))
            (combine fa fb))).
Proof.
  intros Hwa Hwb fa fb dt. destruct a as [da ma], b as [db mb].
  unfold wf_array in *. cbn [MaskedArray._data MaskedArray._mask] in *.
  unfold setup_ducktype.vdot, get_mask_cls.
  cbn [get_mask_cls_loop type_of issubclass bind option_map ArrayType
       setup_ducktype.as_cls MaskedArray.__init__].
  unfold setup_ducktype.zero_filled.
  rewrite (filled_value (MaskedArray.mk da ma) _ true Hwa). cbn [bind].
  rewrite (filled_value (MaskedArray.mk db mb) _ true Hwb). cbn [bind].
  rewrite !filled_value_mask. cbn [MaskedArray._mask MaskedArray._data].
  unfold np.vdot. rewrite !ravel_length.
  cbn [identity_filled np.logical_not elementwise1 shape dtype_of].
  assert (Hla : List.length fa = List.length (indices (shape da))).
  { unfold fa. rewrite ravel_length. reflexivity. }
  assert (Hlb : List.length fb = List.length (indices (shape db))).
  { unfold fb. rewrite ravel_length. reflexivity. }
  unfold MaskedArray.shape. cbn [MaskedArray._data].
  rewrite Hla, Hlb, Hwa, Hwb.
  split.
  - intros Hne. apply Nat.eqb_neq in Hne. rewrite Hne. reflexivity.
  - intros He. rewrite (proj2 (Nat.eqb_eq _ _) He). cbn [bind].
    unfold setup_ducktype._inplace_not.
    cbn [setup_ducktype.value_map].
    unfold maskedarray_or_scalar, construct.
    cbn [is_duckscalar ScalarType MaskedScalar.__init__ MaskedScalar.np_bool_
         bind].
    eexists. split; [reflexivity|].
    cbn [MaskedScalar._dtype MaskedScalar._mask MaskedScalar._data].
    split; [reflexivity|]. split; [|reflexivity].
    change (elementwise1 negb bool_ ma) with (np.logical_not ma).
    change (elementwise1 negb bool_ mb) with (np.logical_not mb).
    rewrite !ravel_logical_not.
    assert (Hlen : List.length (ravel ma) = List.length (ravel mb)).
    { rewrite !ravel_length, Hwa, Hwb. exact He. }
    rewrite (fold_lane_orb_pairs _ _ Hlen).
    rewrite ravel_length, Hwa. reflexivity.
Qed.

End ScalarProduct.

Lemma vdot_flattened_witness :
  let a := Exact.marray int64 [1; 2; 3]%Z [false; true; false] in
  let b := Exact.marray int64 [4; 5; 6]%Z [true; false; false] in
  wf_array a /\ wf_array b /\
  exists s,
    setup_ducktype.vdot (AMaskedArray a) (AMaskedArray b) = Ok (RScalar s) /\
    MaskedScalar._mask s = false /\
    MaskedScalar._data s = Exact.of_Z 18.
Proof.
  intros a b. split; [reflexivity|]. split; [reflexivity|].
  destruct (vdot_flattened a b eq_refl eq_refl) as [_ Hv].
  destruct (Hv eq_refl) as (s & Hs & _ & _ & Hd).
  exists s. split; [exact Hs|]. split; [|exact Hd].
  vm_compute in Hs. injection Hs as <-. reflexivity.
Defined.

(** ** The inner product *)

Section InnerProduct.
Context {T : Type} `{Kernels T}.

(** X24.  [inner] of two masked arrays of one dimension at least contracts
    the last axis of both.  When the two last axes differ in length it
    raises [ValueError]; otherwise the result has the leading axes of the
    first operand followed by those of the second, its data is the sum of
    the products of the 0-filled operands, and an element is masked exactly
    when no pair of its contributors is unmasked on both sides. *)
Theorem inner_zero_fill (a b : MaskedArray.t T) (na nb : nat)
    (sa sb : list nat) :
  wf_array a -> wf_array b ->
  MaskedArray.shape a = na :: sa -> MaskedArray.shape b = nb :: sb ->
  let n := last (na :: sa) 0 in
  let ia := fun (idx : list nat) (k : nat) =>
              firstn (List.length sa) idx ++ [k] in
  let ib := fun (idx : list nat) (k : nat) =>
              skipn (List.length sa) idx ++ [k] in
  let shp := removelast (na :: sa) ++ removelast (nb :: sb) in
  (n <> last (nb :: sb) 0 ->
   setup_ducktype.inner (AMaskedArray a) (AMaskedArray b)
     = Raise ValueError) /\
  (n = last (nb :: sb) 0 ->
   exists r,
     setup_ducktype.inner (AMaskedArray a) (AMaskedArray b) = Ok r /\
     result_shape r = shp /\
     forall idx,
       in_bounds shp idx ->
       (item (result_mask r) idx = true <->
        forall k, k < n ->
          item (MaskedArray._mask a) (ia idx k) = true \/
          item (MaskedArray._mask b) (ib idx k) = true) /\
       item (result_data r) idx =
       fold_lane add
         (of_int (result_type (MaskedArray.dtype a) (MaskedArray.dtype b)) 0)
         (map (fun k =>
                 multiply
                   (item (identity_filled a
                            (of_int (MaskedArray.dtype a) 0) true)
                      (ia idx k))
                   (item (identity_filled b
                            (of_int (MaskedArray.dtype b) 0) true)
                      (ib idx k)))
            (seq 0 n))).
Proof.
  intros Hwa Hwb Hsa Hsb n ia ib shp. destruct a as [da ma], b as [db mb].
  unfold wf_array, MaskedArray.shape in *. cbn [MaskedArray._data
    MaskedArray._mask] in *.
  unfold setup_ducktype.inner, get_mask_cls.
  cbn [get_mask_cls_loop type_of issubclass bind option_map ArrayType
       setup_ducktype.as_cls MaskedArray.__init__].
  unfold setup_ducktype.zero_filled.
  rewrite (filled_value (MaskedArray.mk da ma) _ true Hwa). cbn [bind].
  rewrite (filled_value (MaskedArray.mk db mb) _ true Hwb). cbn [bind].
  rewrite !filled_value_mask. cbn [MaskedArray._mask MaskedArray._data].
  unfold np.inner, ndim.
  cbn [identity_filled shape np.logical_not elementwise1 dtype_of].
  unfold MaskedArray.shape, MaskedArray.dtype.
  cbn [MaskedArray._data MaskedArray._mask].
  rewrite Hwa, Hwb, Hsa, Hsb. cbn [List.length Nat.sub].
  rewrite !Nat.sub_0_r. fold n. split.
  - intros Hne. apply Nat.eqb_neq in Hne. rewrite Hne. reflexivity.
  - intros Hn. rewrite <- Hn, Nat.eqb_refl. cbn [bind].
    unfold setup_ducktype._inplace_not. rewrite value_map_decay.
    match goal with
    | |- context [maskedarray_or_scalar (decay (mk_ndarray ?dt ?s ?F true))
                    (decay (mk_ndarray bool_ ?s ?G true)) _] =>
        destruct (decay_pair dt s F G) as (r & Hr & Hsh & _ & Hit)
    end.
    exists r. split; [exact Hr|]. split; [exact Hsh|].
    intros idx Hb. destruct (Hit idx Hb) as [Hm Hd]. split.
    + rewrite Hm, negb_true_iff, fold_lane_orb. split.
      * intros Hall k Hk. unfold ia, ib.
        destruct (item ma (firstn (List.length sa) idx ++ [k])) eqn:Ea;
          [left; reflexivity|].
        destruct (item mb (skipn (List.length sa) idx ++ [k])) eqn:Eb;
          [right; reflexivity|].
        exfalso. enough (true = false) by discriminate.
        apply Hall. apply in_map_iff. exists k. split.
        -- cbn [np.logical_not elementwise1 item]. rewrite Ea, Eb.
           reflexivity.
        -- apply in_seq. lia.
      * intros Hall m Hin. apply in_map_iff in Hin.
        destruct Hin as (k & <- & Hk). apply in_seq in Hk.
        cbn [np.logical_not elementwise1 item].
        destruct (Hall k) as [E|E]; [lia| |];
          unfold ia, ib in E; rewrite E; cbn;
          [reflexivity|apply andb_false_r].
    + rewrite Hd. reflexivity.
Qed.

End InnerProduct.

Lemma inner_zero_fill_witness :
  let a := Exact.marray int64 [1; 2; 3]%Z [false; true; false] in
  let b := Exact.marray int64 [4; 5; 6]%Z [true; false; false] in
  wf_array a /\ wf_array b /\
  MaskedArray.shape a = [3] /\ MaskedArray.shape b = [3] /\
  exists r,
    setup_ducktype.inner (AMaskedArray a) (AMaskedArray b) = Ok r /\
    result_shape r = [] /\
    item (result_mask r) [] = false /\
    item (result_data r) [] = Exact.of_Z 18.
Proof.
  intros a b. do 4 (split; [reflexivity|]).
  destruct (inner_zero_fill a b 3 3 [] [] eq_refl eq_refl eq_refl eq_refl)
    as [_ Hv].
  destruct (Hv eq_refl) as (r & Hr & Hs & _).
  exists r. split; [exact Hr|]. split; [exact Hs|].
  vm_compute in Hr. injection Hr as <-. split; reflexivity.
Defined.
